(** * Outcome voice agent: the SMS agent orchestration engine

    A shallow embedding of the parts of the repository that carry state
    machine behaviour: the outbound chunker ([src/utils/sms.js]), the
    tool-calling loops of the specialists ([src/agents/base-agent.js],
    the real-estate and business agents), the routing table of the SMS
    processor ([src/sms/processor.js], [src/agents/router-agent.js]), the
    multi-provider property search ([src/ai/smart-property-search.js]) and
    the idempotency guard of the SMS webhook.

    Conventions.
    - A JavaScript string is a sequence of code units below 256: [string]
      for names and replies, [list ascii] where the chunker slices it.
    - JSON payloads are [jsval]; numbers are integers.
    - An [await]ed call either returns or throws: [completion].
    - The reasoning model and the tool executor are collaborators: they are
      Section variables indexed by the number of earlier calls, so that an
      arbitrary sequence of answers is covered.
    - The [console.log] lines of the loops are kept as a [trace]. *)

From Stdlib Require Import ZArith Ascii String DecimalString DecimalNat DecimalZ List Lia Bool.
From stdpp Require Import gmap strings list.

Set Warnings "-register-all".

Local Open Scope string_scope.
Local Open Scope list_scope.

(* ===================================================================== *)
(** ** JavaScript string primitives on code-unit lists *)
(* ===================================================================== *)

Module JsString.

(** [String.prototype.trim] removes WhiteSpace and LineTerminator code
    points; below 256 these are TAB, LF, VT, FF, CR, SPACE and NBSP. *)
Definition isWhiteSpace (c : ascii) : bool :=
  let n := nat_of_ascii c in
  (((9 <=? n) && (n <=? 13)) || (n =? 32) || (n =? 160))%nat.

Fixpoint trimStart (s : list ascii) : list ascii :=
  match s with
  | [] => []
  | c :: r => if isWhiteSpace c then trimStart r else s
  end.

Definition trimEnd (s : list ascii) : list ascii := rev (trimStart (rev s)).

Definition trim (s : list ascii) : list ascii := trimEnd (trimStart s).

(** [s.lastIndexOf(c)] for a one-character needle: the last index holding
    [c], or -1. *)
Fixpoint lastIndexOfFrom (c : ascii) (s : list ascii) (i acc : Z) : Z :=
  match s with
  | [] => acc
  | x :: r => lastIndexOfFrom c r (i + 1) (if Ascii.eqb x c then i else acc)
  end.

Definition lastIndexOf (c : ascii) (s : list ascii) : Z :=
  lastIndexOfFrom c s 0 (-1).

(** Decimal rendering of a non-negative integer inside a template
    literal. *)
Definition ofNat (n : nat) : list ascii :=
  list_ascii_of_string (NilEmpty.string_of_uint (Nat.to_uint n)).

(** The text with every white-space code unit deleted. *)
Definition removeWhiteSpace (s : list ascii) : list ascii :=
  List.filter (fun c => negb (isWhiteSpace c)) s.

(** The same primitives on [string]. *)
Definition strim (s : string) : string :=
  string_of_list_ascii (trim (list_ascii_of_string s)).

(** [toLowerCase] on code units below 256: A-Z, and the Latin-1 capitals
    U+00C0-U+00DE without the multiplication sign U+00D7. *)
Definition lowerChar (c : ascii) : ascii :=
  let n := nat_of_ascii c in
  if (((65 <=? n) && (n <=? 90)) ||
      ((192 <=? n) && (n <=? 222) && negb (n =? 215)))%nat
  then ascii_of_nat (n + 32) else c.

Fixpoint toLowerCase (s : string) : string :=
  match s with
  | EmptyString => EmptyString
  | String c r => String (lowerChar c) (toLowerCase r)
  end.

(** [s.includes(needle)] *)
Fixpoint includes (s needle : string) : bool :=
  String.prefix needle s ||
  match s with
  | EmptyString => false
  | String _ r => includes r needle
  end.

(** [s.startsWith(p)] *)
Definition startsWith (s p : string) : bool := String.prefix p s.

(** [s.split(/\s+/)]: the fields between maximal runs of white space;
    a leading or trailing run leaves an empty first or last field. *)
Fixpoint splitWsFrom (s : list ascii) (word : list ascii) (inRun : bool)
  : list (list ascii) :=
  match s with
  | [] => [rev word]
  | c :: r =>
    if isWhiteSpace c then
      if inRun then splitWsFrom r [] true
      else rev word :: splitWsFrom r [] true
    else splitWsFrom r (c :: word) false
  end.

Definition splitWhiteSpace (s : string) : list string :=
  List.map string_of_list_ascii (splitWsFrom (list_ascii_of_string s) [] false).

(** [xs.join(sep)] on strings. *)
Fixpoint join (sep : string) (xs : list string) : string :=
  match xs with
  | [] => ""
  | [x] => x
  | x :: r => x ++ sep ++ join sep r
  end.

Definition ofZ (n : Z) : string := NilEmpty.string_of_int (Z.to_int n).

Definition natToString (n : nat) : string :=
  NilEmpty.string_of_uint (Nat.to_uint n).

End JsString.

(* ===================================================================== *)
(** ** [chunkMessage] of src/utils/sms.js *)
(* ===================================================================== *)

Module Sms.
Import JsString.

Definition defaultMaxLength : nat := 300.

(** One pass of the [while (remaining.length > 0)] loop computes the
    split point. *)
Definition splitPoint (maxLength : nat) (remaining : list ascii) : nat :=
  if (maxLength <? length remaining)%nat then
    let lastSpace := lastIndexOf " "%char (take maxLength remaining) in
    if (0 <? lastSpace)%Z then Z.to_nat lastSpace else maxLength
  else length remaining.

(** The loop; [fuel] bounds the number of passes and [None] means the
    bound was hit before [remaining] became empty. *)
Fixpoint chunkLoop (fuel maxLength : nat) (remaining : list ascii)
  : option (list (list ascii)) :=
  match remaining with
  | [] => Some []
  | _ :: _ =>
    match fuel with
    | O => None
    | S fuel' =>
      let sp := splitPoint maxLength remaining in
      match chunkLoop fuel' maxLength (trim (drop sp remaining)) with
      | Some chunks => Some (trim (take sp remaining) :: chunks)
      | None => None
      end
    end
  end.

(** [`(${i + 1}/${chunks.length}) ${chunk}`] *)
Definition partMarker (i n : nat) : list ascii :=
  "("%char :: ofNat (i + 1) ++ "/"%char :: ofNat n ++ [")"%char; " "%char].

Definition annotate (chunks : list (list ascii)) : list (list ascii) :=
  imap (fun i chunk => partMarker i (length chunks) ++ chunk) chunks.

Definition chunkMessage (message : list ascii) (maxLength : nat)
  : option (list (list ascii)) :=
  if (length message <=? maxLength)%nat then Some [message]
  else
    match chunkLoop (S (length message)) maxLength message with
    | Some chunks =>
      Some (if (1 <? length chunks)%nat then annotate chunks else chunks)
    | None => None
    end.

(** Reading a chunk back: the part marker runs up to the first closing
    parenthesis and the blank after it. *)
Fixpoint dropThrough (c : ascii) (s : list ascii) : list ascii :=
  match s with
  | [] => []
  | x :: r => if Ascii.eqb x c then r else dropThrough c r
  end.

Definition stripMarker (chunk : list ascii) : list ascii :=
  match dropThrough ")"%char chunk with
  | " "%char :: r => r
  | r => r
  end.

(** The bodies of what [chunkMessage] returned: markers are only there
    when there is more than one chunk. *)
Definition chunkBodies (out : list (list ascii)) : list (list ascii) :=
  if (1 <? length out)%nat then List.map stripMarker out else out.

End Sms.


(* ===================================================================== *)
(** ** JSON values and the JavaScript operators the code applies to them *)
(* ===================================================================== *)

Module Js.
Import JsString.

Inductive jsval : Type :=
| JUndefined
| JNull
| JBool (b : bool)
| JNum (n : Z)
| JStr (s : string)
| JArr (items : list jsval)
| JObj (fields : list (string * jsval)).

(** An [await]ed call or a statement that may raise. *)
Inductive completion (A : Type) : Type :=
| Normal (a : A)
| Throw (error : string).
Arguments Normal {A} a.
Arguments Throw {A} error.

(** ToBoolean. *)
Definition truthy (v : jsval) : bool :=
  match v with
  | JUndefined | JNull => false
  | JBool b => b
  | JNum n => negb (n =? 0)%Z
  | JStr s => negb (String.eqb s "")
  | JArr _ | JObj _ => true
  end.

Definition isString (v : jsval) : bool :=
  match v with JStr _ => true | _ => false end.

Definition isNullish (v : jsval) : bool :=
  match v with JUndefined | JNull => true | _ => false end.

Fixpoint lookupField (k : string) (fields : list (string * jsval)) : jsval :=
  match fields with
  | [] => JUndefined
  | (k', v) :: r => if String.eqb k' k then v else lookupField k r
  end.

(** [v.k] for a [v] that is not null or undefined (every read below is
    behind such a guard, or the guard is written out). Own data
    properties only: the fields of an object, and [length] of a string
    or an array. *)
Definition get (v : jsval) (k : string) : jsval :=
  match v with
  | JObj fields => lookupField k fields
  | JStr s => if String.eqb k "length" then JNum (Z.of_nat (String.length s)) else JUndefined
  | JArr items => if String.eqb k "length" then JNum (Z.of_nat (length items)) else JUndefined
  | _ => JUndefined
  end.

(** ToNumber on the primitives that occur as operands of [<] and [>];
    [None] is NaN. A string, array or object operand is read as NaN: the
    model has no numeric strings in a [length] position. *)
Definition toNumber (v : jsval) : option Z :=
  match v with
  | JNum n => Some n
  | JNull => Some 0%Z
  | JBool b => Some (if b then 1 else 0)%Z
  | _ => None
  end.

Definition ltNum (v : jsval) (n : Z) : bool :=
  match toNumber v with Some z => (z <? n)%Z | None => false end.

Definition gtNum (v : jsval) (n : Z) : bool :=
  match toNumber v with Some z => (n <? z)%Z | None => false end.

(** [Object.keys(v).length] for a value that [JSON.parse] can return;
    [Object.keys(null)] raises a TypeError. *)
Definition objectKeysLength (v : jsval) : completion nat :=
  match v with
  | JUndefined | JNull => Throw "TypeError"
  | JBool _ | JNum _ => Normal 0
  | JStr s => Normal (String.length s)
  | JArr items => Normal (length items)
  | JObj fields => Normal (length fields)
  end.

(** ToString, as applied by template literals and [Array.prototype.join]. *)
Fixpoint toString (v : jsval) : string :=
  match v with
  | JUndefined => "undefined"
  | JNull => "null"
  | JBool true => "true"
  | JBool false => "false"
  | JNum n => ofZ n
  | JStr s => s
  | JArr items =>
    join "," (List.map (fun x => if isNullish x then "" else toString x) items)
  | JObj _ => "[object Object]"
  end.

Definition joinValues (sep : string) (items : list jsval) : string :=
  join sep (List.map (fun x => if isNullish x then "" else toString x) items).

(** [JSON.stringify]: string quoting. *)
Definition hexDigit (n : nat) : ascii :=
  ascii_of_nat (if (n <? 10)%nat then 48 + n else 87 + n).

Definition escapeChar (c : ascii) : string :=
  let n := nat_of_ascii c in
  if (n =? 34)%nat then "\" ++ String c ""
  else if (n =? 92)%nat then "\\"
  else if (n =? 8)%nat then "\b"
  else if (n =? 9)%nat then "\t"
  else if (n =? 10)%nat then "\n"
  else if (n =? 12)%nat then "\f"
  else if (n =? 13)%nat then "\r"
  else if (n <? 32)%nat then
    "\u00" ++ String (hexDigit (n / 16)) (String (hexDigit (n mod 16)) "")
  else String c "".

Fixpoint escapeString (s : string) : string :=
  match s with
  | EmptyString => ""
  | String c r => escapeChar c ++ escapeString r
  end.

Definition quote (s : string) : string :=
  String (ascii_of_nat 34) (escapeString s ++ String (ascii_of_nat 34) "").

(** [JSON.stringify(v)] for [v] other than a top-level [undefined]:
    [undefined] prints as [null] inside an array and drops its key inside
    an object. *)
Fixpoint stringify (v : jsval) : string :=
  match v with
  | JUndefined | JNull => "null"
  | JBool true => "true"
  | JBool false => "false"
  | JNum n => ofZ n
  | JStr s => quote s
  | JArr items => "[" ++ join "," (List.map stringify items) ++ "]"
  | JObj fields =>
    let fix members (fs : list (string * jsval)) : list string :=
      match fs with
      | [] => []
      | (k, x) :: r =>
        match x with
        | JUndefined => members r
        | _ => (quote k ++ ":" ++ stringify x)%string :: members r
        end
      end in
    "{" ++ join "," (members fields) ++ "}"
  end.

End Js.

(* ===================================================================== *)
(** ** The reasoning collaborator's request and response shapes *)
(* ===================================================================== *)

Module Reasoning.
Import JsString Js.

(** An element of [message.content]; [p.text] is a string in the
    Responses API. A [null] element is [None]. *)
Record contentPart : Type := { part_type : string; part_text : string }.

(** An element of [response.output]. The [arguments] string of a function
    call is kept as what [JSON.parse] makes of it: [None] when the parse
    raises a SyntaxError. [content] is [None] when it is not an array. *)
Inductive outputItem : Type :=
| FunctionCall (name : string) (arguments : option jsval)
| MessageItem (role : string) (content : option (list (option contentPart)))
| OtherItem (type : string).

Record response : Type := {
  output_text : option string;
  output : option (list outputItem)
}.

(** What a follow-up request depends on: the tool results gathered so far
    (rendered into [toolResultInput]) and the tool catalog, withdrawn when
    [shouldDisableTools] holds or the agent has no tools. *)
Record request : Type := {
  req_toolResults : list (string * jsval);
  req_finalInstruction : bool;
  req_tools : option (list string)
}.

Record functionCall : Type := { fc_name : string; fc_arguments : option jsval }.

(** [currentResponse.output?.filter(item => item.type === 'function_call') || []] *)
Definition functionCallsOf (r : response) : list functionCall :=
  match output r with
  | None => []
  | Some items =>
    omap (fun item =>
            match item with
            | FunctionCall name arguments =>
              Some {| fc_name := name; fc_arguments := arguments |}
            | _ => None
            end) items
  end.

(** The text of the message items, as every specialist collects it:
    [output.filter(message).flatMap(content).filter(p => p && (p.type ===
    'output_text' || p.type === 'text')).map(p => p.text).filter(Boolean)]. *)
Definition messageParts (items : list outputItem) : list string :=
  let contents :=
    flat_map (fun item =>
                match item with
                | MessageItem _ (Some content) => content
                | _ => []
                end) items in
  let texts :=
    omap (fun p =>
            match p with
            | Some part =>
              if String.eqb (part_type part) "output_text" ||
                 String.eqb (part_type part) "text"
              then Some (part_text part) else None
            | None => None
            end) contents in
  List.filter (fun t => negb (String.eqb t "")) texts.

(** [(currentResponse.output_text || '').trim()], then the scan of the
    output array when that is empty. *)
Definition extractText (r : response) : string :=
  let finalText := strim (default "" (output_text r)) in
  if String.eqb finalText "" then
    match output r with
    | Some items => strim (join (String (ascii_of_nat 10) "") (messageParts items))
    | None => finalText
    end
  else finalText.

(** The reply object [{content, tool_calls: null, role: 'assistant'}]. *)
Record reply : Type := { content : jsval }.

(** The lines the loops write to the console, newest first. *)
Inductive event : Type :=
| EvReason (req : request)
| EvSkipSuccessful (name : string)
| EvSkipFailed (name : string) (failedCount : nat)
| EvParseFailed (name : string)
| EvFallbackFailed (name : string)
| EvExecute (name : string) (args : jsval) (result : completion jsval).

Definition isReason (e : event) : bool :=
  match e with EvReason _ => true | _ => false end.

Definition isExecute (e : event) : bool :=
  match e with EvExecute _ _ _ => true | _ => false end.

Definition reasonCalls (trace : list event) : nat :=
  length (List.filter isReason trace).

(** Reading a trace: executions of a tool, those that returned, and the
    failures the generic loop counts (unparseable arguments, empty
    arguments without fallback, an execution that raised). *)
Definition executesTool (name : string) (e : event) : bool :=
  match e with
  | EvExecute n _ _ => String.eqb n name
  | _ => false
  end.

Definition succeeds (name : string) (e : event) : bool :=
  match e with
  | EvExecute n _ (Normal _) => String.eqb n name
  | _ => false
  end.

Definition fails (name : string) (e : event) : bool :=
  match e with
  | EvParseFailed n | EvFallbackFailed n | EvExecute n _ (Throw _) =>
    String.eqb n name
  | _ => false
  end.

Definition executions (name : string) (trace : list event) : nat :=
  length (List.filter (executesTool name) trace).

Definition successes (name : string) (trace : list event) : nat :=
  length (List.filter (succeeds name) trace).

Definition failures (name : string) (trace : list event) : nat :=
  length (List.filter (fails name) trace).

(** The invocations of [name] that got past both skip checks. *)
Definition attempts (name : string) (trace : list event) : nat :=
  successes name trace + failures name trace.

(** Was [name] executed again after an execution of it had returned? *)
Fixpoint executedAfterSuccess (name : string) (trace : list event) : bool :=
  match trace with
  | [] => false
  | e :: older =>
    (executesTool name e && (0 <? successes name older)%nat) ||
    executedAfterSuccess name older
  end.

(** Was [name] attempted again after it had failed twice? *)
Fixpoint attemptedAfterCeiling (name : string) (trace : list event) : bool :=
  match trace with
  | [] => false
  | e :: older =>
    ((succeeds name e || fails name e) && (2 <=? failures name older)%nat) ||
    attemptedAfterCeiling name older
  end.

(** An execution that raised. *)
Definition threw (e : event) : bool :=
  match e with
  | EvExecute _ _ (Throw _) => true
  | _ => false
  end.

Definition executeCalls (trace : list event) : nat :=
  length (List.filter isExecute trace).

(** How a [for ... of functionCalls] loop is left: by [break], by
    running out of calls, by [return] or by an uncaught exception. *)
Inductive forExit (S : Type) : Type :=
| ForBreak (st : S)
| ForEnd (st : S)
| ForReturn (st : S) (r : reply)
| ForThrow (st : S) (error : string).
Arguments ForBreak {S} st.
Arguments ForEnd {S} st.
Arguments ForReturn {S} st r.
Arguments ForThrow {S} st error.

(** How a [while] loop is left: by [break] or its bound, by a [return]
    from inside, or by an uncaught exception. *)
Inductive loopExit (S : Type) : Type :=
| LoopDone (st : S)
| LoopReturn (st : S) (r : reply)
| LoopThrow (st : S) (error : string).
Arguments LoopDone {S} st.
Arguments LoopReturn {S} st r.
Arguments LoopThrow {S} st error.

(** How [process] / [handleToolCalls] ends: the final loop variables and
    the returned reply or the exception that escapes. *)
Record run (S : Type) : Type := {
  run_state : S;
  run_result : completion reply
}.
Arguments run_state {S} r.
Arguments run_result {S} r.

Definition exitState {S : Type} (x : loopExit S) : S :=
  match x with
  | LoopDone st | LoopReturn st _ | LoopThrow st _ => st
  end.

(** The newest of the tool results gathered so far, [null] when none. *)
Definition lastOutcome (results : list (string * jsval)) : jsval :=
  match last results with
  | Some (_, result) => result
  | None => JNull
  end.

Definition maxIterations : nat := 10.

End Reasoning.

(* ===================================================================== *)
(** ** [SubAgent] of src/agents/base-agent.js: the generic specialist *)
(* ===================================================================== *)

Module BaseAgent.
Import JsString Js Reasoning.

(** The regular expressions of [extractFallbackParameters], in source
    order. *)
Inductive pattern : Type :=
| TopicTrends | TopicWhat | TopicCurrent | TopicSubject
| LocationIn | LocationMarket
| DataType
| AddressStreet | AddressNear
| LocationArea.

Definition topicPatterns : list pattern :=
  [TopicTrends; TopicWhat; TopicCurrent; TopicSubject].
Definition locationPatterns : list pattern := [LocationIn; LocationMarket].
Definition addressPatterns : list pattern := [AddressStreet; AddressNear].

Definition isMember (w : string) (ws : list string) : bool :=
  existsb (String.eqb w) ws.

Record loopState : Type := {
  currentResponse : response;
  iterations : nat;
  lastToolResult : jsval;
  successfulTools : gset string;
  failedAttempts : gmap string nat;
  allToolResults : list (string * jsval);
  trace : list event
}.

Definition logEvent (e : event) (st : loopState) : loopState :=
  {| currentResponse := currentResponse st;
     iterations := iterations st;
     lastToolResult := lastToolResult st;
     successfulTools := successfulTools st;
     failedAttempts := failedAttempts st;
     allToolResults := allToolResults st;
     trace := e :: trace st |}.

(** [failedAttempts.set(name, failedCount + 1)] *)
Definition markFailed (name : string) (failedCount : nat) (st : loopState)
  : loopState :=
  {| currentResponse := currentResponse st;
     iterations := iterations st;
     lastToolResult := lastToolResult st;
     successfulTools := successfulTools st;
     failedAttempts := <[name := failedCount + 1]> (failedAttempts st);
     allToolResults := allToolResults st;
     trace := trace st |}.

Definition nextIteration (st : loopState) : loopState :=
  {| currentResponse := currentResponse st;
     iterations := S (iterations st);
     lastToolResult := lastToolResult st;
     successfulTools := successfulTools st;
     failedAttempts := failedAttempts st;
     allToolResults := allToolResults st;
     trace := trace st |}.

Definition beMoreSpecific : string :=
  "I found the data you requested. The analysis shows multiple records with varying performance metrics. Please be more specific about which aspects you'd like me to analyze.".

Definition apology : string :=
  "I apologize, but I couldn't generate a response. Please try again.".

(** Lines 423-454: the final text. After the tool-result fallback
    [finalText] holds whatever the payload held, hence a [jsval]. *)
Definition finalize (r : response) (lastToolResult : jsval) : jsval :=
  let finalText := extractText r in
  let withToolResult :=
    if String.eqb finalText "" && truthy lastToolResult then
      match lastToolResult with
      | JStr s =>
        if ltNum (get lastToolResult "length") 500
        then JStr (String.substring 0 500 s)
        else JStr beMoreSpecific
      | _ =>
        let message := get lastToolResult "message" in
        if truthy message && ltNum (get message "length") 500
        then message
        else JStr beMoreSpecific
      end
    else JStr finalText in
  if truthy withToolResult then withToolResult else JStr apology.

Section Process.

(** [userMessage.match(pattern)]: the match array, absent groups as
    the empty string. *)
Variable regexMatch : pattern -> string -> option (list string).
(** Names of [this.tools]. *)
Variable tools : list string.
(** [this.openai.responses.create], by the number of earlier calls. *)
Variable openai : nat -> request -> response.
(** [toolExecutor(name, args, userContext)], by the number of earlier
    executions. *)
Variable toolExecutor : nat -> string -> jsval -> completion jsval.
(** [messages[messages.length - 1]?.content || ''] *)
Variable userMessage : string.

Definition group (i : nat) (m : list string) : string := nth i m "".

(** The first pattern whose match has a non-empty first group. *)
Fixpoint firstGroup (ps : list pattern) (ok : string -> bool) : option string :=
  match ps with
  | [] => None
  | p :: r =>
    match regexMatch p userMessage with
    | Some m =>
      if negb (String.eqb (group 1 m) "") && ok (group 1 m)
      then Some (strim (group 1 m))
      else firstGroup r ok
    | None => firstGroup r ok
    end
  end.

Definition keyWords (stop : list string) : list string :=
  List.filter (fun word => (3 <? String.length word)%nat && negb (isMember word stop))
    (splitWhiteSpace (toLowerCase userMessage)).

Definition webSearchFallback : list (string * jsval) :=
  let messageLower := toLowerCase userMessage in
  let query0 := default "" (firstGroup topicPatterns (fun _ => true)) in
  let query :=
    if String.eqb query0 "" then
      join " " (take 5 (keyWords
        ["what"; "are"; "the"; "current"; "about"; "can"; "you"; "tell";
         "me"; "show"; "give"; "find"]))
    else query0 in
  let location :=
    default "" (firstGroup locationPatterns
                  (fun g => (2 <? String.length g)%nat)) in
  let withLocation :=
    if String.eqb location "" then query else query +:+ " " +:+ location in
  let finalQuery :=
    if includes messageLower "current" || includes messageLower "trends" ||
       includes messageLower "recent"
    then withLocation +:+ " 2025" else withLocation in
  if String.eqb finalQuery "" then [("query", JStr "current market information")]
  else [("query", JStr finalQuery)].

Definition businessFallback : list (string * jsval) :=
  let messageLower := toLowerCase userMessage in
  let keywordTerms :=
    List.filter (fun keyword => includes messageLower keyword)
      ["performance"; "metrics"; "data"; "analysis"; "report"; "score";
       "revenue"; "profit"; "sales"; "kpi"] in
  let businessTerms :=
    match regexMatch DataType userMessage with
    | Some m =>
      if String.eqb (group 1 m) "" then keywordTerms
      else keywordTerms ++ [strim (group 1 m)]
    | None => keywordTerms
    end in
  [("query", JStr (if (0 <? length businessTerms)%nat
                   then join " " businessTerms else "workspace data"))].

Fixpoint firstAddress (ps : list pattern) : option string :=
  match ps with
  | [] => None
  | p :: r =>
    match regexMatch p userMessage with
    | Some m =>
      let address := if String.eqb (group 0 m) "" then group 1 m else group 0 m in
      if negb (String.eqb address "") && (5 <? String.length address)%nat
      then Some (strim address)
      else firstAddress r
    | None => firstAddress r
    end
  end.

Definition propertyFallback : list (string * jsval) :=
  let messageLower := toLowerCase userMessage in
  match firstAddress addressPatterns with
  | Some address => [("address", JStr address)]
  | None =>
    match firstGroup [LocationArea] (fun _ => true) with
    | Some location => [("address", JStr location)]
    | None =>
      let propertyTerms :=
        List.filter (fun keyword => includes messageLower keyword)
          ["commercial"; "office"; "retail"; "industrial"; "residential";
           "apartment"; "condo"; "house"] in
      if (0 <? length propertyTerms)%nat
      then [("query", JStr (join " " propertyTerms +:+ " properties"))]
      else [("query", JStr "property search")]
    end
  end.

Definition genericFallback : list (string * jsval) :=
  let meaningfulWords :=
    keyWords ["what"; "are"; "the"; "can"; "you"; "tell"; "me"; "show";
              "give"; "find"; "about"] in
  if (0 <? length meaningfulWords)%nat
  then [("query", JStr (join " " (take 3 meaningfulWords)))]
  else [].

(** The fields of the object [extractFallbackParameters] returns. *)
Definition extractFallbackParameters (toolName : string) : list (string * jsval) :=
  if String.eqb toolName "web_search_sms" then webSearchFallback
  else if String.eqb toolName "smart_data_query_sms" then businessFallback
  else if String.eqb toolName "smart_property_search_sms" ||
          String.eqb toolName "attom_property_search_sms" ||
          String.eqb toolName "rentcast_property_search_sms"
  then propertyFallback
  else genericFallback.

(** [tools: shouldDisableTools ? undefined : this.tools.length > 0 ?
    this.tools.map(...) : undefined] *)
Definition offeredTools (shouldDisableTools : bool) : option (list string) :=
  if shouldDisableTools then None
  else if (0 <? length tools)%nat then Some tools else None.

Definition initialRequest : request :=
  {| req_toolResults := [];
     req_finalInstruction := false;
     req_tools := offeredTools false |}.

(** Lines 359-407: the tool returned. The follow-up reasoning request
    stands inside the same [try]; it is taken to answer. *)
Definition afterSuccess (name : string) (args toolResult : jsval)
  (st : loopState) : loopState :=
  let successful := {[name]} ∪ successfulTools st in
  let results := allToolResults st ++ [(name, toolResult)] in
  let shouldDisableTools :=
    bool_decide ("smart_data_query_sms" ∈ successful) ||
    (2 <=? size successful)%nat ||
    (3 <=? iterations st)%nat in
  let req :=
    {| req_toolResults := results;
       req_finalInstruction := shouldDisableTools;
       req_tools := offeredTools shouldDisableTools |} in
  let executed := EvExecute name args (Normal toolResult) :: trace st in
  {| currentResponse := openai (reasonCalls executed) req;
     iterations := iterations st;
     lastToolResult := toolResult;
     successfulTools := successful;
     failedAttempts := failedAttempts st;
     allToolResults := results;
     trace := EvReason req :: executed |}.

(** Lines 331-349: empty arguments go through the fallback extraction;
    [None] when that finds nothing either. *)
Definition resolveArguments (name : string) (args : jsval) (keys : nat)
  : option jsval :=
  if (keys =? 0)%nat then
    let fallbackArgs := extractFallbackParameters name in
    if (0 <? length fallbackArgs)%nat then Some (JObj fallbackArgs) else None
  else Some args.

(** Lines 301-414: [for (const functionCall of functionCalls)].
    [toolsExecutedThisIteration] is true exactly on [ForBreak]. *)
Fixpoint forCalls (calls : list functionCall) (st : loopState)
  : forExit loopState :=
  match calls with
  | [] => ForEnd st
  | fc :: rest =>
    let name := fc_name fc in
    if bool_decide (name ∈ successfulTools st) then
      forCalls rest (logEvent (EvSkipSuccessful name) st)
    else
      let failedCount := default 0 (failedAttempts st !! name) in
      if (2 <=? failedCount)%nat then
        forCalls rest (logEvent (EvSkipFailed name failedCount) st)
      else
        match fc_arguments fc with
        | None =>
          forCalls rest
            (markFailed name failedCount (logEvent (EvParseFailed name) st))
        | Some args =>
          match objectKeysLength args with
          | Throw e => ForThrow st e
          | Normal keys =>
            match resolveArguments name args keys with
            | None =>
              forCalls rest
                (markFailed name failedCount
                   (logEvent (EvFallbackFailed name) st))
            | Some args' =>
              match toolExecutor (executeCalls (trace st)) name args' with
              | Normal toolResult =>
                ForBreak (afterSuccess name args' toolResult st)
              | Throw e =>
                forCalls rest
                  (markFailed name failedCount
                     (logEvent (EvExecute name args' (Throw e)) st))
              end
            end
          end
        end
  end.

(** Lines 282-421: [while (iterations < maxIterations)]. [fuel] bounds
    the passes of the model; [None] means it ran out. (The generic [for]
    loop has no [return]: [ForReturn] does not occur here.) *)
Fixpoint whileLoop (fuel : nat) (st : loopState)
  : option (loopExit loopState) :=
  match fuel with
  | O => None
  | S fuel' =>
    if (iterations st <? maxIterations)%nat then
      let st1 := nextIteration st in
      let functionCalls := functionCallsOf (currentResponse st1) in
      if (length functionCalls =? 0)%nat then Some (LoopDone st1)
      else
        match forCalls functionCalls st1 with
        | ForBreak st2 => whileLoop fuel' st2
        | ForEnd st2 => Some (LoopDone st2)
        | ForReturn st2 r => Some (LoopReturn st2 r)
        | ForThrow st2 e => Some (LoopThrow st2 e)
        end
    else Some (LoopDone st)
  end.

Definition initialState : loopState :=
  {| currentResponse := openai 0 initialRequest;
     iterations := 0;
     lastToolResult := JNull;
     successfulTools := ∅;
     failedAttempts := ∅;
     allToolResults := [];
     trace := [EvReason initialRequest] |}.

(** [SubAgent.process]. *)
Definition process (fuel : nat) : option (run loopState) :=
  match whileLoop fuel initialState with
  | None => None
  | Some (LoopDone st) =>
    Some {| run_state := st;
            run_result :=
              Normal {| content := finalize (currentResponse st) (lastToolResult st) |} |}
  | Some (LoopReturn st r) =>
    Some {| run_state := st; run_result := Normal r |}
  | Some (LoopThrow st e) =>
    Some {| run_state := st; run_result := Throw e |}
  end.

End Process.

End BaseAgent.

(* ===================================================================== *)
(** ** [handleToolCalls] of the real-estate and business specialists *)
(* ===================================================================== *)

Module Specialist.
Import JsString Js Reasoning.

Record handlerState : Type := {
  currentResponse : response;
  iterations : nat;
  lastToolResult : jsval;
  calledTools : gset string;
  allToolResults : list (string * jsval);
  trace : list event
}.

Definition logEvent (e : event) (st : handlerState) : handlerState :=
  {| currentResponse := currentResponse st;
     iterations := iterations st;
     lastToolResult := lastToolResult st;
     calledTools := calledTools st;
     allToolResults := allToolResults st;
     trace := e :: trace st |}.

Definition nextIteration (st : handlerState) : handlerState :=
  {| currentResponse := currentResponse st;
     iterations := S (iterations st);
     lastToolResult := lastToolResult st;
     calledTools := calledTools st;
     allToolResults := allToolResults st;
     trace := trace st |}.

(** What differs between the two copies of [handleToolCalls]. *)
Record policy : Type := {
  (** the tool whose success withdraws the catalog *)
  primaryTool : string;
  (** whether the copy has the [toolsExecutedThisIteration] break *)
  breaksWhenIdle : bool;
  (** the reply of the [catch] around the tool call *)
  toolErrorReply : string;
  (** the final text from the last response and the last tool result *)
  finalText : response -> jsval -> completion jsval
}.

(** *** Real estate: lines 152-178 of the real-estate agent *)

Definition realEstateToolError : string :=
  "I apologize, but I encountered an error processing your property request. Please try again.".

Definition realEstateApology : string :=
  "I apologize, but I couldn't generate a response about the property. Please try again.".

Definition realEstateDetails : string :=
  "I retrieved the property information successfully. Here are the details: ".

Definition realEstateFinalize (r : response) (lastToolResult : jsval) : jsval :=
  let finalText := extractText r in
  let withToolResult :=
    if String.eqb finalText "" && truthy lastToolResult then
      match lastToolResult with
      | JStr _ => lastToolResult
      | _ =>
        let message := get lastToolResult "message" in
        if truthy message then message
        else JStr (realEstateDetails +:+ stringify lastToolResult)
      end
    else JStr finalText in
  if truthy withToolResult then withToolResult else JStr realEstateApology.

Definition realEstatePolicy : policy :=
  {| primaryTool := "smart_property_search_sms";
     breaksWhenIdle := false;
     toolErrorReply := realEstateToolError;
     finalText := fun r v => Normal (realEstateFinalize r v) |}.

(** *** Business: lines 380-421 of the business agent *)

Definition businessToolError : string :=
  "I apologize, but I encountered an error processing your request. Please try again.".

Definition businessApology : string :=
  "I apologize, but I couldn't generate a response. Please try again.".

Definition businessGeneric : string :=
  "I successfully retrieved the data from your workspace. The query returned results, but I need more specific instructions on what analysis or insights you need from this data.".

(** [lastToolResult.tables.map(t => t.name).join(', ')]: [map] exists on
    arrays only, and [t.name] raises on a [null] element. *)
Definition tableNames (tables : jsval) : completion string :=
  match tables with
  | JArr items =>
    if existsb isNullish items then Throw "TypeError"
    else Normal (joinValues ", " (List.map (fun t => get t "name") items))
  | _ => Throw "TypeError"
  end.

Definition outcomeSummary (lastToolResult : jsval) : completion jsval :=
  let head :=
    "I found data from your " +:+ toString (get lastToolResult "outcome") +:+
    " outcome. " in
  let tables := get lastToolResult "tables" in
  let data := get lastToolResult "data" in
  let tail :=
    if truthy data
    then String (ascii_of_nat 10) (String (ascii_of_nat 10) (toString data))
    else "Please let me know what specific analysis you need." in
  if truthy tables && gtNum (get tables "length") 0 then
    match tableNames tables with
    | Normal names =>
      Normal (JStr (head +:+ "The data includes " +:+ names +:+ ". " +:+ tail))
    | Throw e => Throw e
    end
  else Normal (JStr (head +:+ tail)).

Definition businessFinalize (r : response) (lastToolResult : jsval)
  : completion jsval :=
  let finalText := extractText r in
  let withToolResult :=
    if String.eqb finalText "" && truthy lastToolResult then
      match lastToolResult with
      | JStr _ => Normal lastToolResult
      | _ =>
        let message := get lastToolResult "message" in
        let data := get lastToolResult "data" in
        if truthy message then Normal message
        else if truthy data && isString data then Normal data
        else if truthy (get lastToolResult "outcome") then outcomeSummary lastToolResult
        else Normal (JStr businessGeneric)
      end
    else Normal (JStr finalText) in
  match withToolResult with
  | Normal v => Normal (if truthy v then v else JStr businessApology)
  | Throw e => Throw e
  end.

Definition businessPolicy : policy :=
  {| primaryTool := "smart_data_query_sms";
     breaksWhenIdle := true;
     toolErrorReply := businessToolError;
     finalText := businessFinalize |}.

Section HandleToolCalls.

Variable pol : policy.
Variable tools : list string.
Variable openai : nat -> request -> response.
Variable toolExecutor : nat -> string -> jsval -> completion jsval.

Definition offeredTools (shouldDisableTools : bool) : option (list string) :=
  if shouldDisableTools then None
  else if (0 <? length tools)%nat then Some tools else None.

Definition initialRequest : request :=
  {| req_toolResults := [];
     req_finalInstruction := false;
     req_tools := offeredTools false |}.

(** The [try] block after the tool returned. *)
Definition afterSuccess (name : string) (args toolResult : jsval)
  (st : handlerState) : handlerState :=
  let called := {[name]} ∪ calledTools st in
  let results := allToolResults st ++ [(name, toolResult)] in
  let shouldDisableTools :=
    bool_decide (primaryTool pol ∈ called) ||
    (2 <=? size called)%nat ||
    (2 <=? iterations st)%nat in
  let req :=
    {| req_toolResults := results;
       req_finalInstruction := shouldDisableTools;
       req_tools := offeredTools shouldDisableTools |} in
  let executed := EvExecute name args (Normal toolResult) :: trace st in
  {| currentResponse := openai (reasonCalls executed) req;
     iterations := iterations st;
     lastToolResult := toolResult;
     calledTools := called;
     allToolResults := results;
     trace := EvReason req :: executed |}.

(** [for (const functionCall of functionCalls)]: [JSON.parse] stands
    outside the [try], the [catch] returns the apology. *)
Fixpoint forCalls (calls : list functionCall) (st : handlerState)
  : forExit handlerState :=
  match calls with
  | [] => ForEnd st
  | fc :: rest =>
    let name := fc_name fc in
    if bool_decide (name ∈ calledTools st) then
      forCalls rest (logEvent (EvSkipSuccessful name) st)
    else
      match fc_arguments fc with
      | None => ForThrow st "SyntaxError"
      | Some args =>
        match toolExecutor (executeCalls (trace st)) name args with
        | Normal toolResult => ForBreak (afterSuccess name args toolResult st)
        | Throw e =>
          ForReturn (logEvent (EvExecute name args (Throw e)) st)
            {| content := JStr (toolErrorReply pol) |}
        end
      end
  end.

(** [while (iterations < maxIterations)]. *)
Fixpoint whileLoop (fuel : nat) (st : handlerState)
  : option (loopExit handlerState) :=
  match fuel with
  | O => None
  | S fuel' =>
    if (iterations st <? maxIterations)%nat then
      let st1 := nextIteration st in
      let functionCalls := functionCallsOf (currentResponse st1) in
      if (length functionCalls =? 0)%nat then Some (LoopDone st1)
      else
        match forCalls functionCalls st1 with
        | ForBreak st2 => whileLoop fuel' st2
        | ForEnd st2 =>
          if breaksWhenIdle pol then Some (LoopDone st2)
          else whileLoop fuel' st2
        | ForReturn st2 r => Some (LoopReturn st2 r)
        | ForThrow st2 e => Some (LoopThrow st2 e)
        end
    else Some (LoopDone st)
  end.

Definition initialState : handlerState :=
  {| currentResponse := openai 0 initialRequest;
     iterations := 0;
     lastToolResult := JNull;
     calledTools := ∅;
     allToolResults := [];
     trace := [EvReason initialRequest] |}.

(** [process]: the first reasoning call, then [handleToolCalls]. *)
Definition process (fuel : nat) : option (run handlerState) :=
  match whileLoop fuel initialState with
  | None => None
  | Some (LoopDone st) =>
    Some {| run_state := st;
            run_result :=
              match finalText pol (currentResponse st) (lastToolResult st) with
              | Normal v => Normal {| content := v |}
              | Throw e => Throw e
              end |}
  | Some (LoopReturn st r) =>
    Some {| run_state := st; run_result := Normal r |}
  | Some (LoopThrow st e) =>
    Some {| run_state := st; run_result := Throw e |}
  end.

End HandleToolCalls.

End Specialist.

(* ===================================================================== *)
(** ** Routing: [RouterAgent.process] and step 3 of [SMSProcessor.process] *)
(* ===================================================================== *)

Module Routing.
Import JsString Js Reasoning.

(** The inner [for (const content of item.content)]: the trimmed text of
    the first [output_text] part with text; reading [content.type] of a
    [null] part raises. *)
Fixpoint scanContent (parts : list (option contentPart))
  : completion (option string) :=
  match parts with
  | [] => Normal None
  | None :: _ => Throw "TypeError"
  | Some p :: r =>
    if String.eqb (part_type p) "output_text" && negb (String.eqb (part_text p) "")
    then Normal (Some (strim (part_text p)))
    else scanContent r
  end.

(** The outer [for (const item of response.output)]. *)
Fixpoint scanOutput (items : list outputItem) : completion string :=
  match items with
  | [] => Normal ""
  | MessageItem role (Some content) :: r =>
    if String.eqb role "assistant" then
      match scanContent content with
      | Throw e => Throw e
      | Normal (Some t) => if String.eqb t "" then scanOutput r else Normal t
      | Normal None => scanOutput r
      end
    else scanOutput r
  | _ :: r => scanOutput r
  end.

(** [RouterAgent.process] from the classifier's response on: the
    [content] of the reply. *)
Definition routerContent (r : response) : completion string :=
  let finalText := strim (default "" (output_text r)) in
  let scanned :=
    if String.eqb finalText "" then
      match output r with
      | Some items => scanOutput items
      | None => Normal finalText
      end
    else Normal finalText in
  match scanned with
  | Normal t => Normal (if String.eqb t "" then "GENERAL_AGENT" else t)
  | Throw e => Throw e
  end.

(** The own properties of [agentMap]. A name inherited from
    [Object.prototype] yields a function or an object, under which
    [subAgents] has no entry: it ends at [subAgents.general] like a miss. *)
Definition agentMap : list (string * string) :=
  [ ("BUSINESS_AGENT", "business");
    ("REAL_ESTATE_AGENT", "real_estate");
    ("GENERAL_AGENT", "general");
    ("business_agent", "business");
    ("real_estate_agent", "real_estate");
    ("general_agent", "general");
    ("business", "business");
    ("real_estate", "real_estate");
    ("general", "general") ].

Inductive agent : Type := RouterA | BusinessA | RealEstateA | GeneralA.

(** The object [AgentFactory.initializeAgents] returns. *)
Definition subAgents : list (string * agent) :=
  [ ("router", RouterA); ("business", BusinessA);
    ("real_estate", RealEstateA); ("general", GeneralA) ].

Fixpoint lookup {A : Type} (k : string) (m : list (string * A)) : option A :=
  match m with
  | [] => None
  | (k', v) :: r => if String.eqb k' k then Some v else lookup k r
  end.

(** [routeResponse.content.trim()] *)
Definition specialistOf (content : string) : string := strim content.

(** [agentMap[specialist] || 'general'] *)
Definition agentKey (specialist : string) : string :=
  default "general" (lookup specialist agentMap).

(** [this.subAgents[agentKey] || this.subAgents.general] *)
Definition selectedAgent (content : string) : agent :=
  default GeneralA (lookup (agentKey (specialistOf content)) subAgents).

(** The spellings [agentMap] lists for the business and for the
    real-estate specialist. *)
Definition businessSpellings : list string :=
  ["BUSINESS_AGENT"; "business_agent"; "business"].

Definition realEstateSpellings : list string :=
  ["REAL_ESTATE_AGENT"; "real_estate_agent"; "real_estate"].

(** Upper-casing, for comparing with a case-normalizing matcher. *)
Definition upperChar (c : ascii) : ascii :=
  let n := nat_of_ascii c in
  if ((97 <=? n) && (n <=? 122))%nat then ascii_of_nat (n - 32) else c.

Fixpoint toUpperCase (s : string) : string :=
  match s with
  | EmptyString => EmptyString
  | String c r => String (upperChar c) (toUpperCase r)
  end.

End Routing.

(* ===================================================================== *)
(** ** [SmartPropertySearch] of src/ai/smart-property-search.js *)
(* ===================================================================== *)

Module SmartPropertySearch.
Import JsString Js.

(** The provider calls, in the order they were made. *)
Inductive providerCall : Type :=
| CallAttom (endpoint : string) (params : jsval)
| CallRentCast (fullAddress : string)
| CallTavily (searchQuery : string).

Definition residentialKeywords : list string :=
  ["rent"; "rental"; "apartment"; "condo"; "house"; "residential";
   "bedroom"; "bathroom"; "tenant"; "lease"; "monthly"].

Definition isResidentialQuery (query : string) : bool :=
  let lowerQuery := toLowerCase query in
  existsb (fun keyword => includes lowerQuery keyword) residentialKeywords.

(** The optional string arguments that are truthy. *)
Definition present (x : option string) : option string :=
  match x with
  | Some s => if String.eqb s "" then None else Some s
  | None => None
  end.

Definition presentParts (xs : list (option string)) : list string :=
  omap present xs.

Definition constructFullAddress (address city state zipCode : option string)
  : string :=
  join ", " (presentParts [address; city; state; zipCode]).

Definition constructWebSearchQuery (query : string)
  (address city state zipCode : option string) : string :=
  let location := join " " (presentParts [address; city; state; zipCode]) in
  strim (query +:+ " " +:+ location +:+ " property real estate").

(** The [params] object of [generateAttomParameters]. *)
Definition attomBaseParams (address city state zipCode : option string)
  : jsval :=
  JObj
    ((match present address with Some a => [("address", JStr a)] | None => [] end) ++
     (match present city, present state with
      | Some c, Some s => [("city", JStr c); ("state", JStr s)]
      | _, _ => []
      end) ++
     (match present zipCode with Some z => [("zipCode", JStr z)] | None => [] end)).

Definition failureError : string :=
  "Unable to find property information using any available data source.".

Definition failureMessage : string :=
  "Sorry, I could not find information about that property. Please try with a more specific address or check if the address is correct.".

Section Search.

(** [queryOptimizer.optimizeAttomPropertyParams('Property Search',
    params, query, context)]; it catches its own reasoning failures. *)
Variable optimizeAttomPropertyParams : jsval -> string -> string -> jsval.
(** [attomClient.callAttomAPI(endpoint, params)] *)
Variable callAttomAPI : string -> jsval -> completion jsval.
(** [rentcastClient.getPropertyDetails(fullAddress)] *)
Variable getPropertyDetails : string -> completion jsval.
(** [tavilyClient.searchWeb(searchQuery)] *)
Variable searchWeb : string -> completion jsval.
(** The elapsed seconds as [toFixed(2)] prints them. *)
Variable responseTime : string.

Definition attomHit (attomResult : jsval) : bool :=
  truthy attomResult && negb (truthy (get attomResult "error")) &&
  truthy (get attomResult "property") &&
  gtNum (get (get attomResult "property") "length") 0.

Definition attomSuccess (attomResult : jsval) : jsval :=
  let property := get attomResult "property" in
  JObj [ ("success", JBool true);
         ("properties", property);
         ("propertyCount", get property "length");
         ("source", JStr "ATTOM Data (Commercial & Residential)");
         ("responseTime", JStr responseTime);
         ("message", JStr ("Found " +:+ toString (get property "length") +:+
                           " properties using ATTOM Data.")) ].

Definition rentcastHit (rentcastResult : jsval) : bool :=
  truthy rentcastResult && negb (truthy (get rentcastResult "error")).

Definition rentcastSuccess (rentcastResult : jsval) : jsval :=
  JObj [ ("success", JBool true);
         ("properties", JArr [rentcastResult]);
         ("propertyCount", JNum 1);
         ("source", JStr "RentCast (Residential)");
         ("responseTime", JStr responseTime);
         ("message", JStr "Found residential property data using RentCast.") ].

(** [webResult && !webResult.error && webResult.results.length > 0];
    reading [length] of a missing [results] raises inside the [try]. *)
Definition webHit (webResult : jsval) : completion bool :=
  if truthy webResult && negb (truthy (get webResult "error")) then
    if isNullish (get webResult "results") then Throw "TypeError"
    else Normal (gtNum (get (get webResult "results") "length") 0)
  else Normal false.

Definition webSuccess (webResult : jsval) : jsval :=
  let results := get webResult "results" in
  JObj [ ("success", JBool true);
         ("webResults", results);
         ("resultCount", get results "length");
         ("source", JStr "Web Search");
         ("responseTime", JStr responseTime);
         ("message", JStr ("Found " +:+ toString (get results "length") +:+
                           " web results about the property."));
         ("answer", get webResult "answer") ].

Definition allFailed : jsval :=
  JObj [ ("success", JBool false);
         ("error", JStr failureError);
         ("responseTime", JStr responseTime);
         ("message", JStr failureMessage) ].

(** Step 4 and the final return. *)
Definition webFallback (query : string)
  (address city state zipCode : option string) (calls : list providerCall)
  : jsval * list providerCall :=
  let searchQuery := constructWebSearchQuery query address city state zipCode in
  let calls' := calls ++ [CallTavily searchQuery] in
  match searchWeb searchQuery with
  | Normal webResult =>
    match webHit webResult with
    | Normal true => (webSuccess webResult, calls')
    | _ => (allFailed, calls')
    end
  | Throw _ => (allFailed, calls')
  end.

(** Step 3 onwards. *)
Definition rentcastFallback (query : string)
  (address city state zipCode : option string) (calls : list providerCall)
  : jsval * list providerCall :=
  if isResidentialQuery query then
    let fullAddress := constructFullAddress address city state zipCode in
    let calls' := calls ++ [CallRentCast fullAddress] in
    match getPropertyDetails fullAddress with
    | Normal rentcastResult =>
      if rentcastHit rentcastResult then (rentcastSuccess rentcastResult, calls')
      else webFallback query address city state zipCode calls'
    | Throw _ => webFallback query address city state zipCode calls'
    end
  else webFallback query address city state zipCode calls.

Definition generateAttomParameters (query : string)
  (address city state zipCode : option string) : jsval :=
  optimizeAttomPropertyParams (attomBaseParams address city state zipCode) query
    ("Property search for: " +:+ default "" (present address) +:+ " " +:+
     default "" (present city) +:+ " " +:+ default "" (present state) +:+ " " +:+
     default "" (present zipCode)).

(** [executeSmartPropertySearch({query, address, city, state, zipCode})]
    for the string [query] the tool schema requires: the returned
    object and the provider calls made. *)
Definition executeSmartPropertySearch (query : string)
  (address city state zipCode : option string) : jsval * list providerCall :=
  let attomSearchParams := generateAttomParameters query address city state zipCode in
  let calls := [CallAttom "/property/snapshot" attomSearchParams] in
  match callAttomAPI "/property/snapshot" attomSearchParams with
  | Normal attomResult =>
    if attomHit attomResult then (attomSuccess attomResult, calls)
    else rentcastFallback query address city state zipCode calls
  | Throw _ => rentcastFallback query address city state zipCode calls
  end.

(** Whether a provider, asked as the chain asks it, comes back without a
    usable result: an error, nothing found, or an exception. *)
Definition attomMissed (query : string)
  (address city state zipCode : option string) : bool :=
  match callAttomAPI "/property/snapshot"
          (generateAttomParameters query address city state zipCode) with
  | Normal attomResult => negb (attomHit attomResult)
  | Throw _ => true
  end.

Definition rentcastMissed (address city state zipCode : option string) : bool :=
  match getPropertyDetails (constructFullAddress address city state zipCode) with
  | Normal rentcastResult => negb (rentcastHit rentcastResult)
  | Throw _ => true
  end.

Definition webMissed (query : string)
  (address city state zipCode : option string) : bool :=
  match searchWeb (constructWebSearchQuery query address city state zipCode) with
  | Normal webResult =>
    match webHit webResult with
    | Normal true => false
    | _ => true
    end
  | Throw _ => true
  end.

End Search.

Definition isRentCastCall (c : providerCall) : bool :=
  match c with CallRentCast _ => true | _ => false end.

Definition isTavilyCall (c : providerCall) : bool :=
  match c with CallTavily _ => true | _ => false end.

End SmartPropertySearch.

(* ===================================================================== *)
(** ** The TTL cache behind [conversationMemory.cache] (src/memory/cache.js) *)
(* ===================================================================== *)

Module Cache.
Import Js.

(** A stored value with its expiry instant in milliseconds; 0 is never. *)
Record entry : Type := { expires : Z; value : jsval }.

(** [maxKeys: 10000] of the cache options. *)
Definition maxKeys : Z := 10000.

(** [cache.get(key)] at instant [now]: an entry past its expiry is
    deleted ([deleteOnExpire]) and reads as [undefined]. *)
Definition get (now : Z) (key : string) (data : gmap string entry)
  : jsval * gmap string entry :=
  match data !! key with
  | Some e =>
    if negb (expires e =? 0)%Z && (expires e <? now)%Z
    then (JUndefined, delete key data)
    else (value e, data)
  | None => (JUndefined, data)
  end.

(** [cache.set(key, value, ttl)] with a [ttl] in seconds: ECACHEFULL when
    the key count has reached [maxKeys]. *)
Definition set (now : Z) (key : string) (v : jsval) (ttl : Z)
  (data : gmap string entry) : completion (gmap string entry) :=
  if (maxKeys <=? Z.of_nat (size data))%Z then Throw "ECACHEFULL"
  else
    Normal (<[key := {| expires := if (ttl =? 0)%Z then 0%Z else (now + ttl * 1000)%Z;
                        value := v |}]> data).

(** [cache.del(key)] *)
Definition del (key : string) (data : gmap string entry) : gmap string entry :=
  delete key data.

End Cache.

(* ===================================================================== *)
(** ** The [/sms] webhook of [SMSRoutes.register] *)
(* ===================================================================== *)

Module SmsRoutes.
Import JsString Js.

(** [request.body] of the webhook, with the outcome of
    [verifyTwilioSignature] for it. Form fields are strings. *)
Record smsRequest : Type := {
  signatureValid : bool;
  From : option string;
  To : option string;
  Body : option string;
  MessageSid : option string
}.

Inductive httpReply : Type :=
| Forbidden
| MissingFields
| EmptyTwiml
| TwimlMessage (text : string)
| InternalError.

(** [setImmediate(() => this.smsProcessor.process(fromNumber, toNumber,
    Body, ...))]: the message is handed to the processing pipeline, which
    makes the reasoning calls, the tool calls and the outbound sends. *)
Inductive effect : Type :=
| ProcessMessage (fromNumber toNumber body : string).

Definition isTruthy (x : option string) : bool :=
  match x with
  | Some s => negb (String.eqb s "")
  | None => false
  end.

(** [X && X.startsWith('+') ? X : `+${(X || '').trim()}`] *)
Definition withPlus (x : option string) : string :=
  match x with
  | Some s =>
    if negb (String.eqb s "") && startsWith s "+" then s else "+" +:+ strim s
  | None => "+"
  end.

(** [`sms:sid:${MessageSid || `${From}:${Body}:${Date.now()}`}`] *)
Definition idempotencyKey (from body : string) (sid : option string) (now : Z)
  : string :=
  "sms:sid:" +:+
  (if isTruthy sid then default "" sid
   else from +:+ ":" +:+ body +:+ ":" +:+ ofZ now).

Definition optOutKey (fromNumber : string) : string := "opt_out:" +:+ fromNumber.

Definition stopText : string :=
  "You have been unsubscribed from SMS. Reply START to re-subscribe.".
Definition startText : string :=
  "Welcome! You're now subscribed to SMS updates. Send STOP to unsubscribe.".
Definition helpText : string :=
  "Available commands: STOP (unsubscribe), START (subscribe), HELP (this message). Ask me about properties or your business data!".

Record outcome : Type := {
  cache : gmap string Cache.entry;
  reply : httpReply;
  effects : list effect
}.

Definition respond (c : gmap string Cache.entry) (r : httpReply) : outcome :=
  {| cache := c; reply := r; effects := [] |}.

(** After the idempotency key was stored: keywords, opt-out, hand-over. *)
Definition dispatch (now : Z) (fromNumber toNumber body : string)
  (c : gmap string Cache.entry) : outcome :=
  let bodyLower := strim (toLowerCase body) in
  if String.eqb bodyLower "stop" || String.eqb bodyLower "unsubscribe" then
    match Cache.set now (optOutKey fromNumber) (JBool true) (86400 * 365) c with
    | Normal c' => respond c' (TwimlMessage stopText)
    | Throw _ => respond c InternalError
    end
  else if String.eqb bodyLower "start" || String.eqb bodyLower "subscribe" then
    respond (Cache.del (optOutKey fromNumber) c) (TwimlMessage startText)
  else if String.eqb bodyLower "help" then
    respond c (TwimlMessage helpText)
  else
    let '(optedOut, c') := Cache.get now (optOutKey fromNumber) c in
    if truthy optedOut then respond c' EmptyTwiml
    else
      {| cache := c';
         reply := EmptyTwiml;
         effects := [ProcessMessage fromNumber toNumber body] |}.

(** The handler of [fastify.post('/sms', ...)] at instant [now]
    ([Date.now()]), in production mode or not. *)
Definition smsWebhook (production : bool) (now : Z) (req : smsRequest)
  (c : gmap string Cache.entry) : outcome :=
  if production && negb (signatureValid req) then respond c Forbidden
  else if negb (isTruthy (From req)) || negb (isTruthy (Body req)) then
    respond c MissingFields
  else
    let from := default "" (From req) in
    let body := default "" (Body req) in
    let fromNumber := withPlus (From req) in
    let toNumber := withPlus (To req) in
    let key := idempotencyKey from body (MessageSid req) now in
    let '(seen, c1) := Cache.get now key c in
    if truthy seen then respond c1 EmptyTwiml
    else
      match Cache.set now key (JBool true) 600 c1 with
      | Normal c2 => dispatch now fromNumber toNumber body c2
      | Throw _ => respond c1 InternalError
      end.

End SmsRoutes.

(* ===================================================================== *)
(** ** Loop invariants *)
(* ===================================================================== *)

Module Invariants.
Import Js Reasoning.

(** What the bookkeeping of the generic loop means in terms of the
    trace. *)
Record baseInv (st : BaseAgent.loopState) : Prop := {
  inv_failed : forall name,
    default 0 (BaseAgent.failedAttempts st !! name) = failures name (BaseAgent.trace st);
  inv_ceiling : forall name, failures name (BaseAgent.trace st) <= 2;
  inv_success : forall name,
    name ∈ BaseAgent.successfulTools st <-> 0 < successes name (BaseAgent.trace st);
  inv_once : forall name, successes name (BaseAgent.trace st) <= 1;
  inv_orderly : forall name, executedAfterSuccess name (BaseAgent.trace st) = false;
  inv_guarded : forall name, attemptedAfterCeiling name (BaseAgent.trace st) = false
}.

(** The same for [calledTools] of the two specialists. *)
Record handlerInv (st : Specialist.handlerState) : Prop := {
  hinv_called : forall name,
    name ∈ Specialist.calledTools st <-> 0 < successes name (Specialist.trace st);
  hinv_once : forall name, successes name (Specialist.trace st) <= 1;
  hinv_orderly : forall name, executedAfterSuccess name (Specialist.trace st) = false
}.

(** Every execution in the trace is an answer of the tool executor. *)
Definition recorded (toolExecutor : nat -> string -> jsval -> completion jsval)
  (trace : list event) : Prop :=
  Forall (fun e =>
            match e with
            | EvExecute name args result =>
              exists n, toolExecutor n name args = result
            | _ => True
            end) trace.

(** The loop variables at the head of the generic [while] loop. *)
Definition baseHead (st : BaseAgent.loopState) : Prop :=
  baseInv st /\
  reasonCalls (BaseAgent.trace st) <= S (BaseAgent.iterations st) /\
  BaseAgent.lastToolResult st = lastOutcome (BaseAgent.allToolResults st).

(** The same for the specialists, where no execution has raised yet and
    every pass executes at most one tool. *)
Definition handlerHead (st : Specialist.handlerState) : Prop :=
  handlerInv st /\
  reasonCalls (Specialist.trace st) <= S (Specialist.iterations st) /\
  executeCalls (Specialist.trace st) <= Specialist.iterations st /\
  existsb threw (Specialist.trace st) = false /\
  Specialist.lastToolResult st = lastOutcome (Specialist.allToolResults st).

End Invariants.

(* ===================================================================== *)
(** ** Concrete collaborators for the examples *)
(* ===================================================================== *)

Module Scenarios.
Import JsString Js Reasoning.

(** A regular-expression engine that never matches. *)
Definition noMatch : BaseAgent.pattern -> string -> option (list string) :=
  fun _ _ => None.

(** A response that only requests tool invocations. *)
Definition callsResponse (calls : list (string * option jsval)) : response :=
  {| output_text := None;
     output := Some (List.map (fun c => FunctionCall (fst c) (snd c)) calls) |}.

Definition textResponse (text : string) : response :=
  {| output_text := Some text; output := Some [] |}.

Definition noTextResponse : response :=
  {| output_text := None; output := Some [] |}.

Definition queryArgs : jsval := JObj [("query", JStr "cap rates in Dallas")].

(** A model that answers every request by asking for one more tool it has
    not asked for before. *)
Definition eagerModel (n : nat) (_ : request) : response :=
  callsResponse [("tool_" +:+ natToString n, Some queryArgs)].

(** A model that asks for the same tool in every answer. *)
Definition repeatingModel (_ : nat) (_ : request) : response :=
  callsResponse [("web_search_sms", Some queryArgs)].

(** A model whose first answer asks three times for a tool and then for
    another one, and which answers in text afterwards. *)
Definition insistingModel (n : nat) (_ : request) : response :=
  match n with
  | O => callsResponse [("flaky", Some queryArgs); ("flaky", Some queryArgs);
                        ("flaky", Some queryArgs); ("web_search_sms", Some queryArgs)]
  | _ => textResponse "Cap rates in Dallas average 6%."
  end.

(** A model that calls a tool without arguments twice and goes on to
    ask for it a third time. *)
Definition emptyArgsModel (_ : nat) (_ : request) : response :=
  callsResponse [("lookup_sms", Some (JObj [])); ("lookup_sms", None);
                 ("lookup_sms", Some queryArgs)].

Definition doneResult : jsval :=
  JObj [("success", JBool true); ("message", JStr "done")].

(** A tool result whose message has 600 code units, and one without a
    message. *)
Definition longMessage : string := string_of_list_ascii (repeat "x"%char 600).

Definition longResult : jsval :=
  JObj [("success", JBool true); ("message", JStr longMessage)].

Definition rawResult : jsval :=
  JObj [("success", JBool true);
        ("properties", JArr [JObj [("address", JStr "123 Main St"); ("avm", JNum 425000)]])].

Definition okExecutor (_ : nat) (_ : string) (_ : jsval) : completion jsval :=
  Normal doneResult.

Definition failingExecutor (_ : nat) (_ : string) (_ : jsval) : completion jsval :=
  Throw "Error".

(** Providers that are down, and an optimizer that leaves the parameters
    as they are. *)
Definition keepParams (params : jsval) (_ _ : string) : jsval := params.

Definition attomDown (_ : string) (_ : jsval) : completion jsval :=
  Normal (JObj [("error", JStr "ATTOM API error")]).

Definition providerDown (_ : string) : completion jsval := Throw "timeout".

(** A delivery with a message identifier, and the same text delivered
    without one. *)
Definition delivery : SmsRoutes.smsRequest :=
  {| SmsRoutes.signatureValid := true;
     SmsRoutes.From := Some "+13125550100";
     SmsRoutes.To := Some "+13125550199";
     SmsRoutes.Body := Some "cap rates in Dallas";
     SmsRoutes.MessageSid := Some "SM0123456789abcdef" |}.

Definition anonymousDelivery : SmsRoutes.smsRequest :=
  {| SmsRoutes.signatureValid := true;
     SmsRoutes.From := Some "+13125550100";
     SmsRoutes.To := Some "+13125550199";
     SmsRoutes.Body := Some "cap rates in Dallas";
     SmsRoutes.MessageSid := None |}.

(** An executor on which the tool [flaky] always raises. *)
Definition flakyExecutor (_ : nat) (name : string) (_ : jsval) : completion jsval :=
  if String.eqb name "flaky" then Throw "Error" else Normal doneResult.

End Scenarios.

(* ===================================================================== *)
(** * Further embeddings: delivery, memory, the pipeline, the executor

    The parts below extend the model to the code around the loops: the
    sending of a reply ([sendSMS]), the conversation store, the pipeline
    of [SMSProcessor.process], the tool executor, the ATTOM client and
    the masking of telephone numbers in the logs. *)
(* ===================================================================== *)

(* ===================================================================== *)
(** ** [sendSMS] of src/utils/sms.js *)
(* ===================================================================== *)

Module SmsSend.
Import JsString Js Sms.

(** What [sendSMS] does to the outside: a message created at the provider,
    and the pause between two chunks. *)
Inductive smsEvent : Type :=
| Created (body from to : string)
| Paused (ms : Z).

Definition emptyBodyText : string :=
  "Sorry, I encountered an error generating a response. Please try again.".

(** Lines 59-64: an empty or blank message is replaced; [message.trim] of
    a truthy value that is not a string raises a TypeError. *)
Definition effectiveMessage (message : jsval) : completion string :=
  if truthy message then
    match message with
    | JStr s => Normal (if String.eqb (strim s) "" then emptyBodyText else s)
    | _ => Throw "TypeError"
    end
  else Normal emptyBodyText.

(** Lines 72-83: [for (let i = 0; i < chunks.length; i++)]. [create i body]
    is [twilioClient.messages.create] for chunk [i]; an exception leaves
    the loop ([catch], [throw error]). *)
Fixpoint sendChunks (create : nat -> string -> completion unit)
  (to fromNumber : string) (i : nat) (chunks : list string)
  : completion unit * list smsEvent :=
  match chunks with
  | [] => (Normal tt, [])
  | body :: rest =>
    match create i body with
    | Throw e => (Throw e, [])
    | Normal _ =>
      let pause := match rest with [] => [] | _ :: _ => [Paused 1000] end in
      let '(result, events) := sendChunks create to fromNumber (S i) rest in
      (result, Created body fromNumber to :: pause ++ events)
    end
  end.

(** [sendSMS(twilioClient, to, message, fromNumber)]; [None] when
    [chunkMessage] does not return. *)
Definition sendSMS (twilioClient : option (nat -> string -> completion unit))
  (to : string) (message : jsval) (fromNumber : string)
  : option (completion unit * list smsEvent) :=
  match twilioClient with
  | None => Some (Normal tt, [])
  | Some create =>
    match effectiveMessage message with
    | Throw e => Some (Throw e, [])
    | Normal text =>
      match chunkMessage (list_ascii_of_string text) defaultMaxLength with
      | Some chunks =>
        Some (sendChunks create to fromNumber 0 (List.map string_of_list_ascii chunks))
      | None => None
      end
    end
  end.

(** The bodies created, in order. *)
Definition createdBodies (events : list smsEvent) : list string :=
  omap (fun e => match e with Created body _ _ => Some body | Paused _ => None end) events.

Definition pauses (events : list smsEvent) : nat :=
  length (List.filter (fun e => match e with Paused _ => true | _ => false end) events).

End SmsSend.

Module DeliveryScenarios.
Import Js.

(** A provider that refuses the second message of a reply. *)
Definition secondFails (i : nat) (_ : string) : completion unit :=
  if (i =? 1)%nat then Throw "Error" else Normal tt.

(** A reply of 305 code units. *)
Definition twoPartReply : jsval :=
  JStr (string_of_list_ascii (repeat "a"%char 299 ++ list_ascii_of_string " bb cc")).

End DeliveryScenarios.

(* ===================================================================== *)
(** ** Object spread and [slice] *)
(* ===================================================================== *)

Module JsObject.
Import JsString Js.

(** [obj[k] = v] on the property list of an object: an existing key keeps
    its place, a new one goes to the end. *)
Fixpoint setField (k : string) (v : jsval) (fields : list (string * jsval))
  : list (string * jsval) :=
  match fields with
  | [] => [(k, v)]
  | (k', v') :: r =>
    if String.eqb k' k then (k, v) :: r else (k', v') :: setField k v r
  end.

(** The own enumerable properties that [...v] copies: the fields of an
    object, the indices of an array or a string, nothing for the other
    values. *)
Definition ownFields (v : jsval) : list (string * jsval) :=
  match v with
  | JObj fields => fields
  | JArr items => imap (fun i item => (natToString i, item)) items
  | JStr s =>
    imap (fun i ch => (natToString i, JStr (String ch EmptyString))) (list_ascii_of_string s)
  | _ => []
  end.

(** [key in obj] on the property list. *)
Definition hasField (k : string) (fields : list (string * jsval)) : bool :=
  existsb (fun kv => String.eqb (fst kv) k) fields.

(** [{ ...base, ...extra }], left to right. *)
Definition assign (base extra : list (string * jsval)) : list (string * jsval) :=
  fold_left (fun acc kv => setField (fst kv) (snd kv) acc) extra base.

(** [xs.slice(start)]: a negative [start] counts from the end. *)
Definition sliceStart (start : Z) (len : nat) : nat :=
  if (start <? 0)%Z then Z.to_nat (Z.max (Z.of_nat len + start) 0)
  else Z.to_nat (Z.min start (Z.of_nat len)).

Definition slice {A} (start : Z) (xs : list A) : list A :=
  drop (sliceStart start (length xs)) xs.

End JsObject.

(* ===================================================================== *)
(** ** [ConversationMemory] and [EnhancedConversationMemory] *)
(* ===================================================================== *)

Module ConversationMemory.
Import JsString Js JsObject.

Abbreviation store := (gmap string Cache.entry).

(** [stdTTL: 7200] of the cache options: the lifetime of an entry written
    without a [ttl]. *)
Definition stdTTL : Z := 7200.

Definition conversationKey (phoneNumber : string) : string :=
  "sms:conversation:" +:+ phoneNumber.

Definition contextKey (phoneNumber : string) : string :=
  "sms:user_context:" +:+ phoneNumber.

(** [cache.get(key) || fallback] *)
Definition orElse (v fallback : jsval) : jsval := if truthy v then v else fallback.

(** [getConversationHistory(phoneNumber, limit)]: [messages.slice(-limit)]
    on what the cache holds. A string has [slice] as well; any other
    truthy value has not. *)
Definition getConversationHistory (now : Z) (phoneNumber : string) (limit : Z)
  (data : store) : completion jsval * store :=
  let '(v, data1) := Cache.get now (conversationKey phoneNumber) data in
  match orElse v (JArr []) with
  | JArr messages => (Normal (JArr (slice (- limit) messages)), data1)
  | JStr s =>
    (Normal (JStr (string_of_list_ascii (slice (- limit) (list_ascii_of_string s)))), data1)
  | _ => (Throw "TypeError", data1)
  end.

(** [{ role, content, timestamp: new Date().toISOString(), ...metadata }] *)
Definition newMessage (timestamp role : string) (content : jsval)
  (metadata : list (string * jsval)) : jsval :=
  JObj (assign [("role", JStr role); ("content", content); ("timestamp", JStr timestamp)]
          metadata).

(** [messages.length > 50] then [messages.slice(-50)] *)
Definition capped (messages : list jsval) : list jsval :=
  if (50 <? length messages)%nat then slice (-50) messages else messages.

(** [addMessage(phoneNumber, role, content, metadata)]. The cache hands out
    the stored array itself ([useClones: false]), so [messages.push] grows
    the array in the cache before [cache.set] is reached. *)
Definition addMessage (now : Z) (timestamp : string) (phoneNumber role : string)
  (content : jsval) (metadata : list (string * jsval)) (data : store)
  : completion unit * store :=
  let key := conversationKey phoneNumber in
  let message := newMessage timestamp role content metadata in
  let '(v, data1) := Cache.get now key data in
  match orElse v (JArr []) with
  | JArr messages =>
    let pushed := messages ++ [message] in
    let data2 :=
      if truthy v
      then alter (fun e => {| Cache.expires := Cache.expires e;
                              Cache.value := JArr pushed |}) key data1
      else data1 in
    match Cache.set now key (JArr (capped pushed)) stdTTL data2 with
    | Normal data3 => (Normal tt, data3)
    | Throw e => (Throw e, data2)
    end
  | _ => (Throw "TypeError", data1)
  end.

(** [getUserContext(phoneNumber)]: [cache.get(key) || null] *)
Definition getUserContext (now : Z) (phoneNumber : string) (data : store)
  : jsval * store :=
  let '(v, data1) := Cache.get now (contextKey phoneNumber) data in
  (orElse v JNull, data1).

Definition setUserContext (now : Z) (phoneNumber : string) (context : jsval)
  (data : store) : completion store :=
  Cache.set now (contextKey phoneNumber) context stdTTL data.

(** [cache.del([conversationKey, contextKey])] *)
Definition clearConversation (phoneNumber : string) (data : store) : store :=
  Cache.del (contextKey phoneNumber) (Cache.del (conversationKey phoneNumber) data).

(** *** Pending tasks and missing data *)

Definition pendingKey (phoneNumber : string) : string := "pending_task:" +:+ phoneNumber.

Definition missingKey (phoneNumber : string) : string := "missing_data:" +:+ phoneNumber.

(** [{ ...task, createdAt: new Date().toISOString(), status: 'pending' }]
    stored for 7200 seconds. *)
Definition setPendingTask (now : Z) (timestamp : string) (phoneNumber : string)
  (task : jsval) (data : store) : completion store :=
  Cache.set now (pendingKey phoneNumber)
    (JObj (assign (ownFields task)
             [("createdAt", JStr timestamp); ("status", JStr "pending")]))
    7200 data.

Definition getPendingTask (now : Z) (phoneNumber : string) (data : store)
  : jsval * store :=
  let '(v, data1) := Cache.get now (pendingKey phoneNumber) data in
  (orElse v JNull, data1).

(** [updatePendingTask(phoneNumber, updates)] returns the merged task, or
    [null] when there is none. *)
Definition updatePendingTask (now : Z) (timestamp : string) (phoneNumber : string)
  (updates : jsval) (data : store) : completion jsval * store :=
  let '(existing, data1) := getPendingTask now phoneNumber data in
  if truthy existing then
    let updated :=
      JObj (assign (assign (ownFields existing) (ownFields updates))
              [("updatedAt", JStr timestamp)]) in
    match Cache.set now (pendingKey phoneNumber) updated 7200 data1 with
    | Normal data2 => (Normal updated, data2)
    | Throw e => (Throw e, data1)
    end
  else (Normal JNull, data1).

Definition clearPendingTask (phoneNumber : string) (data : store) : store :=
  Cache.del (pendingKey phoneNumber) data.

Definition setMissingData (now : Z) (timestamp : string) (phoneNumber : string)
  (missingData : jsval) (data : store) : completion store :=
  Cache.set now (missingKey phoneNumber)
    (JObj [("missing", missingData); ("timestamp", JStr timestamp)]) 7200 data.

(** [data ? data.missing : []] *)
Definition getMissingData (now : Z) (phoneNumber : string) (data : store)
  : jsval * store :=
  let '(v, data1) := Cache.get now (missingKey phoneNumber) data in
  (if truthy v then get v "missing" else JArr [], data1).

Definition clearMissingData (phoneNumber : string) (data : store) : store :=
  Cache.del (missingKey phoneNumber) data.

(** What the cache holds for a conversation at [now]. *)
Definition stored (now : Z) (phoneNumber : string) (data : store) : jsval :=
  fst (Cache.get now (conversationKey phoneNumber) data).

End ConversationMemory.

Module MemoryScenarios.
Import JsString Js ConversationMemory.

Definition firstTurn : jsval :=
  newMessage "2023-11-14T22:13:20.000Z" "user" (JStr "cap rates in Dallas") [].

(** A cache at its limit of 10000 keys: one running conversation and
    9999 other entries. *)
Definition fullCache : store :=
  <[conversationKey "+13125550100" :=
      {| Cache.expires := 1700007200000; Cache.value := JArr [firstTurn] |}]>
    (list_to_map
       (List.map (fun i => (natToString i, {| Cache.expires := 0; Cache.value := JBool true |}))
          (seq 0 (Z.to_nat 9999)))).

(** A user context as the processor builds it. *)
Definition knownUser : jsval :=
  JObj [("userId", JStr "u-17"); ("organizationId", JStr "org-4");
        ("phoneNumber", JStr "+13125550100");
        ("identifiedAt", JStr "2023-11-14T22:13:20.000Z");
        ("name", JStr "Dana"); ("email", JStr "dana@example.com")].

(** A task that arrives with a status of its own. *)
Definition finishedTask : jsval :=
  JObj [("kind", JStr "proforma"); ("status", JStr "done")].

End MemoryScenarios.

Module OptOutScenarios.
Import JsString SmsRoutes.

(** [bodyLower] is one of the five keywords of the webhook. *)
Definition isKeyword (body : string) : bool :=
  let bodyLower := strim (toLowerCase body) in
  String.eqb bodyLower "stop" || String.eqb bodyLower "unsubscribe" ||
  String.eqb bodyLower "start" || String.eqb bodyLower "subscribe" ||
  String.eqb bodyLower "help".

(** The sender of [Scenarios.delivery] unsubscribes, in mixed case and
    with the plus sign of the number decoded to a blank. *)
Definition stopDelivery : smsRequest :=
  {| signatureValid := true;
     From := Some " 13125550100";
     To := Some "+13125550199";
     Body := Some " Stop ";
     MessageSid := Some "SM00000000000000a1" |}.

Definition startDelivery : smsRequest :=
  {| signatureValid := true;
     From := Some "+13125550100";
     To := Some "+13125550199";
     Body := Some "START";
     MessageSid := Some "SM00000000000000a2" |}.

End OptOutScenarios.

(* ===================================================================== *)
(** ** Reading the reasoning requests of a trace *)
(* ===================================================================== *)

Module Requests.
Import Js Reasoning.

(** A reasoning request that carries the tool catalog. *)
Definition offersTools (e : event) : bool :=
  match e with
  | EvReason req => match req_tools req with Some _ => true | None => false end
  | _ => false
  end.

Definition offers (trace : list event) : nat :=
  length (List.filter offersTools trace).

(** Was the catalog offered in a request made after an execution of
    [name] had returned? *)
Fixpoint offeredAfterSuccess (name : string) (trace : list event) : bool :=
  match trace with
  | [] => false
  | e :: older =>
    (offersTools e && (0 <? successes name older)%nat) ||
    offeredAfterSuccess name older
  end.

(** The results of the executions that returned, oldest first. *)
Fixpoint resultsOf (trace : list event) : list (string * jsval) :=
  match trace with
  | [] => []
  | EvExecute name _ (Normal result) :: older => resultsOf older ++ [(name, result)]
  | _ :: older => resultsOf older
  end.

(** Every reasoning request carries the results of all executions that
    had returned before it, in the order of the executions. *)
Fixpoint carriesContext (trace : list event) : Prop :=
  match trace with
  | [] => True
  | EvReason req :: older => req_toolResults req = resultsOf older /\ carriesContext older
  | _ :: older => carriesContext older
  end.

(** What the loops keep about their requests: a name with an execution
    that returned is in the set of names done; the catalog was offered at
    most twice, and at most once while that set is empty; it was not
    offered after [primary] had returned; the results gathered are those
    of the trace and every request carries the ones before it; and every
    execution that returned was followed by one request. *)
Record requestInv (primary : string) (done : gset string)
  (results : list (string * jsval)) (trace : list event) : Prop := {
  rq_done : forall name, (0 < successes name trace)%nat -> name ∈ done;
  rq_offers : (offers trace <= 2)%nat;
  rq_first : done = ∅ -> (offers trace <= 1)%nat;
  rq_primary : offeredAfterSuccess primary trace = false;
  rq_results : results = resultsOf trace;
  rq_context : carriesContext trace;
  rq_calls : reasonCalls trace = S (length (resultsOf trace))
}.

End Requests.

(* ===================================================================== *)
(** ** The tools [extractFallbackParameters] knows by name *)
(* ===================================================================== *)

Module Fallback.

(** The [case] labels of the [switch]. *)
Definition namedTools : list string :=
  ["web_search_sms"; "smart_data_query_sms"; "smart_property_search_sms";
   "attom_property_search_sms"; "rentcast_property_search_sms"].

End Fallback.

Module BusinessScenarios.
Import Js.

(** A result of [smart_data_query_sms] without message and without
    text: the outcome and its tables. *)
Definition outcomeResult : jsval :=
  JObj [("outcome", JStr "Q3 forecast");
        ("tables", JArr [JObj [("name", JStr "revenue")]; JObj [("name", JStr "costs")]])].

(** The same with a [tables] that is not an array. *)
Definition malformedTables : jsval :=
  JObj [("outcome", JStr "Q3 forecast"); ("tables", JStr "revenue")].

End BusinessScenarios.

(* ===================================================================== *)
(** ** [SMSProcessor] of src/sms/processor.js *)
(* ===================================================================== *)

Module Processor.
Import JsString Js JsObject Reasoning Routing SmsSend ConversationMemory.

(** The five interim messages. The magnifying glass that opens each of
    them is kept as the four bytes of its UTF-8 form. *)
Definition workspaceInterim : string :=
  "🔍 Accessing your workspace data. This usually takes 5-10 seconds.".
Definition propertyInterim : string :=
  "🔍 Looking up property information. This typically takes 5-10 seconds.".
Definition marketInterim : string :=
  "🔍 Researching current market information. This usually takes 10-15 seconds.".
Definition dataInterim : string :=
  "🔍 Analyzing the requested data. This typically takes 5-15 seconds.".
Definition defaultInterim : string :=
  "🔍 Processing your request. This typically takes 5-15 seconds.".

(** [generateInterimMessage(messageBody, userContext)]; the user context
    is not looked at. *)
Definition generateInterimMessage (messageBody : string) : string :=
  let messageLower := toLowerCase messageBody in
  if includes messageLower "my" || includes messageLower "workspace" then workspaceInterim
  else if includes messageLower "property" || includes messageLower "address" ||
          includes messageLower "building" then propertyInterim
  else if includes messageLower "trends" || includes messageLower "market" ||
          includes messageLower "news" then marketInterim
  else if includes messageLower "data" || includes messageLower "analysis" ||
          includes messageLower "report" then dataInterim
  else defaultInterim.

Definition errorText : string :=
  "Sorry, I encountered an error processing your message. Please try again.".

(** What a run of [process] does to the outside, oldest first: what
    [sendSMS] did, the call of the router and the call of the selected
    specialist with the messages and the user context they were given. *)
Inductive pipelineEvent : Type :=
| Outbound (e : smsEvent)
| Routed (messages : list jsval) (userContext : jsval)
| Asked (selected : agent) (messages : list jsval) (userContext : jsval).

Record state : Type := { memory : store; log : list pipelineEvent }.

(** A step of the pipeline: it returns or throws, on a new state; [None]
    when [sendSMS] does not return. *)
Definition step (A : Type) : Type := state -> option (completion A * state).

Definition ret {A} (a : A) : step A := fun s => Some (Normal a, s).

(** Sequencing: an exception of the first step ends the sequence. *)
Definition bind {A B} (m : step A) (f : A -> step B) : step B :=
  fun s =>
    match m s with
    | Some (Normal a, s') => f a s'
    | Some (Throw e, s') => Some (Throw e, s')
    | None => None
    end.

Notation "'do' x <- m ; k" := (bind m (fun x => k))
  (at level 10, x name, m at level 100, k at level 200).

(** [try { m } catch (error) { handler }] *)
Definition tryCatch {A} (m : step A) (handler : string -> step A) : step A :=
  fun s =>
    match m s with
    | Some (Throw e, s') => handler e s'
    | other => other
    end.

Definition lift {A} (c : completion A) : step A := fun s => Some (c, s).

Definition onMemory {A} (f : store -> completion A * store) : step A :=
  fun s =>
    let '(r, data) := f (memory s) in
    Some (r, {| memory := data; log := log s |}).

Definition emit (e : pipelineEvent) : step unit :=
  fun s => Some (Normal tt, {| memory := memory s; log := log s ++ [e] |}).

(** [{ role: msg.role, content: msg.content }]; reading a property of
    [null] or [undefined] raises. *)
Definition projectMessage (msg : jsval) : completion jsval :=
  if isNullish msg then Throw "TypeError"
  else Normal (JObj [("role", get msg "role"); ("content", get msg "content")]).

Fixpoint projectAll (messages : list jsval) : completion (list jsval) :=
  match messages with
  | [] => Normal []
  | msg :: rest =>
    match projectMessage msg with
    | Throw e => Throw e
    | Normal p =>
      match projectAll rest with
      | Throw e => Throw e
      | Normal ps => Normal (p :: ps)
      end
    end
  end.

(** [conversationHistory.slice(-5).map(...)]: a string has [slice] but
    no [map]. *)
Definition recentTurns (conversationHistory : jsval) : completion (list jsval) :=
  match conversationHistory with
  | JArr messages => projectAll (slice (-5) messages)
  | _ => Throw "TypeError"
  end.

Definition userTurn (messageBody : string) : jsval :=
  JObj [("role", JStr "user"); ("content", JStr messageBody)].

Section Process.

(** [outcomeClient.lookupUserByPhone] *)
Variable lookupUserByPhone : string -> completion jsval.
(** What the classifier answers to the routing request, or the exception
    of the call. *)
Variable classifier : list jsval -> jsval -> completion response.
(** [process] of the business, real-estate and general specialists: the
    [content] of the reply. Every agent of the repository returns
    [tool_calls: null], so step 4 of the source is never entered. *)
Variable specialists : agent -> list jsval -> jsval -> completion jsval.
(** [twilioClient.messages.create], by the number of the [sendSMS] call
    and the number of the chunk; [None] is no client. *)
Variable twilioClient : option (nat -> nat -> string -> completion unit).
(** [Date.now()] and [new Date().toISOString()] at the five places that
    read the clock: storing the incoming message, reading and writing the
    user context, reading the history, storing the reply. *)
Variable now : nat -> Z.
Variable iso : nat -> string.

Definition send (call : nat) (to : string) (message : jsval) (fromNumber : string)
  : step unit :=
  fun s =>
    match sendSMS (option_map (fun create => create call) twilioClient) to message fromNumber with
    | Some (r, events) =>
      Some (r, {| memory := memory s; log := log s ++ List.map Outbound events |})
    | None => None
    end.

(** Lines 69-94: the user context of the cache, or the one built from
    the lookup. The inner [try] swallows the exceptions of the lookup and
    of [setUserContext]; the variable is assigned before the context is
    stored. *)
Definition identify (fromNumber : string) : step jsval :=
  do userContext <- onMemory (fun data =>
                   let '(v, data1) := getUserContext (now 1) fromNumber data in
                   (Normal v, data1));
  if truthy userContext then ret userContext
  else
    match lookupUserByPhone fromNumber with
    | Normal user =>
      if truthy user then
        let identified :=
          JObj [("userId", get user "userId");
                ("organizationId", get user "organizationId");
                ("phoneNumber", JStr fromNumber);
                ("identifiedAt", JStr (iso 2));
                ("name", get user "name");
                ("email", get user "email")] in
        fun s =>
          match setUserContext (now 2) fromNumber identified (memory s) with
          | Normal data => Some (Normal identified, {| memory := data; log := log s |})
          | Throw _ => Some (Normal identified, s)
          end
      else ret userContext
    | Throw _ => ret userContext
    end.

(** Lines 64-216: the body of the [try]. *)
Definition attempt (fromNumber toNumber messageBody fromPhoneNumber : string)
  : step unit :=
  do _ <- onMemory (addMessage (now 0) (iso 0) fromNumber "user" (JStr messageBody) []);
  do userContext <- identify fromNumber;
  do conversationHistory <- onMemory (getConversationHistory (now 3) fromNumber 10);
  do _ <- send 0 fromNumber (JStr (generateInterimMessage messageBody)) fromPhoneNumber;
  let routingMessages := [userTurn messageBody] in
  do _ <- emit (Routed routingMessages userContext);
  do content <- lift (match classifier routingMessages userContext with
                   | Normal r => routerContent r
                   | Throw e => Throw e
                   end);
  let specialist := specialistOf content in
  do turns <- lift (recentTurns conversationHistory);
  let specialistMessages := turns ++ [userTurn messageBody] in
  do _ <- emit (Asked (selectedAgent content) specialistMessages userContext);
  do finalResponse <- lift (specialists (selectedAgent content) specialistMessages userContext);
  do _ <- onMemory (addMessage (now 4) (iso 4) fromNumber "assistant" finalResponse
                   [("specialist", JStr specialist);
                    ("userIdentified", JBool (truthy userContext))]);
  send 1 fromNumber finalResponse fromPhoneNumber.

(** [process(fromNumber, toNumber, messageBody, twilioClient,
    fromPhoneNumber)] *)
Definition process (fromNumber toNumber messageBody fromPhoneNumber : string)
  : step unit :=
  tryCatch (attempt fromNumber toNumber messageBody fromPhoneNumber)
    (fun _ => send 2 fromNumber (JStr errorText) fromPhoneNumber).

End Process.

(** The bodies of the messages created, in order. *)
Definition outboundBodies (events : list pipelineEvent) : list string :=
  createdBodies (omap (fun e => match e with Outbound o => Some o | _ => None end) events).

End Processor.

Module PipelineScenarios.
Import Js Reasoning Routing Scenarios.

Definition unknownUser (_ : string) : completion jsval := Normal JNull.

(** A classifier that answers BUSINESS_AGENT. *)
Definition businessClassifier (_ : list jsval) (_ : jsval) : completion response :=
  Normal (textResponse "BUSINESS_AGENT").

(** Specialists that answer in one short sentence, and specialists that
    are down. *)
Definition briefSpecialists (_ : agent) (_ : list jsval) (_ : jsval) : completion jsval :=
  Normal (JStr "Your Q3 revenue is up 4%.").

Definition brokenSpecialists (_ : agent) (_ : list jsval) (_ : jsval) : completion jsval :=
  Throw "Error".

Definition workingClient (_ _ : nat) (_ : string) : completion unit := Normal tt.

(** A clock that stands still. *)
Definition stillClock (_ : nat) : Z := 1700000000000.
Definition stillIso (_ : nat) : string := "2023-11-14T22:13:20.000Z".

End PipelineScenarios.

(* ===================================================================== *)
(** ** [SMSToolExecutor] of src/tools/sms/executor.js *)
(* ===================================================================== *)

Module Executor.
Import JsString Js.

(** The clients behind the handlers. Each call returns or throws. The
    body of the [try] of [handleSmartDataQuery] (the optimizer, the
    outcome selection and the table reads) is taken as one such call. *)
Record clients : Type := {
  lookupUserByPhone : jsval -> completion jsval;
  smartDataQueryBody : jsval -> jsval -> completion jsval;
  getUserOutcomes : jsval -> jsval -> completion jsval;
  getDataTables : jsval -> jsval -> jsval -> completion jsval;
  getTableData : jsval -> jsval -> jsval -> jsval -> jsval -> completion jsval;
  getChatHistory : jsval -> jsval -> jsval -> completion jsval;
  getAttomPropertyDetail : jsval -> completion jsval;
  getAttomPropertyAssessment : jsval -> completion jsval;
  getAttomAVM : jsval -> completion jsval;
  getAttomSalesHistory : jsval -> completion jsval;
  getAttomMarketTrends : jsval -> completion jsval;
  executeSmartPropertySearch : jsval -> completion jsval;
  rentcastApiKey : jsval;
  getPropertyDetails : jsval -> completion jsval;
  getRentEstimate : jsval -> jsval -> completion jsval;
  searchWeb : jsval -> completion jsval
}.

(** [v.k]: a TypeError on [null] and [undefined]. *)
Definition prop (v : jsval) (k : string) : completion jsval :=
  if isNullish v then Throw "TypeError" else Normal (get v k).

Definition andThen {A B} (c : completion A) (f : A -> completion B) : completion B :=
  match c with
  | Normal a => f a
  | Throw e => Throw e
  end.

(** [{ error: text }] *)
Definition errorOnly (text : string) : jsval := JObj [("error", JStr text)].

(** [try { body } catch (error) { return { error: text } }] *)
Definition orError (text : string) (body : completion jsval) : completion jsval :=
  match body with
  | Normal v => Normal v
  | Throw _ => Normal (errorOnly text)
  end.

Definition unknownTool (toolName : string) : jsval :=
  JObj [("error", JStr ("Unknown tool: " +:+ toolName));
        ("message", JStr "The requested tool is not available.")].

Definition needsQuery : jsval :=
  JObj [("error", JStr "Please specify what you would like me to search for");
        ("needsInput", JBool true)].

Section Handlers.
Variable c : clients.

Definition handleUserLookup (parameters : jsval) : completion jsval :=
  orError "Failed to lookup user. Please try again."
    (andThen (prop parameters "phoneNumber") (fun phoneNumber =>
     andThen (lookupUserByPhone c phoneNumber) (fun user =>
       if truthy user then
         Normal (JObj [("success", JBool true);
                       ("userId", get user "userId");
                       ("organizationId", get user "organizationId");
                       ("name", get user "name");
                       ("message", JStr "User successfully identified")])
       else
         Normal (JObj [("success", JBool false);
                       ("message", JStr "No user found for this phone number")])))).

Definition handleSmartDataQuery (parameters userContext : jsval) : completion jsval :=
  if truthy userContext then
    orError "Failed to process data query. Please try again."
      (smartDataQueryBody c parameters userContext)
  else Normal (errorOnly "Please identify yourself first by providing your phone number.").

Definition handleGetUserOutcomes (parameters userContext : jsval) : completion jsval :=
  if truthy userContext then
    orError "Failed to get outcomes"
      (getUserOutcomes c (get userContext "userId") (get userContext "organizationId"))
  else Normal (errorOnly "User context required").

Definition handleGetDataTables (parameters userContext : jsval) : completion jsval :=
  if truthy userContext then
    orError "Failed to get data tables"
      (andThen (prop parameters "outcomeId") (fun outcomeId =>
         getDataTables c (get userContext "userId") (get userContext "organizationId")
           outcomeId))
  else Normal (errorOnly "User context required").

Definition handleGetTableData (parameters userContext : jsval) : completion jsval :=
  if truthy userContext then
    orError "Failed to get table data"
      (andThen (prop parameters "tableId") (fun tableId =>
         getTableData c (get userContext "userId") (get userContext "organizationId")
           tableId (get parameters "limit") (get parameters "offset")))
  else Normal (errorOnly "User context required").

Definition handleGetChatHistory (parameters userContext : jsval) : completion jsval :=
  if truthy userContext then
    orError "Failed to get chat history"
      (andThen (prop parameters "outcomeId") (fun outcomeId =>
         getChatHistory c (get userContext "userId") (get userContext "organizationId")
           outcomeId))
  else Normal (errorOnly "User context required").

(** The [console.log] of [handleAttomPropertyDetail] reads
    [parameters.address] inside the [try]. *)
Definition handleAttomPropertyDetail (parameters : jsval) : completion jsval :=
  orError "Failed to get property details"
    (andThen (prop parameters "address") (fun _ => getAttomPropertyDetail c parameters)).

Definition handleAttomAssessment (parameters : jsval) : completion jsval :=
  orError "Failed to get property assessment" (getAttomPropertyAssessment c parameters).

Definition handleAttomAVM (parameters : jsval) : completion jsval :=
  orError "Failed to get property valuation" (getAttomAVM c parameters).

Definition handleAttomSalesHistory (parameters : jsval) : completion jsval :=
  orError "Failed to get sales history" (getAttomSalesHistory c parameters).

Definition handleAttomMarketTrends (parameters : jsval) : completion jsval :=
  orError "Failed to get market trends" (getAttomMarketTrends c parameters).

Definition handleSmartPropertySearch (parameters : jsval) : completion jsval :=
  orError "Failed to search properties"
    (andThen (prop parameters "query") (fun _ => executeSmartPropertySearch c parameters)).

Definition handleWebSearch (parameters : jsval) : completion jsval :=
  orError "Failed to search the web"
    (andThen (prop parameters "query") (fun query =>
       if truthy query then searchWeb c query else Normal needsQuery)).

Definition handleRentcastPropertyDetails (parameters : jsval) : completion jsval :=
  orError "Failed to get rental property details"
    (andThen (prop parameters "address") (fun address =>
       if truthy (rentcastApiKey c) then getPropertyDetails c address
       else
         handleWebSearch
           (JObj [("query",
                   JStr (toString address +:+ " property details rental information"))]))).

Definition handleRentcastRentEstimate (parameters : jsval) : completion jsval :=
  orError "Failed to get rent estimate"
    (andThen (prop parameters "address") (fun address =>
       if truthy (rentcastApiKey c) then
         getRentEstimate c address
           (JObj [("propertyType", get parameters "propertyType");
                  ("bedrooms", get parameters "bedrooms");
                  ("bathrooms", get parameters "bathrooms");
                  ("squareFeet", get parameters "squareFeet")])
       else
         handleWebSearch
           (JObj [("query", JStr (toString address +:+ " rent estimate rental price"))]))).

(** [execute(toolName, parameters, userContext)]: the [switch]. *)
Definition execute (toolName : string) (parameters userContext : jsval)
  : completion jsval :=
  if String.eqb toolName "lookup_outcome_user_sms" then handleUserLookup parameters
  else if String.eqb toolName "smart_data_query_sms"
  then handleSmartDataQuery parameters userContext
  else if String.eqb toolName "get_user_outcomes_sms"
  then handleGetUserOutcomes parameters userContext
  else if String.eqb toolName "get_data_tables_sms"
  then handleGetDataTables parameters userContext
  else if String.eqb toolName "get_table_data_sms"
  then handleGetTableData parameters userContext
  else if String.eqb toolName "get_chat_history_sms"
  then handleGetChatHistory parameters userContext
  else if String.eqb toolName "attom_property_detail_sms"
  then handleAttomPropertyDetail parameters
  else if String.eqb toolName "attom_assessment_sms" then handleAttomAssessment parameters
  else if String.eqb toolName "attom_avm_sms" then handleAttomAVM parameters
  else if String.eqb toolName "attom_sales_history_sms"
  then handleAttomSalesHistory parameters
  else if String.eqb toolName "attom_market_trends_sms"
  then handleAttomMarketTrends parameters
  else if String.eqb toolName "smart_property_search_sms"
  then handleSmartPropertySearch parameters
  else if String.eqb toolName "rentcast_property_details_sms"
  then handleRentcastPropertyDetails parameters
  else if String.eqb toolName "rentcast_rent_estimate_sms"
  then handleRentcastRentEstimate parameters
  else if String.eqb toolName "web_search_sms" then handleWebSearch parameters
  else Normal (unknownTool toolName).

End Handlers.

(** The closure the processor hands to the agents,
    [(toolName, args, ctx) => this.toolExecutor.execute(toolName, args, ctx)],
    as the loops see it: by the number of earlier executions, with clients
    that may answer differently from call to call. *)
Definition toolExecutor (clientsAt : nat -> clients) (userContext : jsval)
  (n : nat) (toolName : string) (args : jsval) : completion jsval :=
  execute (clientsAt n) toolName args userContext.

(** The tools that read the user's workspace. *)
Definition workspaceTools : list string :=
  ["smart_data_query_sms"; "get_user_outcomes_sms"; "get_data_tables_sms";
   "get_table_data_sms"; "get_chat_history_sms"].

End Executor.

Module ExecutorScenarios.
Import Js Executor.

(** Clients that are all down, with no RentCast key. *)
Definition clientsDown : clients :=
  {| lookupUserByPhone := fun _ => Throw "timeout";
     smartDataQueryBody := fun _ _ => Throw "timeout";
     getUserOutcomes := fun _ _ => Throw "timeout";
     getDataTables := fun _ _ _ => Throw "timeout";
     getTableData := fun _ _ _ _ _ => Throw "timeout";
     getChatHistory := fun _ _ _ => Throw "timeout";
     getAttomPropertyDetail := fun _ => Throw "timeout";
     getAttomPropertyAssessment := fun _ => Throw "timeout";
     getAttomAVM := fun _ => Throw "timeout";
     getAttomSalesHistory := fun _ => Throw "timeout";
     getAttomMarketTrends := fun _ => Throw "timeout";
     executeSmartPropertySearch := fun _ => Throw "timeout";
     rentcastApiKey := JUndefined;
     getPropertyDetails := fun _ => Throw "timeout";
     getRentEstimate := fun _ _ => Throw "timeout";
     searchWeb := fun _ => Throw "timeout" |}.

(** Clients that answer every call with the same record. *)
Definition clientsUp : clients :=
  {| lookupUserByPhone := fun _ => Normal (JObj [("userId", JStr "u-17")]);
     smartDataQueryBody := fun _ _ => Normal (JObj [("success", JBool true)]);
     getUserOutcomes := fun _ _ => Normal (JObj [("success", JBool true)]);
     getDataTables := fun _ _ _ => Normal (JObj [("success", JBool true)]);
     getTableData := fun _ _ _ _ _ => Normal (JObj [("success", JBool true)]);
     getChatHistory := fun _ _ _ => Normal (JObj [("success", JBool true)]);
     getAttomPropertyDetail := fun _ => Normal (JObj [("success", JBool true)]);
     getAttomPropertyAssessment := fun _ => Normal (JObj [("success", JBool true)]);
     getAttomAVM := fun _ => Normal (JObj [("success", JBool true)]);
     getAttomSalesHistory := fun _ => Normal (JObj [("success", JBool true)]);
     getAttomMarketTrends := fun _ => Normal (JObj [("success", JBool true)]);
     executeSmartPropertySearch := fun _ => Normal (JObj [("success", JBool true)]);
     rentcastApiKey := JStr "key";
     getPropertyDetails := fun _ => Normal (JObj [("success", JBool true)]);
     getRentEstimate := fun _ _ => Normal (JObj [("success", JBool true)]);
     searchWeb := fun _ => Normal (JObj [("success", JBool true)]) |}.

End ExecutorScenarios.

(* ===================================================================== *)
(** ** [maskPhoneNumber] of src/utils/pii-masking.js *)
(* ===================================================================== *)

Module PiiMasking.
Import JsString Js.

Definition isDigit (ch : ascii) : bool :=
  let n := nat_of_ascii ch in ((48 <=? n) && (n <=? 57))%nat.

(** [phoneNumber.replace(/[^\d+]/g, '')] *)
Definition cleaned (phoneNumber : string) : list ascii :=
  List.filter (fun ch => isDigit ch || Ascii.eqb ch "+"%char) (list_ascii_of_string phoneNumber).

(** The first four and the last three characters of the cleaned number
    around at most four asterisks. *)
Definition masked (digits : list ascii) : list ascii :=
  take 4 digits ++ repeat "*"%char (Nat.min (length digits - 7) 4) ++
  drop (length digits - 3) digits.

Definition maskPhoneNumber (phoneNumber : jsval) : string :=
  match phoneNumber with
  | JStr s =>
    if String.eqb s "" then "INVALID_NUMBER"
    else if (length (cleaned s) <? 7)%nat then "***-****"
    else string_of_list_ascii (masked (cleaned s))
  | _ => "INVALID_NUMBER"
  end.

End PiiMasking.

(* ===================================================================== *)
(** ** [AttomAPIClient]: the call and its fallback *)
(* ===================================================================== *)

Module AttomClient.
Import JsString Js JsObject.

(** What [fetch] resolves to: [response.ok], [response.statusText] and
    what [response.json()] gives. *)
Record httpResponse : Type := {
  ok : bool;
  statusText : string;
  json : completion jsval
}.

(** The parameter name the API is given. *)
Definition attomKey (key : string) : string :=
  if String.eqb key "postalCode" then "postalcode"
  else if String.eqb key "attomId" then "attomid"
  else if String.eqb key "propertyType" then "propertytype"
  else if String.eqb key "geoIdV4" then "geoidv4"
  else toLowerCase key.

(** [value !== undefined && value !== null && value !== ''] *)
Definition isGiven (value : jsval) : bool :=
  match value with
  | JUndefined | JNull => false
  | JStr s => negb (String.eqb s "")
  | _ => true
  end.

(** [Object.entries(params).forEach(...)] filling [attomParams]. *)
Definition convert (entries : list (string * jsval)) : list (string * jsval) :=
  fold_left (fun attomParams kv =>
               if isGiven (snd kv) then setField (attomKey (fst kv)) (snd kv) attomParams
               else attomParams)
    entries [].

Definition unavailable : jsval :=
  JObj [("error",
         JStr "Property data service is not available right now. Please contact support.")].

Definition noResultsFor (details : jsval) : jsval :=
  JObj [("error", JStr "No property data found for the provided address. This could mean the property is not in the ATTOM database or the address format needs adjustment.");
        ("noResults", JBool true);
        ("details", details)].

(** [data.status?.msg || 'Unknown error'] inside the template. *)
Definition statusMessage (status : jsval) : string :=
  let msg := if isNullish status then JUndefined else get status "msg" in
  if truthy msg then toString msg else "Unknown error".

(** The statements after [fetch] resolved, inside the [try]. *)
Definition classify (response : httpResponse) : completion jsval :=
  if ok response then
    match json response with
    | Throw e => Throw e
    | Normal data =>
      if isNullish data then Throw "TypeError"
      else
        let status := get data "status" in
        match (if truthy status then get status "code" else JUndefined) with
        | JNum 0 => Normal data
        | JNum 400 => Normal (noResultsFor (get status "msg"))
        | _ => Normal (JObj [("error", JStr ("ATTOM API: " +:+ statusMessage status))])
        end
    end
  else Normal (JObj [("error", JStr ("ATTOM API failed: " +:+ statusText response))]).

Section Client.
(** [this.apiKey], and [fetch] with its timeout by endpoint and converted
    parameters. *)
Variable apiKey : jsval.
Variable fetch : string -> list (string * jsval) -> completion httpResponse.

(** [Object.entries(params)], with the default [params = {}]. *)
Definition entriesOf (params : jsval) : completion (list (string * jsval)) :=
  match params with
  | JNull => Throw "TypeError"
  | _ => Normal (ownFields params)
  end.

(** The body of the [try]. *)
Definition request (endpoint : string) (params : jsval) : completion jsval :=
  match entriesOf params with
  | Throw e => Throw e
  | Normal entries =>
    match fetch endpoint (convert entries) with
    | Normal response => classify response
    | Throw e => Throw e
    end
  end.

(** [callAttomAPI(endpoint, params)]; in the [catch], the text of the
    exception stands for [error.message]. *)
Definition callAttomAPI (endpoint : string) (params : jsval) : completion jsval :=
  if truthy apiKey then
    match request endpoint params with
    | Normal result => Normal result
    | Throw e => Normal (JObj [("error", JStr ("Failed to call ATTOM API: " +:+ e))])
    end
  else Normal unavailable.

(** [getAttomPropertyDetail(params)]: the snapshot, then the detail
    endpoint. *)
Definition getAttomPropertyDetail (params : jsval) : completion jsval :=
  match callAttomAPI "/property/snapshot" params with
  | Normal result =>
    if isNullish result then Throw "TypeError"
    else if truthy (get result "error") || truthy (get result "noResults")
    then callAttomAPI "/property/detail" params
    else Normal result
  | Throw e => Throw e
  end.

End Client.

(** A result of the API proper: [fetch] resolved with [ok], the body
    parsed, and its status code is 0. *)
Definition isData (fetch : string -> list (string * jsval) -> completion httpResponse)
  (endpoint : string) (params result : jsval) : Prop :=
  exists entries response,
    entriesOf params = Normal entries /\
    fetch endpoint (convert entries) = Normal response /\
    ok response = true /\ json response = Normal result /\
    get (get result "status") "code" = JNum 0.

End AttomClient.

Module AttomScenarios.
Import Js AttomClient.

(** The snapshot endpoint knows nothing, the detail endpoint answers. *)
Definition detailOnly (endpoint : string) (_ : list (string * jsval))
  : completion httpResponse :=
  Normal {| ok := true; statusText := "OK";
            json :=
              if String.eqb endpoint "/property/detail"
              then Normal (JObj [("status", JObj [("code", JNum 0)]);
                                 ("property", JArr [JObj [("address", JStr "123 Main St")]])])
              else Normal (JObj [("status",
                                  JObj [("code", JNum 400); ("msg", JStr "SuccessWithoutResult")])]) |}.

End AttomScenarios.

(* ===================================================================== *)
(** * Properties *)
(* ===================================================================== *)

(** ** The chunker *)

Module SmsFacts.
Import JsString Sms.

Lemma trimStart_length s : length (trimStart s) <= length s.
Proof. induction s as [|c r IH]; simpl; [lia|]. destruct (isWhiteSpace c); simpl; lia. Qed.

Lemma trimStart_removeWhiteSpace s :
  removeWhiteSpace (trimStart s) = removeWhiteSpace s.
Proof.
  induction s as [|c r IH]; simpl; [reflexivity|].
  destruct (isWhiteSpace c) eqn:E; simpl; [exact IH | now rewrite E].
Qed.

Lemma removeWhiteSpace_rev s :
  removeWhiteSpace (rev s) = rev (removeWhiteSpace s).
Proof.
  unfold removeWhiteSpace. induction s as [|c r IH]; simpl; [reflexivity|].
  rewrite List.filter_app, IH. simpl.
  destruct (negb (isWhiteSpace c)); simpl; [reflexivity | now rewrite app_nil_r].
Qed.

Lemma trim_length s : length (trim s) <= length s.
Proof.
  unfold trim, trimEnd. rewrite length_rev.
  etransitivity; [apply trimStart_length|]. rewrite length_rev. apply trimStart_length.
Qed.

Lemma trim_removeWhiteSpace s : removeWhiteSpace (trim s) = removeWhiteSpace s.
Proof.
  unfold trim, trimEnd.
  rewrite removeWhiteSpace_rev, trimStart_removeWhiteSpace, removeWhiteSpace_rev,
    rev_involutive.
  apply trimStart_removeWhiteSpace.
Qed.

Lemma removeWhiteSpace_app a b :
  removeWhiteSpace (a ++ b) = removeWhiteSpace a ++ removeWhiteSpace b.
Proof. apply List.filter_app. Qed.

Lemma lastIndexOfFrom_bound c s i acc :
  (acc < i + Z.of_nat (length s))%Z ->
  (lastIndexOfFrom c s i acc < i + Z.of_nat (length s))%Z.
Proof.
  revert i acc. induction s as [|x r IH]; intros i acc H; simpl in *; [lia|].
  specialize (IH (i + 1)%Z (if Ascii.eqb x c then i else acc)).
  destruct (Ascii.eqb x c); lia.
Qed.

Lemma lastIndexOf_bound c s : (lastIndexOf c s < Z.of_nat (length s))%Z \/ s = [].
Proof.
  destruct s as [|x r]; [now right|left].
  unfold lastIndexOf. pose proof (lastIndexOfFrom_bound c (x :: r) 0 (-1)) as H.
  simpl in *. lia.
Qed.

Lemma splitPoint_bounds maxLength remaining :
  1 <= maxLength -> remaining <> [] ->
  1 <= splitPoint maxLength remaining /\
  splitPoint maxLength remaining <= maxLength /\
  splitPoint maxLength remaining <= length remaining.
Proof.
  intros Hm Hne. unfold splitPoint.
  destruct (Nat.ltb_spec maxLength (length remaining)) as [Hlt|Hge].
  - destruct (Z.ltb_spec 0 (lastIndexOf " "%char (take maxLength remaining))) as [Hp|Hn].
    + destruct (lastIndexOf_bound " "%char (take maxLength remaining)) as [Hb|Hb].
      * rewrite length_take in Hb. lia.
      * rewrite Hb in Hp. cbn in Hp. lia.
    + lia.
  - destruct remaining; [congruence|]. simpl in *. lia.
Qed.

Lemma chunkLoop_spec maxLength :
  1 <= maxLength ->
  forall fuel remaining,
    length remaining <= fuel ->
    exists chunks,
      chunkLoop fuel maxLength remaining = Some chunks /\
      Forall (fun b => length b <= maxLength) chunks /\
      removeWhiteSpace (concat chunks) = removeWhiteSpace remaining.
Proof.
  intros Hm. induction fuel as [|fuel IH]; intros remaining Hlen.
  - destruct remaining; [|simpl in Hlen; lia]. exists []. simpl. auto.
  - destruct remaining as [|c r] eqn:E; [exists []; simpl; auto|].
    rewrite <- E in *. assert (Hne : remaining <> []) by (rewrite E; discriminate).
    destruct (splitPoint_bounds maxLength remaining Hm Hne) as (H1 & H2 & H3).
    destruct (IH (trim (drop (splitPoint maxLength remaining) remaining))) as (chunks & Hc & Hall & Hws).
    { pose proof (trim_length (drop (splitPoint maxLength remaining) remaining)) as Ht.
      rewrite length_drop in Ht. lia. }
    exists (trim (take (splitPoint maxLength remaining) remaining) :: chunks).
    split; [|split].
    + rewrite E at 1. cbn [chunkLoop]. rewrite <- E. rewrite Hc. reflexivity.
    + constructor; [|exact Hall].
      pose proof (trim_length (take (splitPoint maxLength remaining) remaining)) as Ht.
      rewrite length_take in Ht. lia.
    + simpl. rewrite removeWhiteSpace_app, Hws, !trim_removeWhiteSpace,
        <- removeWhiteSpace_app, take_drop. reflexivity.
Qed.

Lemma digits_no_paren d :
  Forall (fun c => c <> ")"%char) (list_ascii_of_string (NilEmpty.string_of_uint d)).
Proof. induction d; simpl; constructor; (discriminate || assumption). Qed.

Lemma dropThrough_skip c pre rest :
  Forall (fun x => x <> c) pre -> dropThrough c (pre ++ c :: rest) = rest.
Proof.
  induction 1 as [|x l Hx _ IH]; simpl.
  - now rewrite Ascii.eqb_refl.
  - destruct (Ascii.eqb_spec x c); [contradiction | exact IH].
Qed.

Lemma stripMarker_partMarker i n chunk :
  stripMarker (partMarker i n ++ chunk) = chunk.
Proof.
  unfold stripMarker, partMarker.
  replace (("("%char :: ofNat (i + 1) ++ "/"%char :: ofNat n ++ [")"%char; " "%char]) ++ chunk)
    with (("("%char :: ofNat (i + 1) ++ "/"%char :: ofNat n) ++ ")"%char :: " "%char :: chunk).
  2:{ simpl. rewrite <- !app_assoc. simpl. rewrite <- !app_assoc. reflexivity. }
  rewrite dropThrough_skip; [reflexivity|].
  constructor; [discriminate|]. apply Forall_app; split; [apply digits_no_paren|].
  constructor; [discriminate | apply digits_no_paren].
Qed.

Lemma map_imap_cancel {A B} (g : B -> A) (f : nat -> A -> B) l :
  (forall i x, g (f i x) = x) -> List.map g (imap f l) = l.
Proof.
  revert f. induction l as [|x l IH]; intros f H; simpl; [reflexivity|].
  rewrite H, IH; [reflexivity|]. intros i y. apply H.
Qed.

Lemma chunkBodies_annotate chunks :
  1 < length chunks -> chunkBodies (annotate chunks) = chunks.
Proof.
  intros H. unfold chunkBodies, annotate. rewrite length_imap.
  destruct (Nat.ltb_spec 1 (length chunks)); [|lia].
  apply map_imap_cancel. intros. apply stripMarker_partMarker.
Qed.





End SmsFacts.

(** ** Traces *)

Module TraceFacts.
Import Js Reasoning Invariants.

Lemma failures_cons name e tr :
  failures name (e :: tr) = (if fails name e then 1 else 0) + failures name tr.
Proof. unfold failures. simpl. destruct (fails name e); reflexivity. Qed.

Lemma successes_cons name e tr :
  successes name (e :: tr) = (if succeeds name e then 1 else 0) + successes name tr.
Proof. unfold successes. simpl. destruct (succeeds name e); reflexivity. Qed.

Lemma reasonCalls_cons e tr :
  reasonCalls (e :: tr) = (if isReason e then 1 else 0) + reasonCalls tr.
Proof. unfold reasonCalls. simpl. destruct (isReason e); reflexivity. Qed.

Lemma executeCalls_cons e tr :
  executeCalls (e :: tr) = (if isExecute e then 1 else 0) + executeCalls tr.
Proof. unfold executeCalls. simpl. destruct (isExecute e); reflexivity. Qed.

Lemma succeeds_executes name e : succeeds name e = true -> executesTool name e = true.
Proof. destruct e as [| | | | |n a [r|err]]; simpl; congruence. Qed.

Lemma not_executes_not_succeeds name e :
  executesTool name e = false -> succeeds name e = false.
Proof.
  intros H. destruct (succeeds name e) eqn:E; [|reflexivity].
  apply succeeds_executes in E. congruence.
Qed.

Lemma successes_app name a b :
  successes name (a ++ b) = successes name a + successes name b.
Proof. unfold successes. now rewrite List.filter_app, length_app. Qed.

(** [executedAfterSuccess] read as a statement about the splits of the
    trace: nothing newer than a returned execution executes the tool. *)
Lemma executedAfterSuccess_split name trace :
  executedAfterSuccess name trace = false ->
  forall newer args result older,
    trace = newer ++ EvExecute name args (Normal result) :: older ->
    Forall (fun e => executesTool name e = false) newer.
Proof.
  intros H newer. revert trace H.
  induction newer as [|e newer IH]; intros trace H args result older ->; [constructor|].
  simpl in H. apply orb_false_iff in H. destruct H as [He Ho]. constructor.
  - destruct (executesTool name e) eqn:E; [|reflexivity]. simpl in He.
    apply Nat.ltb_ge in He. rewrite successes_app, successes_cons in He.
    simpl in He. rewrite String.eqb_refl in He. lia.
  - eapply IH; [exact Ho | reflexivity].
Qed.

End TraceFacts.

(** ** The generic specialist *)

Module BaseAgentFacts.
Import JsString Js Reasoning BaseAgent Invariants TraceFacts.

Section Facts.
Variable regexMatch : pattern -> string -> option (list string).
Variable tools : list string.
Variable openai : nat -> request -> response.
Variable toolExecutor : nat -> string -> jsval -> completion jsval.
Variable userMessage : string.

Local Abbreviation forCalls := (BaseAgent.forCalls regexMatch tools openai toolExecutor userMessage).
Local Abbreviation whileLoop := (BaseAgent.whileLoop regexMatch tools openai toolExecutor userMessage).
Local Abbreviation process := (BaseAgent.process regexMatch tools openai toolExecutor userMessage).
Local Abbreviation afterSuccess := (BaseAgent.afterSuccess tools openai).
Local Abbreviation initialState := (BaseAgent.initialState tools openai).

Lemma inv_initial : baseInv initialState.
Proof.
  constructor; simpl; intros name; try reflexivity.
  - unfold failures. simpl. lia.
  - split; [intros H; now apply elem_of_empty in H | unfold successes; simpl; lia].
  - unfold successes. simpl. lia.
Qed.

Lemma inv_skip st e :
  (forall name, fails name e = false) ->
  (forall name, executesTool name e = false) ->
  baseInv st -> baseInv (logEvent e st).
Proof.
  intros Hf He [H1 H2 H3 H4 H5 H6].
  assert (Hs : forall name, succeeds name e = false)
    by (intros name; apply not_executes_not_succeeds, He).
  constructor; simpl; intros name.
  - rewrite failures_cons, Hf. apply H1.
  - rewrite failures_cons, Hf. apply H2.
  - rewrite successes_cons, Hs. apply H3.
  - rewrite successes_cons, Hs. apply H4.
  - rewrite He. apply H5.
  - rewrite Hs, Hf. apply H6.
Qed.

Lemma not_successful_zero st name :
  baseInv st -> name ∉ successfulTools st -> successes name (trace st) = 0.
Proof.
  intros Hinv Hnot. destruct (successes name (trace st)) eqn:E; [reflexivity|].
  exfalso. apply Hnot, (inv_success st Hinv). lia.
Qed.

Lemma inv_failure st name e :
  fails name e = true ->
  (forall n, n <> name -> fails n e = false) ->
  (forall n, succeeds n e = false) ->
  (forall n, executesTool n e = true -> n = name) ->
  name ∉ successfulTools st ->
  default 0 (failedAttempts st !! name) < 2 ->
  baseInv st ->
  baseInv (markFailed name (default 0 (failedAttempts st !! name)) (logEvent e st)).
Proof.
  intros Hf Hfo Hs He Hnot Hlt Hinv.
  pose proof (not_successful_zero st name Hinv Hnot) as H0.
  destruct Hinv as [H1 H2 H3 H4 H5 H6].
  constructor; simpl; intros n.
  - rewrite failures_cons. destruct (decide (n = name)) as [->|Hne].
    + rewrite lookup_insert_eq, Hf. simpl. rewrite <- H1. lia.
    + rewrite lookup_insert_ne by congruence. rewrite Hfo by exact Hne. apply H1.
  - rewrite failures_cons. destruct (decide (n = name)) as [->|Hne].
    + rewrite Hf, <- H1. lia.
    + rewrite Hfo by exact Hne. apply H2.
  - rewrite successes_cons, Hs. apply H3.
  - rewrite successes_cons, Hs. apply H4.
  - rewrite H5, orb_false_r. destruct (executesTool n e) eqn:E; [|reflexivity].
    apply He in E. subst n. rewrite H0. reflexivity.
  - rewrite H6, orb_false_r, Hs. simpl. destruct (decide (n = name)) as [->|Hne].
    + rewrite Hf, <- H1. simpl.
      destruct (default 0 (failedAttempts st !! name)) as [|[|?]]; [reflexivity|reflexivity|lia].
    + now rewrite Hfo.
Qed.

Lemma inv_success_step st name args toolResult :
  name ∉ successfulTools st ->
  default 0 (failedAttempts st !! name) < 2 ->
  baseInv st -> baseInv (afterSuccess name args toolResult st).
Proof.
  intros Hnot Hlt Hinv.
  pose proof (not_successful_zero st name Hinv Hnot) as H0.
  destruct Hinv as [H1 H2 H3 H4 H5 H6].
  constructor; simpl; intros n.
  - rewrite !failures_cons. simpl. apply H1.
  - rewrite !failures_cons. simpl. apply H2.
  - rewrite !successes_cons. simpl. rewrite elem_of_union, elem_of_singleton, H3.
    destruct (String.eqb_spec name n) as [->|Hne].
    + split; [intros _; lia | intros _; now left].
    + split; [intros [->|H]; [congruence|lia] | intros H; right; lia].
  - rewrite !successes_cons. simpl.
    destruct (String.eqb_spec name n) as [<-|Hne]; [lia | apply H4].
  - rewrite H5, orb_false_r. destruct (String.eqb_spec name n) as [<-|Hne]; [|reflexivity].
    rewrite H0. reflexivity.
  - rewrite H6, orb_false_r, ?failures_cons. simpl.
    destruct (String.eqb_spec name n) as [<-|Hne]; [|reflexivity].
    simpl. rewrite <- H1.
    destruct (default 0 (failedAttempts st !! name)) as [|[|?]]; [reflexivity|reflexivity|lia].
Qed.

(** The [for] loop keeps the invariant, whichever way it is left. *)
Lemma forCalls_inv calls : forall st,
  baseInv st ->
  match forCalls calls st with
  | ForBreak st' | ForEnd st' | ForThrow st' _ => baseInv st'
  | ForReturn _ _ => False
  end.
Proof.
  induction calls as [|fc rest IH]; intros st Hinv; cbn [BaseAgent.forCalls]; [exact Hinv|].
  case_bool_decide as Hin.
  { apply IH, inv_skip; auto. }
  destruct (Nat.leb_spec 2 (default 0 (failedAttempts st !! fc_name fc))) as [Hge|Hlt].
  { apply IH, inv_skip; auto. }
  destruct (fc_arguments fc) as [args|].
  2:{ apply IH, inv_failure; simpl; auto.
      - apply String.eqb_refl.
      - intros n Hn. apply String.eqb_neq. congruence.
      - discriminate. }
  destruct (objectKeysLength args) as [keys|e]; [|exact Hinv].
  destruct (resolveArguments regexMatch userMessage (fc_name fc) args keys) as [args'|].
  2:{ apply IH, inv_failure; simpl; auto.
      - apply String.eqb_refl.
      - intros n Hn. apply String.eqb_neq. congruence.
      - discriminate. }
  destruct (toolExecutor _ (fc_name fc) args') as [toolResult|e].
  - apply inv_success_step; assumption.
  - apply IH, inv_failure; simpl; auto.
    + apply String.eqb_refl.
    + intros n Hn. apply String.eqb_neq. congruence.
    + intros n Hn. apply String.eqb_eq in Hn. congruence.
Qed.

(** What the [for] loop leaves alone. *)
Lemma forCalls_frame calls : forall st,
  match forCalls calls st with
  | ForBreak st' =>
    iterations st' = iterations st /\
    reasonCalls (trace st') = S (reasonCalls (trace st)) /\
    lastToolResult st' = lastOutcome (allToolResults st')
  | ForEnd st' =>
    iterations st' = iterations st /\
    reasonCalls (trace st') = reasonCalls (trace st) /\
    currentResponse st' = currentResponse st /\
    lastToolResult st' = lastToolResult st /\
    allToolResults st' = allToolResults st
  | ForThrow st' e =>
    iterations st' = iterations st /\
    reasonCalls (trace st') = reasonCalls (trace st) /\
    currentResponse st' = currentResponse st /\
    lastToolResult st' = lastToolResult st /\
    allToolResults st' = allToolResults st /\
    e = "TypeError"
  | ForReturn _ _ => False
  end.
Proof.
  induction calls as [|fc rest IH]; intros st; cbn [BaseAgent.forCalls]; [auto|].
  case_bool_decide as Hin.
  { specialize (IH (logEvent (EvSkipSuccessful (fc_name fc)) st)).
    destruct (forCalls rest _); simpl in *; rewrite ?reasonCalls_cons in IH; simpl in IH; exact IH. }
  destruct (Nat.leb_spec 2 (default 0 (failedAttempts st !! fc_name fc))) as [Hge|Hlt].
  { match goal with |- context [forCalls rest ?s] => specialize (IH s) end.
    destruct (forCalls rest _); simpl in *; rewrite ?reasonCalls_cons in IH; simpl in IH; exact IH. }
  destruct (fc_arguments fc) as [args|].
  2:{ match goal with |- context [forCalls rest ?s] => specialize (IH s) end.
      destruct (forCalls rest _); simpl in *; rewrite ?reasonCalls_cons in IH; simpl in IH; exact IH. }
  destruct (objectKeysLength args) as [keys|e] eqn:Ek.
  2:{ repeat apply conj; auto. destruct args; simpl in Ek; congruence. }
  destruct (resolveArguments regexMatch userMessage (fc_name fc) args keys) as [args'|].
  2:{ match goal with |- context [forCalls rest ?s] => specialize (IH s) end.
      destruct (forCalls rest _); simpl in *; rewrite ?reasonCalls_cons in IH; simpl in IH; exact IH. }
  destruct (toolExecutor _ (fc_name fc) args') as [toolResult|e].
  - simpl. rewrite !reasonCalls_cons. simpl. repeat split.
    unfold lastOutcome. now rewrite last_snoc.
  - match goal with |- context [forCalls rest ?s] => specialize (IH s) end.
    destruct (forCalls rest _); simpl in *; rewrite ?reasonCalls_cons in IH; simpl in IH; exact IH.
Qed.

Lemma whileLoop_spec : forall fuel st,
  maxIterations - iterations st < fuel ->
  iterations st <= maxIterations ->
  baseHead st ->
  exists exit,
    whileLoop fuel st = Some exit /\
    baseHead (exitState exit) /\
    iterations (exitState exit) <= maxIterations /\
    match exit with
    | LoopDone _ => True
    | LoopReturn _ _ => False
    | LoopThrow _ e => e = "TypeError"
    end.
Proof.
  induction fuel as [|fuel IH]; intros st Hfuel Hle (Hinv & Hrc & Hlast); [lia|].
  cbn [BaseAgent.whileLoop].
  destruct (Nat.ltb_spec (iterations st) maxIterations) as [Hlt|Hge].
  2:{ eexists; split; [reflexivity|]. simpl. unfold baseHead; repeat apply conj; auto. }
  assert (Hinv1 : baseInv (nextIteration st)) by (destruct Hinv; constructor; assumption).
  destruct (Nat.eqb_spec (length (functionCallsOf (currentResponse (nextIteration st)))) 0).
  { eexists; split; [reflexivity|]. simpl. unfold baseHead; repeat apply conj; auto; try lia. }
  pose proof (forCalls_inv (functionCallsOf (currentResponse (nextIteration st))) _ Hinv1) as Hi.
  pose proof (forCalls_frame (functionCallsOf (currentResponse (nextIteration st))) (nextIteration st)) as Hf.
  destruct (forCalls _ (nextIteration st)) as [st2|st2|st2 r|st2 e]; simpl in Hf.
  - destruct Hf as (Hit & Hr & Hl).
    destruct (IH st2) as (exit & He & Hh & Hb & Hnr).
    + lia.
    + lia.
    + unfold baseHead; repeat apply conj; auto. lia.
    + exists exit. auto.
  - destruct Hf as (Hit & Hr & Hc & Hl & Ha).
    eexists; split; [reflexivity|]. simpl. unfold baseHead; repeat apply conj; auto; try lia.
    rewrite Hl, Ha. exact Hlast.
  - contradiction.
  - destruct Hf as (Hit & Hr & Hc & Hl & Ha & Herr).
    eexists; split; [reflexivity|]. simpl. unfold baseHead; repeat apply conj; auto; try lia.
    rewrite Hl, Ha. exact Hlast.
Qed.

Lemma whileLoop_more_fuel : forall fuel st exit,
  whileLoop fuel st = Some exit -> forall k, whileLoop (fuel + k) st = Some exit.
Proof.
  induction fuel as [|fuel IH]; intros st exit H k; [discriminate|].
  cbn [BaseAgent.whileLoop Nat.add] in *.
  destruct (iterations st <? maxIterations)%nat; [|exact H].
  destruct (length (functionCallsOf (currentResponse (nextIteration st))) =? 0)%nat; [exact H|].
  destruct (forCalls _ (nextIteration st)); auto.
Qed.

(** The trace only holds executions the executor answered. *)
Lemma forCalls_recorded calls : forall st,
  recorded toolExecutor (trace st) ->
  match forCalls calls st with
  | ForBreak st' | ForEnd st' | ForThrow st' _ | ForReturn st' _ =>
    recorded toolExecutor (trace st')
  end.
Proof.
  induction calls as [|fc rest IH]; intros st Hrec; cbn [BaseAgent.forCalls]; [exact Hrec|].
  case_bool_decide as Hin; [apply IH; constructor; [exact I | exact Hrec]|].
  destruct (2 <=? default 0 (failedAttempts st !! fc_name fc))%nat;
    [apply IH; constructor; [exact I | exact Hrec]|].
  destruct (fc_arguments fc) as [args|]; [|apply IH; constructor; [exact I | exact Hrec]].
  destruct (objectKeysLength args) as [keys|e]; [|exact Hrec].
  destruct (resolveArguments regexMatch userMessage (fc_name fc) args keys) as [args'|];
    [|apply IH; constructor; [exact I | exact Hrec]].
  destruct (toolExecutor _ (fc_name fc) args') as [toolResult|e] eqn:E.
  - simpl. constructor; [exact I|]. constructor; [eauto | exact Hrec].
  - apply IH. constructor; [eauto | exact Hrec].
Qed.

Lemma whileLoop_recorded : forall fuel st exit,
  recorded toolExecutor (trace st) ->
  whileLoop fuel st = Some exit ->
  recorded toolExecutor (trace (exitState exit)).
Proof.
  induction fuel as [|fuel IH]; intros st exit Hrec H; [discriminate|].
  cbn [BaseAgent.whileLoop] in H.
  destruct (iterations st <? maxIterations)%nat; [|injection H as <-; exact Hrec].
  destruct (length (functionCallsOf (currentResponse (nextIteration st))) =? 0)%nat;
    [injection H as <-; exact Hrec|].
  pose proof (forCalls_recorded (functionCallsOf (currentResponse (nextIteration st)))
                (nextIteration st) Hrec) as Hf.
  destruct (forCalls _ (nextIteration st)); try (injection H as <-; exact Hf).
  eapply IH; eassumption.
Qed.

Lemma process_recorded fuel r :
  process fuel = Some r -> recorded toolExecutor (trace (run_state r)).
Proof.
  unfold BaseAgent.process. intros H.
  destruct (whileLoop fuel initialState) as [exit|] eqn:E; [|discriminate].
  apply whileLoop_recorded in E; [|constructor; [exact I | constructor]].
  destruct exit; injection H as <-; exact E.
Qed.

Lemma baseHead_initial : baseHead initialState.
Proof.
  split; [apply inv_initial|]. split; [|reflexivity].
  simpl. unfold reasonCalls. simpl. lia.
Qed.

(** [process] returns for every reasoning collaborator and every tool
    executor, within the iteration bound. *)
Lemma process_run k :
  exists r,
    process (S maxIterations + k) = Some r /\
    baseHead (run_state r) /\
    iterations (run_state r) <= maxIterations /\
    (run_result r =
       Normal {| content := finalize (currentResponse (run_state r))
                                     (lastToolResult (run_state r)) |} \/
     run_result r = Throw "TypeError").
Proof.
  destruct (whileLoop_spec (S maxIterations) initialState) as (exit & He & Hh & Hb & Hnr).
  { unfold maxIterations. cbn. lia. }
  { unfold maxIterations. cbn. lia. }
  { apply baseHead_initial. }
  unfold BaseAgent.process. rewrite (whileLoop_more_fuel _ _ _ He k).
  destruct exit as [st|st r|st e]; simpl in *.
  - eexists; split; [reflexivity|]. simpl. auto.
  - contradiction.
  - subst e. eexists; split; [reflexivity|]. simpl. auto.
Qed.

End Facts.
End BaseAgentFacts.

(** ** The real-estate and business specialists *)

Module SpecialistFacts.
Import JsString Js Reasoning Specialist Invariants TraceFacts.

Section Facts.
Variable pol : policy.
Variable tools : list string.
Variable openai : nat -> request -> response.
Variable toolExecutor : nat -> string -> jsval -> completion jsval.

Local Abbreviation forCalls := (Specialist.forCalls pol tools openai toolExecutor).
Local Abbreviation whileLoop := (Specialist.whileLoop pol tools openai toolExecutor).
Local Abbreviation process := (Specialist.process pol tools openai toolExecutor).
Local Abbreviation afterSuccess := (Specialist.afterSuccess pol tools openai).
Local Abbreviation initialState := (Specialist.initialState tools openai).

Lemma hinv_initial : handlerInv initialState.
Proof.
  constructor; simpl; intros name; try reflexivity.
  - split; [intros H; now apply elem_of_empty in H | unfold successes; simpl; lia].
  - unfold successes. simpl. lia.
Qed.

Lemma hinv_log st e :
  (forall name, executesTool name e = true -> successes name (trace st) = 0) ->
  (forall name, succeeds name e = false) ->
  handlerInv st -> handlerInv (logEvent e st).
Proof.
  intros He Hs [H1 H2 H3]. constructor; simpl; intros name.
  - rewrite successes_cons, Hs. apply H1.
  - rewrite successes_cons, Hs. apply H2.
  - rewrite H3, orb_false_r. destruct (executesTool name e) eqn:E; [|reflexivity].
    rewrite (He name E). reflexivity.
Qed.

Lemma not_called_zero st name :
  handlerInv st -> name ∉ calledTools st -> successes name (trace st) = 0.
Proof.
  intros Hinv Hnot. destruct (successes name (trace st)) eqn:E; [reflexivity|].
  exfalso. apply Hnot, (hinv_called st Hinv). lia.
Qed.

Lemma hinv_success_step st name args toolResult :
  name ∉ calledTools st ->
  handlerInv st -> handlerInv (afterSuccess name args toolResult st).
Proof.
  intros Hnot Hinv.
  pose proof (not_called_zero st name Hinv Hnot) as H0.
  destruct Hinv as [H1 H2 H3].
  constructor; simpl; intros n.
  - rewrite !successes_cons. simpl. rewrite elem_of_union, elem_of_singleton, H1.
    destruct (String.eqb_spec name n) as [->|Hne].
    + split; [intros _; lia | intros _; now left].
    + split; [intros [->|H]; [congruence|lia] | intros H; right; lia].
  - rewrite !successes_cons. simpl.
    destruct (String.eqb_spec name n) as [<-|Hne]; [lia | apply H2].
  - rewrite H3, orb_false_r. destruct (String.eqb_spec name n) as [<-|Hne]; [|reflexivity].
    rewrite H0. reflexivity.
Qed.

(** The state a [for] loop hands back, by the way it is left. *)
Lemma forCalls_spec calls : forall st,
  handlerInv st ->
  existsb threw (trace st) = false ->
  match forCalls calls st with
  | ForBreak st' =>
    handlerInv st' /\
    iterations st' = iterations st /\
    reasonCalls (trace st') = S (reasonCalls (trace st)) /\
    executeCalls (trace st') = S (executeCalls (trace st)) /\
    existsb threw (trace st') = false /\
    lastToolResult st' = lastOutcome (allToolResults st')
  | ForEnd st' | ForThrow st' _ =>
    handlerInv st' /\
    iterations st' = iterations st /\
    reasonCalls (trace st') = reasonCalls (trace st) /\
    executeCalls (trace st') = executeCalls (trace st) /\
    existsb threw (trace st') = false /\
    currentResponse st' = currentResponse st /\
    lastToolResult st' = lastToolResult st /\
    allToolResults st' = allToolResults st
  | ForReturn st' r =>
    handlerInv st' /\
    iterations st' = iterations st /\
    reasonCalls (trace st') = reasonCalls (trace st) /\
    executeCalls (trace st') = S (executeCalls (trace st)) /\
    r = {| content := JStr (toolErrorReply pol) |} /\
    exists name args e older,
      trace st' = EvExecute name args (Throw e) :: older /\
      existsb threw older = false
  end.
Proof.
  induction calls as [|fc rest IH]; intros st Hinv Hno; cbn [Specialist.forCalls].
  { repeat apply conj; auto. }
  case_bool_decide as Hin.
  { specialize (IH (logEvent (EvSkipSuccessful (fc_name fc)) st)).
    assert (Hinv' : handlerInv (logEvent (EvSkipSuccessful (fc_name fc)) st))
      by (apply hinv_log; auto; discriminate).
    specialize (IH Hinv' Hno).
    destruct (forCalls rest _); simpl in *;
      rewrite ?reasonCalls_cons, ?executeCalls_cons in IH; simpl in IH; exact IH. }
  destruct (fc_arguments fc) as [args|].
  2:{ repeat apply conj; auto. }
  destruct (toolExecutor _ (fc_name fc) args) as [toolResult|e].
  - repeat apply conj; simpl; auto.
    + apply hinv_success_step; assumption.
    + unfold lastOutcome. now rewrite last_snoc.
  - repeat apply conj; simpl; auto.
    + apply hinv_log; auto.
      intros n Hn. simpl in Hn. apply String.eqb_eq in Hn. subst n.
      apply not_called_zero; assumption.
    + eauto 10.
Qed.

(** The condition the [while] loop establishes on leaving. *)
Lemma handler_whileLoop_spec : forall fuel st,
  maxIterations - iterations st < fuel ->
  iterations st <= maxIterations ->
  handlerHead st ->
  exists exit,
    whileLoop fuel st = Some exit /\
    handlerInv (exitState exit) /\
    iterations (exitState exit) <= maxIterations /\
    reasonCalls (trace (exitState exit)) <= S (iterations (exitState exit)) /\
    executeCalls (trace (exitState exit)) <= iterations (exitState exit) /\
    match exit with
    | LoopDone st' =>
      existsb threw (trace st') = false /\
      lastToolResult st' = lastOutcome (allToolResults st')
    | LoopThrow st' _ => existsb threw (trace st') = false
    | LoopReturn st' r =>
      r = {| content := JStr (toolErrorReply pol) |} /\
      exists name args e older,
        trace st' = EvExecute name args (Throw e) :: older /\
        existsb threw older = false
    end.
Proof.
  induction fuel as [|fuel IH]; intros st Hfuel Hle (Hinv & Hrc & Hec & Hno & Hlast); [lia|].
  cbn [Specialist.whileLoop].
  destruct (Nat.ltb_spec (iterations st) maxIterations) as [Hlt|Hge].
  2:{ eexists; split; [reflexivity|]. simpl. repeat apply conj; auto. }
  assert (Hinv1 : handlerInv (nextIteration st)) by (destruct Hinv; constructor; assumption).
  destruct (Nat.eqb_spec (length (functionCallsOf (currentResponse (nextIteration st)))) 0).
  { eexists; split; [reflexivity|]. simpl. repeat apply conj; auto; lia. }
  pose proof (forCalls_spec (functionCallsOf (currentResponse (nextIteration st)))
                (nextIteration st) Hinv1 Hno) as Hf.
  destruct (forCalls _ (nextIteration st)) as [st2|st2|st2 r|st2 e]; simpl in Hf.
  - destruct Hf as (Hi & Hit & Hr & He & Hn & Hl).
    apply IH; [lia | lia |]. unfold handlerHead. repeat apply conj; auto; lia.
  - destruct Hf as (Hi & Hit & Hr & He & Hn & Hc & Hl & Ha).
    destruct (breaksWhenIdle pol).
    + eexists; split; [reflexivity|]. simpl. repeat apply conj; auto; try lia.
      rewrite Hl, Ha. exact Hlast.
    + apply IH; [lia | lia |]. unfold handlerHead. repeat apply conj; auto; try lia.
      rewrite Hl, Ha. exact Hlast.
  - destruct Hf as (Hi & Hit & Hr & He & Hrep & Htr).
    eexists; split; [reflexivity|]. simpl. repeat apply conj; auto; lia.
  - destruct Hf as (Hi & Hit & Hr & He & Hn & Hc & Hl & Ha).
    eexists; split; [reflexivity|]. simpl. repeat apply conj; auto; lia.
Qed.

Lemma handler_whileLoop_more_fuel : forall fuel st exit,
  whileLoop fuel st = Some exit -> forall k, whileLoop (fuel + k) st = Some exit.
Proof.
  induction fuel as [|fuel IH]; intros st exit H k; [discriminate|].
  cbn [Specialist.whileLoop Nat.add] in *.
  destruct (iterations st <? maxIterations)%nat; [|exact H].
  destruct (length (functionCallsOf (currentResponse (nextIteration st))) =? 0)%nat; [exact H|].
  destruct (forCalls _ (nextIteration st)); auto.
  destruct (breaksWhenIdle pol); auto.
Qed.

Lemma handlerHead_initial : handlerHead initialState.
Proof.
  unfold handlerHead. repeat apply conj; try reflexivity.
  apply hinv_initial.
Qed.

(** [process] returns for every reasoning collaborator and every tool
    executor, within the iteration bound; it ends in the final text, in
    the apology of the [catch], or in an exception of [JSON.parse] or of
    the final text. *)
Lemma handler_process_run k :
  exists r,
    process (S maxIterations + k) = Some r /\
    handlerInv (run_state r) /\
    iterations (run_state r) <= maxIterations /\
    reasonCalls (trace (run_state r)) <= S (iterations (run_state r)) /\
    executeCalls (trace (run_state r)) <= iterations (run_state r) /\
    ((existsb threw (trace (run_state r)) = false /\
      lastToolResult (run_state r) = lastOutcome (allToolResults (run_state r)) /\
      run_result r =
        match finalText pol (currentResponse (run_state r))
                (lastToolResult (run_state r)) with
        | Normal v => Normal {| content := v |}
        | Throw e => Throw e
        end) \/
     (existsb threw (trace (run_state r)) = false /\
      exists e, run_result r = Throw e) \/
     (run_result r = Normal {| content := JStr (toolErrorReply pol) |} /\
      exists name args e older,
        trace (run_state r) = EvExecute name args (Throw e) :: older /\
        existsb threw older = false)).
Proof.
  destruct (handler_whileLoop_spec (S maxIterations) initialState)
    as (exit & He & Hi & Hb & Hr & Hx & Hexit).
  { unfold maxIterations. cbn. lia. }
  { unfold maxIterations. cbn. lia. }
  { apply handlerHead_initial. }
  unfold Specialist.process. rewrite (handler_whileLoop_more_fuel _ _ _ He k).
  destruct exit as [st|st r|st e]; simpl in *.
  - eexists; split; [reflexivity|]. simpl. repeat apply conj; auto.
    left. destruct Hexit. auto.
  - eexists; split; [reflexivity|]. simpl. repeat apply conj; auto.
    right. right. destruct Hexit as [-> Htr]. auto.
  - eexists; split; [reflexivity|]. simpl. repeat apply conj; auto.
    right. left. split; [exact Hexit|]. eauto.
Qed.

End Facts.
End SpecialistFacts.

(** ** The loops of the three specialists *)

Module AgentLoop.
Import JsString Js Reasoning Invariants TraceFacts Scenarios.


(** The bound is reached: a model that asks for a new tool in every
    answer is cut off after 10 passes, with the ten results gathered, and
    the reply is taken from the newest of them. *)
Example eager_model_hits_the_bound :
  match BaseAgent.process noMatch [] eagerModel okExecutor "cap rates" 11 with
  | Some r =>
    BaseAgent.iterations (run_state r) = 10 /\
    length (BaseAgent.allToolResults (run_state r)) = 10 /\
    reasonCalls (BaseAgent.trace (run_state r)) = 11 /\
    run_result r = Normal {| content := JStr "done" |}
  | None => False
  end.
Proof. vm_compute. auto. Qed.

(** The real-estate copy has no idle break: a model that repeats itself
    keeps the loop turning until the bound, with a single execution. *)
Example repeating_model_real_estate :
  match Specialist.process Specialist.realEstatePolicy [] repeatingModel okExecutor 11 with
  | Some r =>
    Specialist.iterations (run_state r) = 10 /\
    executeCalls (Specialist.trace (run_state r)) = 1 /\
    run_result r = Normal {| content := JStr "done" |}
  | None => False
  end.
Proof. vm_compute. auto. Qed.

(** C5. In a run of any of the three loops no tool name has more than one
    execution that returned, and no tool is executed again once an
    execution of it has returned. *)
Theorem successful_tool_runs_once :
  (forall regexMatch tools openai toolExecutor userMessage k name,
      exists r,
        BaseAgent.process regexMatch tools openai toolExecutor userMessage
          (S maxIterations + k) = Some r /\
        successes name (BaseAgent.trace (run_state r)) <= 1 /\
        executedAfterSuccess name (BaseAgent.trace (run_state r)) = false) /\
  (forall pol tools openai toolExecutor k name,
      exists r,
        Specialist.process pol tools openai toolExecutor (S maxIterations + k) = Some r /\
        successes name (Specialist.trace (run_state r)) <= 1 /\
        executedAfterSuccess name (Specialist.trace (run_state r)) = false).
Proof.
  split.
  - intros regexMatch tools openai toolExecutor userMessage k name.
    destruct (BaseAgentFacts.process_run regexMatch tools openai toolExecutor userMessage k)
      as (r & Hr & (Hinv & _) & _).
    exists r. split; [exact Hr|]. split; [apply (inv_once _ Hinv) | apply (inv_orderly _ Hinv)].
  - intros pol tools openai toolExecutor k name.
    destruct (SpecialistFacts.handler_process_run pol tools openai toolExecutor k)
      as (r & Hr & Hinv & _).
    exists r. split; [exact Hr|]. split; [apply (hinv_once _ Hinv) | apply (hinv_orderly _ Hinv)].
Qed.

(** Asked again for a tool that returned, the generic loop skips it and
    stops. *)
Example repeated_request_is_skipped :
  match BaseAgent.process noMatch [] repeatingModel okExecutor "cap rates" 11 with
  | Some r =>
    executions "web_search_sms" (BaseAgent.trace (run_state r)) = 1 /\
    BaseAgent.iterations (run_state r) = 2 /\
    hd_error (BaseAgent.trace (run_state r)) = Some (EvSkipSuccessful "web_search_sms")
  | None => False
  end.
Proof. vm_compute. auto. Qed.

Lemma executions_le_attempts name trace :
  executions name trace <= attempts name trace.
Proof.
  unfold executions, attempts, successes, failures.
  induction trace as [|e tr IH]; simpl; [lia|].
  destruct e as [req|n|n c|n|n|n a [res|err]]; simpl; try lia;
    destruct (String.eqb n name); simpl; lia.
Qed.

Lemma recorded_no_success toolExecutor name trace :
  (forall n args, exists e, toolExecutor n name args = Throw e) ->
  recorded toolExecutor trace -> successes name trace = 0.
Proof.
  intros Hfail Hrec. unfold successes.
  induction Hrec as [|e tr He _ IH]; simpl; [reflexivity|].
  destruct e as [| | | | |n a [res|err]]; simpl; auto.
  destruct (String.eqb_spec n name) as [->|Hne]; [|exact IH].
  destruct He as [i Hi]. destruct (Hfail i a) as [err Herr]. congruence.
Qed.

(** C6. In a run of the generic loop every tool name has at most 2
    failures (unparseable arguments, empty arguments without fallback, an
    execution that raised), the count kept in [failedAttempts] is that
    number, and a name is not attempted again after its second failure. A
    tool whose executions always raise is therefore attempted, and
    executed, at most 2 times. *)
Theorem failure_ceiling regexMatch tools openai toolExecutor userMessage k name :
  exists r,
    BaseAgent.process regexMatch tools openai toolExecutor userMessage
      (S maxIterations + k) = Some r /\
    failures name (BaseAgent.trace (run_state r)) <= 2 /\
    default 0 (BaseAgent.failedAttempts (run_state r) !! name) =
      failures name (BaseAgent.trace (run_state r)) /\
    attemptedAfterCeiling name (BaseAgent.trace (run_state r)) = false /\
    ((forall n args, exists e, toolExecutor n name args = Throw e) ->
     attempts name (BaseAgent.trace (run_state r)) <= 2 /\
     executions name (BaseAgent.trace (run_state r)) <= 2).
Proof.
  destruct (BaseAgentFacts.process_run regexMatch tools openai toolExecutor userMessage k)
    as (r & Hr & (Hinv & _) & _).
  exists r. split; [exact Hr|].
  pose proof (inv_ceiling _ Hinv name) as Hc.
  repeat apply conj.
  - exact Hc.
  - apply (inv_failed _ Hinv).
  - apply (inv_guarded _ Hinv).
  - intros Hfail.
    pose proof (recorded_no_success toolExecutor name _ Hfail
                  (BaseAgentFacts.process_recorded _ _ _ _ _ _ _ Hr)) as H0.
    assert (Ha : attempts name (BaseAgent.trace (run_state r)) <= 2)
      by (unfold attempts; lia).
    split; [exact Ha|]. pose proof (executions_le_attempts name (BaseAgent.trace (run_state r))). lia.
Qed.

(** The ceiling at work: asked three times in one answer for a tool that
    raises, the loop executes it twice and skips the third request. *)
Lemma failure_ceiling_witness :
  exists r,
    BaseAgent.process noMatch [] insistingModel flakyExecutor "cap rates" 11 = Some r /\
    executions "flaky" (BaseAgent.trace (run_state r)) = 2 /\
    attempts "flaky" (BaseAgent.trace (run_state r)) <= 2 /\
    In (EvSkipFailed "flaky" 2) (BaseAgent.trace (run_state r)).
Proof.
  destruct (failure_ceiling noMatch [] insistingModel flakyExecutor "cap rates" 0 "flaky")
    as (r & Hr & _ & _ & _ & H).
  exists r. split; [exact Hr|].
  destruct H as [Ha _].
  { intros n args. exists "Error". reflexivity. }
  split; [|split; [exact Ha|]].
  - vm_compute in Hr. injection Hr as <-. vm_compute. reflexivity.
  - vm_compute in Hr. injection Hr as <-. vm_compute. auto 10.
Defined.

(** Empty arguments for which the fallback extraction finds nothing and
    arguments that do not parse count like an execution that raised: the
    third request for the tool is skipped although its arguments are
    fine, and the executor is never called. *)
Example malformed_invocations_count :
  match BaseAgent.process noMatch [] emptyArgsModel okExecutor "hi" 11 with
  | Some r =>
    BaseAgent.trace (run_state r) =
      [EvSkipFailed "lookup_sms" 2; EvParseFailed "lookup_sms";
       EvFallbackFailed "lookup_sms"; EvReason (BaseAgent.initialRequest [])] /\
    executions "lookup_sms" (BaseAgent.trace (run_state r)) = 0 /\
    run_result r = Normal {| content := JStr BaseAgent.apology |}
  | None => False
  end.
Proof. vm_compute. auto. Qed.


(** The two policies side by side, on a first answer that asks for a tool
    that raises and then for one that works: the generic loop goes on to
    the second tool and answers from the model's text; the business loop
    stops at the exception. *)
Example exception_generic_continues :
  match BaseAgent.process noMatch [] insistingModel flakyExecutor "cap rates" 11 with
  | Some r =>
    executions "web_search_sms" (BaseAgent.trace (run_state r)) = 1 /\
    BaseAgent.failedAttempts (run_state r) !! "flaky" = Some 2 /\
    run_result r = Normal {| content := JStr "Cap rates in Dallas average 6%." |}
  | None => False
  end.
Proof. vm_compute. auto. Qed.

Example exception_business_stops :
  match Specialist.process Specialist.businessPolicy [] insistingModel flakyExecutor 11 with
  | Some r =>
    executeCalls (Specialist.trace (run_state r)) = 1 /\
    reasonCalls (Specialist.trace (run_state r)) = 1 /\
    run_result r = Normal {| content := JStr Specialist.businessToolError |}
  | None => False
  end.
Proof. vm_compute. auto. Qed.

End AgentLoop.

(** ** The final text *)

Module Finalization.
Import JsString Js Reasoning Scenarios.

Lemma substring_all s : forall n, String.length s <= n -> String.substring 0 n s = s.
Proof.
  induction s as [|c s IH]; intros n H; destruct n; simpl in *; try reflexivity; try lia.
  rewrite IH by lia. reflexivity.
Qed.

Lemma truthy_JStr s : truthy (JStr s) = true -> s <> "".
Proof. simpl. destruct (String.eqb_spec s ""); [discriminate | auto]. Qed.

Lemma not_truthy_empty v : truthy v = true -> v <> JStr "".
Proof. intros H ->. discriminate. Qed.

Lemma length_lt_500 s :
  ltNum (get (JStr s) "length") 500 = (String.length s <? 500)%nat.
Proof.
  unfold ltNum. simpl.
  destruct (Nat.ltb_spec (String.length s) 500); [apply Z.ltb_lt | apply Z.ltb_ge]; lia.
Qed.

Lemma base_text (r : response) (v : jsval) :
  extractText r <> "" -> BaseAgent.finalize r v = JStr (extractText r).
Proof.
  intros H. unfold BaseAgent.finalize. apply String.eqb_neq in H. rewrite H. simpl.
  now rewrite H.
Qed.

Lemma base_no_result (r : response) (v : jsval) :
  extractText r = "" -> truthy v = false ->
  BaseAgent.finalize r v = JStr BaseAgent.apology.
Proof. intros H Hv. unfold BaseAgent.finalize. rewrite H, Hv. reflexivity. Qed.

Lemma base_string (r : response) (v : jsval) s :
  v = JStr s -> extractText r = "" -> truthy v = true ->
  BaseAgent.finalize r v =
    (if (String.length s <? 500)%nat then JStr s else JStr BaseAgent.beMoreSpecific).
Proof.
  intros -> H Hv. unfold BaseAgent.finalize. rewrite H, Hv. cbn [String.eqb andb].
  rewrite length_lt_500.
  destruct (Nat.ltb_spec (String.length s) 500) as [Hlt|Hge]; [|reflexivity].
  rewrite substring_all by lia. now rewrite Hv.
Qed.

Lemma base_object (r : response) (v : jsval) :
  isString v = false -> extractText r = "" -> truthy v = true ->
  BaseAgent.finalize r v =
    (if truthy (get v "message") && ltNum (get (get v "message") "length") 500
     then get v "message" else JStr BaseAgent.beMoreSpecific).
Proof.
  intros Hs H Hv. unfold BaseAgent.finalize. rewrite H, Hv. cbn [String.eqb andb].
  assert (Hpick : forall m : jsval,
             truthy (if truthy m && ltNum (get m "length") 500 then m
                     else JStr BaseAgent.beMoreSpecific) = true).
  { intros m. destruct (truthy m) eqn:Hm; [|reflexivity].
    destruct (ltNum (get m "length") 500); [exact Hm | reflexivity]. }
  destruct v; try discriminate; now rewrite Hpick.
Qed.

Lemma base_nonempty (r : response) (v : jsval) : BaseAgent.finalize r v <> JStr "".
Proof.
  destruct (String.eqb_spec (extractText r) "") as [He|Hne].
  2:{ rewrite base_text by exact Hne. congruence. }
  destruct (truthy v) eqn:Hv.
  2:{ rewrite base_no_result by assumption. discriminate. }
  destruct (isString v) eqn:Hs.
  - destruct v; try discriminate. rewrite (base_string r (JStr s) s) by auto.
    destruct (String.length s <? 500)%nat; [|discriminate].
    now apply not_truthy_empty.
  - rewrite base_object by assumption.
    destruct (truthy (get v "message")) eqn:Hm; [|discriminate].
    destruct (ltNum _ 500); [|discriminate]. now apply not_truthy_empty.
Qed.

Lemma realEstate_text (r : response) (v : jsval) :
  extractText r <> "" -> Specialist.realEstateFinalize r v = JStr (extractText r).
Proof.
  intros H. unfold Specialist.realEstateFinalize. apply String.eqb_neq in H. rewrite H.
  simpl. now rewrite H.
Qed.

Lemma realEstate_no_result (r : response) (v : jsval) :
  extractText r = "" -> truthy v = false ->
  Specialist.realEstateFinalize r v = JStr Specialist.realEstateApology.
Proof. intros H Hv. unfold Specialist.realEstateFinalize. rewrite H, Hv. reflexivity. Qed.

Lemma realEstate_string (r : response) (v : jsval) s :
  v = JStr s -> extractText r = "" -> truthy v = true ->
  Specialist.realEstateFinalize r v = JStr s.
Proof.
  intros -> H Hv. unfold Specialist.realEstateFinalize. rewrite H, Hv.
  cbn [String.eqb andb]. now rewrite Hv.
Qed.

Lemma realEstate_message (r : response) (v : jsval) :
  isString v = false -> extractText r = "" -> truthy v = true ->
  truthy (get v "message") = true ->
  Specialist.realEstateFinalize r v = get v "message".
Proof.
  intros Hs H Hv Hm. unfold Specialist.realEstateFinalize. rewrite H, Hv.
  cbn [String.eqb andb]. destruct v; try discriminate; now rewrite Hm, Hm.
Qed.

(** Without text and without a message the real-estate specialist appends
    the serialized tool result to a fixed sentence. *)
Lemma realEstate_details (r : response) (v : jsval) :
  isString v = false -> extractText r = "" -> truthy v = true ->
  truthy (get v "message") = false ->
  Specialist.realEstateFinalize r v =
    JStr (Specialist.realEstateDetails +:+ stringify v).
Proof.
  intros Hs H Hv Hm. unfold Specialist.realEstateFinalize. rewrite H, Hv.
  cbn [String.eqb andb]. destruct v; try discriminate; now rewrite Hm.
Qed.

Lemma realEstate_nonempty (r : response) (v : jsval) : Specialist.realEstateFinalize r v <> JStr "".
Proof.
  destruct (String.eqb_spec (extractText r) "") as [He|Hne].
  2:{ rewrite realEstate_text by exact Hne. congruence. }
  destruct (truthy v) eqn:Hv.
  2:{ rewrite realEstate_no_result by assumption. discriminate. }
  destruct (isString v) eqn:Hs.
  - destruct v; try discriminate. rewrite (realEstate_string r (JStr s) s) by auto.
    now apply not_truthy_empty.
  - destruct (truthy (get v "message")) eqn:Hm.
    + rewrite realEstate_message by assumption. now apply not_truthy_empty.
    + rewrite realEstate_details by assumption. discriminate.
Qed.




End Finalization.

(** ** Routing *)

Module RoutingFacts.
Import JsString Js Reasoning Routing.

Lemma scanOutput_total items :
  (exists t, scanOutput items = Normal t) \/ scanOutput items = Throw "TypeError".
Proof.
  assert (Hc : forall parts,
             (exists o, scanContent parts = Normal o) \/ scanContent parts = Throw "TypeError").
  { induction parts as [|[p|] parts IH]; simpl; eauto.
    destruct (_ && _); eauto. }
  induction items as [|item items IH]; simpl; eauto.
  destruct item as [name args|role [content|]|type]; auto.
  destruct (String.eqb role "assistant"); auto.
  destruct (Hc content) as [[[t|] ->]| ->]; auto.
  destruct (String.eqb t ""); eauto.
Qed.

(** The router never hands on an empty decision. *)
Lemma routerContent_nonempty r t : routerContent r = Normal t -> t <> "".
Proof.
  unfold routerContent. intros H.
  destruct (if String.eqb (strim (default "" (output_text r))) "" then _ else _) as [x|e];
    [|discriminate].
  injection H as <-. destruct (String.eqb_spec x ""); [discriminate | assumption].
Qed.

(** C7, as the code has it. The router's text is trimmed and then looked
    up as it is, with the case it has, among nine spellings: three for the
    business specialist, three for the real-estate specialist, three for
    the general one. Every other text, the empty one included, selects the
    general specialist; the selection is a total function and never yields
    the router. A router response without text becomes GENERAL_AGENT. *)
Theorem routing_table (content : string) :
  selectedAgent content =
    (if BaseAgent.isMember (strim content) businessSpellings then BusinessA
     else if BaseAgent.isMember (strim content) realEstateSpellings then RealEstateA
     else GeneralA) /\
  selectedAgent "" = GeneralA /\
  routerContent {| output_text := Some ""; output := None |} = Normal "GENERAL_AGENT" /\
  routerContent {| output_text := None; output := Some [] |} = Normal "GENERAL_AGENT".
Proof.
  split; [|repeat split].
  unfold selectedAgent, agentKey, specialistOf, agentMap, businessSpellings,
    realEstateSpellings, BaseAgent.isMember.
  generalize (strim content). intros s. cbn [lookup existsb].
  repeat match goal with
         | |- context [String.eqb ?k s] =>
           destruct (String.eqb_spec k s) as [<-|?]; [reflexivity|]
         end.
  repeat match goal with
         | H : ?k <> s |- context [String.eqb s ?k] =>
           rewrite (proj2 (String.eqb_neq s k)) by congruence
         end.
  reflexivity.
Qed.

(** C7 fails as stated: the text is not case-normalized. A decision in
    mixed case goes to the general specialist, although its upper-case
    spelling is the business specialist's. *)
Lemma routing_is_case_sensitive :
  ~ (forall content, selectedAgent content = selectedAgent (toUpperCase content)) /\
  selectedAgent "Business_Agent" = GeneralA /\
  selectedAgent (toUpperCase "Business_Agent") = BusinessA.
Proof.
  split; [|split; reflexivity].
  intros H. specialize (H "Business_Agent"). vm_compute in H. discriminate H.
Qed.

Example routing_trims : selectedAgent "  REAL_ESTATE_AGENT  " = RealEstateA.
Proof. reflexivity. Qed.

End RoutingFacts.

(** ** The multi-provider property search *)

Module SearchFacts.
Import JsString Js SmartPropertySearch Scenarios.

Section Chain.
Variable optimizeAttomPropertyParams : jsval -> string -> string -> jsval.
Variable callAttomAPI : string -> jsval -> completion jsval.
Variable getPropertyDetails : string -> completion jsval.
Variable searchWeb : string -> completion jsval.
Variable responseTime : string.
Variable query : string.
Variables address city state zipCode : option string.

Local Abbreviation search :=
  (executeSmartPropertySearch optimizeAttomPropertyParams callAttomAPI
     getPropertyDetails searchWeb responseTime query address city state zipCode).
Local Abbreviation attomParams :=
  (generateAttomParameters optimizeAttomPropertyParams query address city state zipCode).
Local Abbreviation missedA :=
  (attomMissed optimizeAttomPropertyParams callAttomAPI query address city state zipCode).
Local Abbreviation missedB := (rentcastMissed getPropertyDetails address city state zipCode).
Local Abbreviation missedC := (webMissed searchWeb query address city state zipCode).
Local Abbreviation callA := (CallAttom "/property/snapshot" attomParams).
Local Abbreviation callB := (CallRentCast (constructFullAddress address city state zipCode)).
Local Abbreviation callC :=
  (CallTavily (constructWebSearchQuery query address city state zipCode)).

(** The chain as a decision table. *)
Lemma search_cases :
  (missedA = false /\ snd search = [callA] /\
   get (fst search) "success" = JBool true) \/
  (missedA = true /\ isResidentialQuery query = true /\ missedB = false /\
   snd search = [callA; callB] /\ get (fst search) "success" = JBool true) \/
  (missedA = true /\ isResidentialQuery query = true /\ missedB = true /\
   snd search = [callA; callB; callC] /\
   ((missedC = false /\ get (fst search) "success" = JBool true) \/
    (missedC = true /\ fst search = allFailed responseTime))) \/
  (missedA = true /\ isResidentialQuery query = false /\
   snd search = [callA; callC] /\
   ((missedC = false /\ get (fst search) "success" = JBool true) \/
    (missedC = true /\ fst search = allFailed responseTime))).
Proof.
  unfold executeSmartPropertySearch, attomMissed, rentcastFallback, rentcastMissed,
    webFallback, webMissed.
  destruct (callAttomAPI _ _) as [a|ea]; [destruct (attomHit a) eqn:Ha|];
    cbn [negb fst snd]; [left; auto| |];
    (destruct (isResidentialQuery query);
     [ destruct (getPropertyDetails _) as [b|eb]; [destruct (rentcastHit b) eqn:Hb|];
       cbn [negb fst snd app]; [right; left; auto| |];
       right; right; left
     | right; right; right ];
     (destruct (searchWeb _) as [c|ec]; [destruct (webHit c) as [[|]|ew]|];
      cbn [fst snd app]; repeat apply conj; auto)).
Qed.


End Chain.

(** ATTOM answers with an error, RentCast and the web search time out, the
    query is a residential one: all three are asked in order and the
    caller gets the apology. *)
Example all_providers_down :
  executeSmartPropertySearch keepParams attomDown providerDown providerDown "0.42"
    "rent for 123 Main St" (Some "123 Main St") (Some "Chicago") (Some "IL") None
  = (allFailed "0.42",
     [CallAttom "/property/snapshot"
        (JObj [("address", JStr "123 Main St"); ("city", JStr "Chicago");
               ("state", JStr "IL")]);
      CallRentCast "123 Main St, Chicago, IL";
      CallTavily "rent for 123 Main St 123 Main St Chicago IL property real estate"]).
Proof. vm_compute. reflexivity. Qed.

(** The residential test is a substring test on the lower-cased query. *)
Example residential_vocabulary :
  isResidentialQuery "Monthly RENT for 123 Main St" = true /\
  isResidentialQuery "office tower 600 W Chicago Ave" = false /\
  isResidentialQuery "current office listings" = true.
Proof. vm_compute. auto. Qed.

(** A commercial query skips RentCast. *)
Example commercial_query_skips_rentcast :
  snd (executeSmartPropertySearch keepParams attomDown providerDown providerDown "0.42"
         "office tower 600 W Chicago Ave" (Some "600 W Chicago Ave") None None None)
  = [CallAttom "/property/snapshot" (JObj [("address", JStr "600 W Chicago Ave")]);
     CallTavily "office tower 600 W Chicago Ave 600 W Chicago Ave property real estate"].
Proof. vm_compute. reflexivity. Qed.

End SearchFacts.

(** ** The idempotency guard of the webhook *)

Module WebhookFacts.
Import JsString Js SmsRoutes Scenarios.

Lemma append_cancel_l p a b : p +:+ a = p +:+ b -> a = b.
Proof. induction p as [|c p IH]; simpl; intros H; [exact H|]. injection H as H. auto. Qed.

Lemma ofZ_inj a b : ofZ a = ofZ b -> a = b.
Proof.
  unfold ofZ. intros H. apply DecimalZ.to_int_inj.
  pose proof (NilEmpty.isi (Z.to_int a)) as Ha. rewrite H, NilEmpty.isi in Ha.
  congruence.
Qed.

(** Keys of deliveries without a message identifier differ when the
    clock readings differ. *)
Lemma idempotencyKey_clock from body sid t1 t2 :
  isTruthy sid = false -> t1 <> t2 ->
  idempotencyKey from body sid t1 <> idempotencyKey from body sid t2.
Proof.
  intros Hs Hne H. unfold idempotencyKey in H. rewrite Hs in H.
  do 5 apply append_cancel_l in H. apply ofZ_inj in H. contradiction.
Qed.

(** With a message identifier the key does not depend on the clock. *)
Lemma idempotencyKey_sid from body sid t1 t2 :
  isTruthy sid = true ->
  idempotencyKey from body sid t1 = idempotencyKey from body sid t2.
Proof. intros Hs. unfold idempotencyKey. now rewrite Hs. Qed.

Lemma key_not_optOut from body sid now fromNumber :
  idempotencyKey from body sid now <> optOutKey fromNumber.
Proof. unfold idempotencyKey, optOutKey. simpl. discriminate. Qed.

Lemma get_lookup now key data k :
  k <> key -> snd (Cache.get now key data) !! k = data !! k.
Proof.
  intros Hne. unfold Cache.get. destruct (data !! key) as [e|]; [|reflexivity].
  destruct (_ && _); [|reflexivity]. simpl. now rewrite lookup_delete_ne.
Qed.

Lemma get_size now key data : size (snd (Cache.get now key data)) <= size data.
Proof.
  unfold Cache.get. destruct (data !! key) as [e|] eqn:E; [|reflexivity].
  destruct (_ && _); [|reflexivity]. simpl.
  erewrite map_size_delete_Some; [lia | eauto].
Qed.

(** The keyword and opt-out stage only touches the opt-out entry. *)
Lemma dispatch_frame now fromNumber toNumber body c k :
  k <> optOutKey fromNumber ->
  cache (dispatch now fromNumber toNumber body c) !! k = c !! k.
Proof.
  intros Hne. unfold dispatch.
  destruct (_ || _).
  { unfold Cache.set. destruct (_ <=? _)%Z; simpl; [reflexivity|].
    now rewrite lookup_insert_ne. }
  destruct (_ || _).
  { simpl. unfold Cache.del. now rewrite lookup_delete_ne. }
  destruct (String.eqb _ "help"); [reflexivity|].
  pose proof (get_lookup now (optOutKey fromNumber) c k Hne) as Hg.
  destruct (Cache.get now (optOutKey fromNumber) c) as [optedOut c'].
  simpl in Hg. destruct (truthy optedOut); exact Hg.
Qed.

Lemma dispatch_effects now fromNumber toNumber body c :
  effects (dispatch now fromNumber toNumber body c) = [] \/
  effects (dispatch now fromNumber toNumber body c) = [ProcessMessage fromNumber toNumber body].
Proof.
  unfold dispatch.
  destruct (_ || _); [destruct (Cache.set _ _ _ _ _); auto|].
  destruct (_ || _); [auto|].
  destruct (String.eqb _ "help"); [auto|].
  destruct (Cache.get now (optOutKey fromNumber) c) as [optedOut c'].
  destruct (truthy optedOut); auto.
Qed.

(** A delivery hands over at most one message. *)
Lemma smsWebhook_effects production now req c :
  length (effects (smsWebhook production now req c)) <= 1.
Proof.
  unfold smsWebhook.
  destruct (_ && _); [simpl; lia|].
  destruct (_ || _); [simpl; lia|].
  destruct (Cache.get _ _ _) as [seen c1].
  destruct (truthy seen); [simpl; lia|].
  destruct (Cache.set _ _ _ _ _) as [c2|e]; [|simpl; lia].
  destruct (dispatch_effects now (withPlus (From req)) (withPlus (To req))
              (default "" (Body req)) c2) as [-> | ->]; simpl; lia.
Qed.

(** A delivery whose key is stored and not yet expired is acknowledged and
    nothing else happens. *)
Lemma smsWebhook_seen production now req c e :
  (production && negb (signatureValid req)) = false ->
  (negb (isTruthy (From req)) || negb (isTruthy (Body req))) = false ->
  c !! idempotencyKey (default "" (From req)) (default "" (Body req)) (MessageSid req) now
    = Some e ->
  (now <= Cache.expires e)%Z ->
  truthy (Cache.value e) = true ->
  smsWebhook production now req c = respond c EmptyTwiml.
Proof.
  intros Hsig Hfields Hkey Hlive Hval. unfold smsWebhook.
  rewrite Hsig, Hfields. unfold Cache.get. rewrite Hkey.
  replace (Cache.expires e <? now)%Z with false by (symmetry; apply Z.ltb_ge; lia).
  rewrite andb_false_r, Hval. reflexivity.
Qed.

(** A delivery that was reacted to, by handing the message over or by a
    keyword reply, has stored its key for 600 seconds. *)
Lemma smsWebhook_claimed production now req c :
  effects (smsWebhook production now req c) <> [] \/
  (exists text, reply (smsWebhook production now req c) = TwimlMessage text) ->
  (production && negb (signatureValid req)) = false /\
  (negb (isTruthy (From req)) || negb (isTruthy (Body req))) = false /\
  cache (smsWebhook production now req c)
    !! idempotencyKey (default "" (From req)) (default "" (Body req)) (MessageSid req) now
    = Some {| Cache.expires := (now + 600 * 1000)%Z; Cache.value := JBool true |}.
Proof.
  assert (Hno : forall c' r,
             effects (respond c' r) <> [] \/ (exists text, reply (respond c' r) = TwimlMessage text) ->
             (forall text, r <> TwimlMessage text) -> False).
  { intros c' r [H|[text H]] Hr; simpl in H; [congruence | eapply Hr; eassumption]. }
  unfold smsWebhook.
  destruct (production && negb (signatureValid req));
    [intros H; exfalso; eapply Hno; [exact H | discriminate]|].
  destruct (negb (isTruthy (From req)) || negb (isTruthy (Body req)));
    [intros H; exfalso; eapply Hno; [exact H | discriminate]|].
  destruct (Cache.get now _ c) as [seen c1].
  destruct (truthy seen); [intros H; exfalso; eapply Hno; [exact H | discriminate]|].
  unfold Cache.set.
  destruct (Cache.maxKeys <=? Z.of_nat (size c1))%Z;
    [intros H; exfalso; eapply Hno; [exact H | discriminate]|].
  intros _. repeat split.
  rewrite dispatch_frame by apply key_not_optOut. apply lookup_insert_eq.
Qed.

(** C4. Two deliveries with the same message identifier, the second no
    later than 600 seconds after the first: together they hand at most one
    message to the processing pipeline; and when the first one was reacted
    to (the message handed over, or a keyword answered), the second is
    answered with the empty acknowledgement, hands over nothing and leaves
    the cache as it is, so that a message handed over is handed over
    exactly once. *)
Theorem duplicate_delivery_is_ignored production t1 t2 req c0 :
  isTruthy (MessageSid req) = true ->
  (t1 <= t2)%Z -> (t2 <= t1 + 600 * 1000)%Z ->
  length (effects (smsWebhook production t1 req c0)) +
  length (effects (smsWebhook production t2 req
                     (cache (smsWebhook production t1 req c0)))) <= 1 /\
  (effects (smsWebhook production t1 req c0) <> [] \/
   (exists text, reply (smsWebhook production t1 req c0) = TwimlMessage text) ->
   smsWebhook production t2 req (cache (smsWebhook production t1 req c0)) =
     respond (cache (smsWebhook production t1 req c0)) EmptyTwiml) /\
  (effects (smsWebhook production t1 req c0) <> [] ->
   length (effects (smsWebhook production t1 req c0) ++
           effects (smsWebhook production t2 req
                      (cache (smsWebhook production t1 req c0)))) = 1).
Proof.
  intros Hsid H12 Httl.
  pose proof (smsWebhook_effects production t1 req c0) as Hone.
  assert (Hclaimed :
            effects (smsWebhook production t1 req c0) <> [] \/
            (exists text, reply (smsWebhook production t1 req c0) = TwimlMessage text) ->
            smsWebhook production t2 req (cache (smsWebhook production t1 req c0)) =
              respond (cache (smsWebhook production t1 req c0)) EmptyTwiml).
  { intros Hne.
    destruct (smsWebhook_claimed production t1 req c0 Hne) as (Hsig & Hfields & Hkey).
    eapply smsWebhook_seen; try eassumption.
    - rewrite (idempotencyKey_sid _ _ _ t2 t1) by exact Hsid. exact Hkey.
    - simpl. lia.
    - reflexivity. }
  split; [|split].
  - destruct (effects (smsWebhook production t1 req c0)) as [|x l] eqn:E.
    + simpl. apply smsWebhook_effects.
    + rewrite Hclaimed by (left; discriminate). simpl in *. lia.
  - exact Hclaimed.
  - intros Hne. rewrite (Hclaimed (or_introl Hne)). simpl. rewrite app_nil_r.
    destruct (effects (smsWebhook production t1 req c0)) as [|x [|y l]];
      [congruence | reflexivity | simpl in Hone; lia].
Qed.

(** A first delivery on an empty cache and its redelivery five seconds
    later. *)
Lemma duplicate_delivery_is_ignored_witness :
  effects (smsWebhook true 1700000000000 delivery ∅) =
    [ProcessMessage "+13125550100" "+13125550199" "cap rates in Dallas"] /\
  smsWebhook true 1700000005000 delivery
    (cache (smsWebhook true 1700000000000 delivery ∅)) =
    respond (cache (smsWebhook true 1700000000000 delivery ∅)) EmptyTwiml.
Proof.
  split; [vm_compute; reflexivity|].
  apply (duplicate_delivery_is_ignored true 1700000000000 1700000005000 delivery ∅).
  - reflexivity.
  - lia.
  - lia.
  - left. vm_compute. discriminate.
Defined.

Lemma insert_size (k : string) (e : Cache.entry) (m : gmap string Cache.entry) :
  size (<[k := e]> m) <= S (size m).
Proof.
  destruct (m !! k) as [x|] eqn:E.
  - erewrite map_size_insert_Some by eauto. lia.
  - rewrite map_size_insert_None by exact E. lia.
Qed.

(** An opt-out entry that read as absent stays absent. *)
Lemma get_falsy_stable t1 t2 k (c c' : gmap string Cache.entry) :
  truthy (fst (Cache.get t1 k c)) = false ->
  c' !! k = snd (Cache.get t1 k c) !! k ->
  truthy (fst (Cache.get t2 k c')) = false.
Proof.
  unfold Cache.get. intros Hf Hk.
  destruct (c !! k) as [e|] eqn:E.
  - destruct (negb (Cache.expires e =? 0)%Z && (Cache.expires e <? t1)%Z); simpl in Hf, Hk.
    + rewrite lookup_delete_eq in Hk. now rewrite Hk.
    + rewrite E in Hk. rewrite Hk. destruct (_ && _); [reflexivity | exact Hf].
  - simpl in Hk. rewrite E in Hk. now rewrite Hk.
Qed.

(** What it takes for the keyword and opt-out stage to hand the message
    over; the tests on the body do not depend on the cache or the clock. *)
Lemma dispatch_processed now fromNumber toNumber body c :
  effects (dispatch now fromNumber toNumber body c) <> [] ->
  truthy (fst (Cache.get now (optOutKey fromNumber) c)) = false /\
  cache (dispatch now fromNumber toNumber body c) =
    snd (Cache.get now (optOutKey fromNumber) c) /\
  forall now' c',
    truthy (fst (Cache.get now' (optOutKey fromNumber) c')) = false ->
    dispatch now' fromNumber toNumber body c' =
      {| cache := snd (Cache.get now' (optOutKey fromNumber) c');
         reply := EmptyTwiml;
         effects := [ProcessMessage fromNumber toNumber body] |}.
Proof.
  unfold dispatch.
  destruct (_ || _); [destruct (Cache.set _ _ _ _ _); simpl; congruence|].
  destruct (_ || _); [simpl; congruence|].
  destruct (String.eqb _ "help"); [simpl; congruence|].
  destruct (Cache.get now (optOutKey fromNumber) c) as [optedOut c1] eqn:E.
  destruct (truthy optedOut) eqn:Ht; [simpl; congruence|].
  intros _. repeat split; auto.
  intros now' c' Hf.
  destruct (Cache.get now' (optOutKey fromNumber) c') as [optedOut' c1'].
  simpl in Hf. now rewrite Hf.
Qed.



End WebhookFacts.

(** ** The chunker at other limits, and the shape of the chunks *)

Module ChunkerFacts.
Import JsString Sms SmsFacts.

Lemma trimStart_head s :
  trimStart s = [] \/ exists c r, trimStart s = c :: r /\ isWhiteSpace c = false.
Proof.
  induction s as [|c r IH]; simpl; [now left|].
  destruct (isWhiteSpace c) eqn:E; [exact IH|]. right. now exists c, r.
Qed.

Lemma trimStart_snoc l c :
  isWhiteSpace c = false -> trimStart (l ++ [c]) = trimStart l ++ [c].
Proof.
  intros Hc. induction l as [|x l IH]; simpl; [now rewrite Hc|].
  destruct (isWhiteSpace x); [exact IH | reflexivity].
Qed.

Lemma trimEnd_cons c r :
  isWhiteSpace c = false -> trimEnd (c :: r) = c :: trimEnd r.
Proof.
  intros Hc. unfold trimEnd. simpl. rewrite trimStart_snoc by exact Hc.
  rewrite rev_app_distr. reflexivity.
Qed.

Lemma trimStart_idempotent s : trimStart (trimStart s) = trimStart s.
Proof.
  destruct (trimStart_head s) as [->|(c & r & -> & Hc)]; simpl; [reflexivity|].
  now rewrite Hc.
Qed.

Lemma trimEnd_idempotent s : trimEnd (trimEnd s) = trimEnd s.
Proof. unfold trimEnd. now rewrite rev_involutive, trimStart_idempotent. Qed.

(** What [trim] returns is empty or starts with a character that is not
    white space. *)
Lemma trim_head s :
  trim s = [] \/ exists c r, trim s = c :: r /\ isWhiteSpace c = false.
Proof.
  unfold trim. destruct (trimStart_head s) as [->|(c & r & -> & Hc)]; [now left|].
  right. exists c, (trimEnd r). split; [now apply trimEnd_cons | exact Hc].
Qed.

Lemma trim_idempotent s : trim (trim s) = trim s.
Proof.
  unfold trim at 2 3. destruct (trimStart_head s) as [->|(c & r & -> & Hc)]; [reflexivity|].
  rewrite trimEnd_cons by exact Hc. unfold trim. simpl. rewrite Hc.
  now rewrite trimEnd_cons, trimEnd_idempotent.
Qed.

Lemma trim_blank s : removeWhiteSpace s = [] -> trim s = [].
Proof.
  intros H. unfold trim.
  assert (Hs : trimStart s = []).
  { induction s as [|c r IH]; simpl in *; [reflexivity|].
    unfold removeWhiteSpace in *. simpl in H.
    destruct (isWhiteSpace c); simpl in H; [now apply IH | discriminate]. }
  now rewrite Hs.
Qed.

Lemma splitPoint_zero c r : splitPoint 0 (c :: r) = 0%nat.
Proof. reflexivity. Qed.

Lemma chunkLoop_zero fuel : forall remaining,
  trim remaining <> [] -> chunkLoop fuel 0 remaining = None.
Proof.
  induction fuel as [|fuel IH]; intros remaining Hne.
  - destruct remaining; [now contradiction Hne | reflexivity].
  - destruct remaining as [|c r]; [now contradiction Hne|].
    cbn [chunkLoop]. rewrite splitPoint_zero, drop_0, IH; [reflexivity|].
    now rewrite trim_idempotent.
Qed.

(** The chunks of the loop are trimmed, and when the loop starts on a
    trimmed text none of them is empty. *)
Lemma chunkLoop_trimmed maxLength fuel : forall remaining chunks,
  chunkLoop fuel maxLength remaining = Some chunks ->
  Forall (fun b => trim b = b) chunks.
Proof.
  induction fuel as [|fuel IH]; intros remaining chunks H.
  - destruct remaining; [|discriminate]. injection H as <-. constructor.
  - destruct remaining as [|c r]; [injection H as <-; constructor|].
    cbn [chunkLoop] in H.
    destruct (chunkLoop fuel maxLength _) as [rest|] eqn:E; [|discriminate].
    injection H as <-. constructor; [apply trim_idempotent | eapply IH, E].
Qed.

Lemma chunkLoop_nonempty maxLength fuel :
  (1 <= maxLength)%nat ->
  forall remaining chunks,
    trim remaining = remaining ->
    chunkLoop fuel maxLength remaining = Some chunks ->
    Forall (fun b => b <> []) chunks.
Proof.
  intros Hm. induction fuel as [|fuel IH]; intros remaining chunks Ht H.
  - destruct remaining; [|discriminate]. injection H as <-. constructor.
  - destruct remaining as [|c r] eqn:Er; [injection H as <-; constructor|].
    rewrite <- Er in *. assert (Hne : remaining <> []) by (rewrite Er; discriminate).
    rewrite Er in H at 1. cbn [chunkLoop] in H. rewrite <- Er in H.
    destruct (chunkLoop fuel maxLength _) as [rest|] eqn:E; [|discriminate].
    injection H as <-.
    destruct (splitPoint_bounds maxLength remaining Hm Hne) as (H1 & _ & _).
    constructor; [|eapply IH; [|exact E]; apply trim_idempotent].
    destruct (trim_head remaining) as [H0|(x & y & Hx & Hws)];
      rewrite Ht in *; [contradiction|].
    rewrite Hx. destruct (splitPoint maxLength (x :: y)) as [|n] eqn:Es.
    { rewrite <- Hx in Es. lia. }
    simpl. unfold trim. simpl. rewrite Hws, trimEnd_cons by exact Hws. discriminate.
Qed.

Lemma chunkMessage_returns_at maxLength message :
  (1 <= maxLength)%nat -> exists out, chunkMessage message maxLength = Some out.
Proof.
  intros Hm. unfold chunkMessage.
  destruct (length message <=? maxLength)%nat; [eauto|].
  destruct (chunkLoop_spec maxLength Hm (S (length message)) message ltac:(lia))
    as (chunks & -> & _).
  eauto.
Qed.

Lemma chunkMessage_returns message :
  exists out, chunkMessage message defaultMaxLength = Some out.
Proof. apply chunkMessage_returns_at. unfold defaultMaxLength. lia. Qed.



(** With a limit of zero the loop cuts off an empty chunk on every pass
    and leaves the text as it is: on a message that is not blank it never
    ends. *)
Theorem chunkMessage_zero_limit_diverges (message : list ascii) :
  trim message <> [] ->
  (forall fuel, chunkLoop fuel 0 message = None) /\ chunkMessage message 0 = None.
Proof.
  intros Hne. split; [intros fuel; now apply chunkLoop_zero|].
  unfold chunkMessage. destruct message as [|c r]; [now contradiction Hne|].
  simpl (length _ <=? 0)%nat. cbv iota. now rewrite chunkLoop_zero.
Qed.

Lemma chunkMessage_zero_limit_diverges_witness :
  (forall fuel, chunkLoop fuel 0 (list_ascii_of_string "hi") = None) /\
  chunkMessage (list_ascii_of_string "hi") 0 = None.
Proof. apply chunkMessage_zero_limit_diverges. vm_compute. discriminate. Defined.

(** The bodies of a chunked message carry no white space at either end,
    and only the first of them can be empty. *)
Theorem chunk_bodies_are_trimmed (message : list ascii) (maxLength : nat) out :
  (1 <= maxLength)%nat ->
  (maxLength < length message)%nat ->
  chunkMessage message maxLength = Some out ->
  Forall (fun body => trim body = body) (chunkBodies out) /\
  Forall (fun body => body <> []) (tail (chunkBodies out)).
Proof.
  intros Hm Hlong. unfold chunkMessage.
  destruct (Nat.leb_spec (length message) maxLength) as [Hle|_]; [lia|].
  destruct (chunkLoop (S (length message)) maxLength message) as [chunks|] eqn:E;
    [|discriminate].
  intros H. injection H as <-.
  assert (Hb : chunkBodies (if (1 <? length chunks)%nat then annotate chunks else chunks)
               = chunks).
  { destruct (Nat.ltb_spec 1 (length chunks)) as [Hmany|Hone].
    - now apply chunkBodies_annotate.
    - unfold chunkBodies. destruct (Nat.ltb_spec 1 (length chunks)); [lia | reflexivity]. }
  rewrite Hb. split; [eapply chunkLoop_trimmed, E|].
  destruct message as [|c r]; [simpl in Hlong; lia|].
  cbn [chunkLoop] in E.
  destruct (chunkLoop (length (c :: r)) maxLength _) as [rest|] eqn:Er; [|discriminate].
  injection E as <-. simpl.
  eapply chunkLoop_nonempty; [exact Hm | | exact Er]. apply trim_idempotent.
Qed.

Lemma chunk_bodies_are_trimmed_witness :
  Forall (fun body => trim body = body)
    (chunkBodies [list_ascii_of_string "(1/2) rent"; list_ascii_of_string "(2/2) roll"]) /\
  Forall (fun body => body <> [])
    (tail (chunkBodies [list_ascii_of_string "(1/2) rent"; list_ascii_of_string "(2/2) roll"])).
Proof.
  apply (chunk_bodies_are_trimmed (list_ascii_of_string "rent  roll") 5);
    [lia | simpl; lia | vm_compute; reflexivity].
Defined.

(** The first body can be empty: a message that opens with a run of
    blanks as long as the limit. *)
Example first_body_can_be_empty :
  chunkMessage (list_ascii_of_string "     rent") 5 =
    Some [list_ascii_of_string "(1/2) "; list_ascii_of_string "(2/2) rent"].
Proof. vm_compute. reflexivity. Qed.

End ChunkerFacts.

(** ** Sending a reply *)

Module SmsSendFacts.
Import JsString Js Sms SmsFacts ChunkerFacts SmsSend DeliveryScenarios.

Lemma strim_nonempty s : strim s <> "" -> trim (list_ascii_of_string s) <> [].
Proof. unfold strim. intros H E. apply H. now rewrite E. Qed.

Lemma effectiveMessage_not_blank message text :
  effectiveMessage message = Normal text -> strim text <> "".
Proof.
  unfold effectiveMessage. destruct (truthy message).
  - destruct message; try discriminate. intros H. injection H as <-.
    destruct (String.eqb_spec (strim s) ""); [vm_compute; discriminate | assumption].
  - intros H. injection H as <-. vm_compute. discriminate.
Qed.

Lemma Forall_imap_intro {A B} (P : B -> Prop) (f : nat -> A -> B) l :
  (forall i x, P (f i x)) -> Forall P (imap f l).
Proof.
  revert f. induction l as [|x l IH]; intros f H; simpl; constructor; [apply H|].
  apply IH. intros. apply H.
Qed.

(** A message that is not blank has no empty chunk. *)
Lemma chunkMessage_nonblank message out :
  trim message <> [] ->
  chunkMessage message defaultMaxLength = Some out ->
  Forall (fun chunk => chunk <> []) out.
Proof.
  intros Hne. unfold chunkMessage.
  destruct (Nat.leb_spec (length message) defaultMaxLength) as [Hle|Hgt].
  - intros H. injection H as <-. constructor; [|constructor].
    intros ->. now apply Hne.
  - destruct (chunkLoop_spec defaultMaxLength ltac:(unfold defaultMaxLength; lia)
                (S (length message)) message ltac:(lia))
      as (chunks & Hc & _ & Hws).
    rewrite Hc. intros H. injection H as <-.
    destruct (Nat.ltb_spec 1 (length chunks)) as [Hmany|Hone].
    + apply Forall_imap_intro. intros i x. discriminate.
    + assert (Hblank : removeWhiteSpace message <> [])
        by (intros E; apply Hne; now apply trim_blank).
      destruct chunks as [|b [|b' rest]]; [|simpl in *|simpl in Hone; lia].
      * simpl in Hws. now rewrite <- Hws in Hblank.
      * constructor; [|constructor]. intros ->. simpl in Hws.
        now rewrite <- Hws in Hblank.
Qed.

Lemma createdBodies_cons_paused ms events :
  createdBodies (Paused ms :: events) = createdBodies events.
Proof. reflexivity. Qed.

(** The loop over the chunks: what was created is a prefix of the chunks,
    in order; the loop ends normally after the last chunk, or with the
    exception of the first [create] that fails. *)
Lemma sendChunks_spec create to fromNumber chunks : forall i result events,
  sendChunks create to fromNumber i chunks = (result, events) ->
  exists k,
    createdBodies events = take k chunks /\
    (forall j body, (j < k)%nat -> chunks !! j = Some body ->
                    create (i + j)%nat body = Normal tt) /\
    ((result = Normal tt /\ k = length chunks) \/
     (exists e body, chunks !! k = Some body /\ create (i + k)%nat body = Throw e /\
                     result = Throw e)) /\
    pauses events = Nat.min k (length chunks - 1).
Proof.
  induction chunks as [|body rest IH]; intros i result events H; simpl in H.
  - injection H as <- <-. exists 0%nat. repeat split; auto. intros j b Hj. lia.
  - destruct (create i body) as [[]|e] eqn:Ec.
    + destruct (sendChunks create to fromNumber (S i) rest) as [r ev] eqn:Er.
      injection H as <- <-. destruct (IH _ _ _ Er) as (k & Hb & Hok & Hend & Hp).
      exists (S k). split; [|split; [|split]].
      * destruct rest; simpl; rewrite ?createdBodies_cons_paused; simpl; now rewrite Hb.
      * intros [|j] b Hj Hl; simpl in Hl.
        -- injection Hl as <-. now rewrite Nat.add_0_r.
        -- replace (i + S j)%nat with (S i + j)%nat by lia. apply Hok; [lia | exact Hl].
      * destruct Hend as [[-> ->]|(e & b & Hl & Hc & ->)]; [now left|right].
        exists e, b. simpl. replace (i + S k)%nat with (S i + k)%nat by lia. auto.
      * destruct rest as [|b' rest']; simpl in *.
        -- unfold pauses in *. simpl. rewrite Hp. lia.
        -- unfold pauses in *. simpl. rewrite Hp. lia.
    + injection H as <- <-. exists 0%nat. repeat split; auto.
      * intros j b Hj. lia.
      * right. exists e, body. rewrite Nat.add_0_r. auto.
Qed.

Lemma sendSMS_returns twilioClient to message fromNumber :
  exists result events, sendSMS twilioClient to message fromNumber = Some (result, events).
Proof.
  unfold sendSMS. destruct twilioClient as [create|]; [|eauto].
  destruct (effectiveMessage message) as [text|e]; [|eauto].
  destruct (chunkMessage_returns (list_ascii_of_string text)) as (out & ->).
  destruct (sendChunks create to fromNumber 0 (List.map string_of_list_ascii out)). eauto.
Qed.

(** [sendSMS] returns for every client and every message, and whatever
    the provider does, no message with an empty body is created. *)
Theorem sendSMS_never_creates_an_empty_body twilioClient to message fromNumber :
  exists result events,
    sendSMS twilioClient to message fromNumber = Some (result, events) /\
    Forall (fun body => body <> "") (createdBodies events).
Proof.
  unfold sendSMS. destruct twilioClient as [create|]; [|exists (Normal tt), []; auto].
  destruct (effectiveMessage message) as [text|e] eqn:Em; [|exists (Throw e), []; auto].
  destruct (chunkMessage_returns (list_ascii_of_string text)) as (out & Hout).
  rewrite Hout.
  destruct (sendChunks create to fromNumber 0 (List.map string_of_list_ascii out))
    as [result events] eqn:Es.
  exists result, events. split; [reflexivity|].
  destruct (sendChunks_spec _ _ _ _ _ _ _ Es) as (k & -> & _).
  apply Forall_take.
  pose proof (chunkMessage_nonblank _ _
                (strim_nonempty _ (effectiveMessage_not_blank _ _ Em)) Hout) as Hne.
  clear -Hne. induction Hne as [|b l Hb _ IH]; simpl; constructor; [|exact IH].
  destruct b; [contradiction | discriminate].
Qed.

(** Delivery is in order and stops at the first failure: the messages
    created are the first [k] chunks of the text; either all chunks are out
    and [sendSMS] returns, or creating chunk [k] raised, that exception
    leaves [sendSMS] and the later chunks are never tried. A pause of one
    second follows every message created except the last chunk. *)
Theorem sendSMS_stops_at_first_failure create to message fromNumber text chunks :
  effectiveMessage message = Normal text ->
  chunkMessage (list_ascii_of_string text) defaultMaxLength = Some chunks ->
  exists result events k,
    sendSMS (Some create) to message fromNumber = Some (result, events) /\
    createdBodies events = take k (List.map string_of_list_ascii chunks) /\
    (forall j body, (j < k)%nat ->
       List.map string_of_list_ascii chunks !! j = Some body -> create j body = Normal tt) /\
    ((result = Normal tt /\ k = length chunks) \/
     (exists e body, List.map string_of_list_ascii chunks !! k = Some body /\
                     create k body = Throw e /\ result = Throw e)) /\
    pauses events = Nat.min k (length chunks - 1).
Proof.
  intros Hm Hc. unfold sendSMS. rewrite Hm, Hc.
  destruct (sendChunks create to fromNumber 0 (List.map string_of_list_ascii chunks))
    as [result events] eqn:Es.
  destruct (sendChunks_spec _ _ _ _ _ _ _ Es) as (k & Hb & Hok & Hend & Hp).
  rewrite length_map in *. exists result, events, k. repeat split; auto.
Qed.

(** A reply of two chunks and a provider that refuses the second. *)
Lemma sendSMS_stops_at_first_failure_witness :
  exists result events k,
    sendSMS (Some secondFails) "+13125550100" twoPartReply "+13125550199"
      = Some (result, events) /\
    createdBodies events =
      take k [string_of_list_ascii (list_ascii_of_string "(1/2) " ++ repeat "a"%char 299);
              "(2/2) bb cc"] /\
    (forall j body, (j < k)%nat ->
       [string_of_list_ascii (list_ascii_of_string "(1/2) " ++ repeat "a"%char 299);
        "(2/2) bb cc"] !! j = Some body -> secondFails j body = Normal tt) /\
    ((result = Normal tt /\ k = 2%nat) \/
     (exists e body,
        [string_of_list_ascii (list_ascii_of_string "(1/2) " ++ repeat "a"%char 299);
         "(2/2) bb cc"] !! k = Some body /\
        secondFails k body = Throw e /\ result = Throw e)) /\
    pauses events = Nat.min k 1.
Proof.
  apply (sendSMS_stops_at_first_failure secondFails "+13125550100" twoPartReply
           "+13125550199"
           (string_of_list_ascii (repeat "a"%char 299 ++ list_ascii_of_string " bb cc"))
           [list_ascii_of_string "(1/2) " ++ repeat "a"%char 299;
            list_ascii_of_string "(2/2) bb cc"]);
    vm_compute; reflexivity.
Defined.

End SmsSendFacts.

(** ** The conversation store *)

Module CacheFacts.
Import Js.

Lemma cache_get_live now key (data : gmap string Cache.entry) e :
  data !! key = Some e ->
  (Cache.expires e = 0 \/ now <= Cache.expires e)%Z ->
  Cache.get now key data = (Cache.value e, data).
Proof.
  intros E H. unfold Cache.get. rewrite E.
  destruct (Z.eqb_spec (Cache.expires e) 0); simpl; [reflexivity|].
  destruct (Z.ltb_spec (Cache.expires e) now); [lia | reflexivity].
Qed.

Lemma cache_get_expired now key (data : gmap string Cache.entry) e :
  data !! key = Some e ->
  (Cache.expires e <> 0)%Z -> (Cache.expires e < now)%Z ->
  Cache.get now key data = (JUndefined, delete key data).
Proof.
  intros E H0 H. unfold Cache.get. rewrite E.
  destruct (Z.eqb_spec (Cache.expires e) 0); [contradiction|]. simpl.
  destruct (Z.ltb_spec (Cache.expires e) now); [reflexivity | lia].
Qed.

Lemma cache_get_absent now key (data : gmap string Cache.entry) :
  data !! key = None -> Cache.get now key data = (JUndefined, data).
Proof. intros E. unfold Cache.get. now rewrite E. Qed.

Lemma cache_get_other now key (data : gmap string Cache.entry) k :
  k <> key -> snd (Cache.get now key data) !! k = data !! k.
Proof.
  intros Hne. unfold Cache.get. destruct (data !! key) as [e|]; [|reflexivity].
  destruct (_ && _); [|reflexivity]. simpl. now rewrite lookup_delete_ne.
Qed.

(** A read returns the stored value of a live entry and leaves the cache
    alone, or finds nothing and leaves no entry under the key. *)
Lemma cache_get_cases now key (data : gmap string Cache.entry) :
  (exists e, data !! key = Some e /\ Cache.get now key data = (Cache.value e, data)) \/
  (Cache.get now key data = (JUndefined, delete key data)).
Proof.
  unfold Cache.get. destruct (data !! key) as [e|] eqn:E.
  - destruct (_ && _); [now right | left; eauto].
  - right. now rewrite delete_id.
Qed.

Lemma cache_set_normal now key v ttl (data data' : gmap string Cache.entry) :
  Cache.set now key v ttl data = Normal data' ->
  data' = <[key := {| Cache.expires := if (ttl =? 0)%Z then 0%Z else (now + ttl * 1000)%Z;
                      Cache.value := v |}]> data.
Proof. unfold Cache.set. destruct (_ <=? _)%Z; [discriminate | congruence]. Qed.

Lemma cache_set_full now key v ttl (data : gmap string Cache.entry) :
  (Cache.maxKeys <= Z.of_nat (size data))%Z ->
  Cache.set now key v ttl data = Throw "ECACHEFULL".
Proof. intros H. unfold Cache.set. destruct (Z.leb_spec Cache.maxKeys (Z.of_nat (size data))); [reflexivity | lia]. Qed.

Lemma cache_alter_size (f : Cache.entry -> Cache.entry) (k : string)
  (data : gmap string Cache.entry) : size (alter f k data) = size data.
Proof. rewrite <- !(size_dom (D := gset string)), dom_alter_L. reflexivity. Qed.

End CacheFacts.

Module ObjectFacts.
Import JsString Js JsObject.

Lemma lookupField_setField_eq k v fields : lookupField k (setField k v fields) = v.
Proof.
  induction fields as [|[k' v'] r IH]; simpl; [now rewrite String.eqb_refl|].
  destruct (String.eqb_spec k' k); simpl.
  - now rewrite String.eqb_refl.
  - destruct (String.eqb_spec k' k); [contradiction | exact IH].
Qed.

Lemma lookupField_setField_ne k k' v fields :
  k' <> k -> lookupField k' (setField k v fields) = lookupField k' fields.
Proof.
  intros Hne. induction fields as [|[k0 v0] r IH]; simpl.
  - destruct (String.eqb_spec k k'); [congruence | reflexivity].
  - destruct (String.eqb_spec k0 k) as [->|Hk]; simpl.
    + destruct (String.eqb_spec k k'); [congruence | reflexivity].
    + destruct (String.eqb_spec k0 k'); [reflexivity | exact IH].
Qed.

Lemma lookupField_app k a b :
  lookupField k (a ++ b) = if hasField k a then lookupField k a else lookupField k b.
Proof.
  induction a as [|[k0 v0] a IH]; simpl; [reflexivity|].
  destruct (String.eqb k0 k); [reflexivity | exact IH].
Qed.

Lemma hasField_rev k a : hasField k (rev a) = hasField k a.
Proof.
  unfold hasField. induction a as [|kv a IH]; simpl; [reflexivity|].
  rewrite existsb_app, IH. simpl. rewrite orb_false_r. apply orb_comm.
Qed.

(** In [{ ...base, ...extra }] a key of [extra] has the value of its last
    occurrence there, any other key the value it has in [base]. *)
Lemma lookupField_assign k extra : forall base,
  lookupField k (assign base extra) =
    if hasField k extra then lookupField k (rev extra) else lookupField k base.
Proof.
  unfold assign. induction extra as [|[k0 v0] extra IH]; intros base; simpl; [reflexivity|].
  rewrite IH, lookupField_app, hasField_rev. simpl.
  destruct (hasField k extra); [destruct (String.eqb k0 k); reflexivity|].
  destruct (String.eqb_spec k0 k) as [->|Hne]; simpl.
  - apply lookupField_setField_eq.
  - apply lookupField_setField_ne. congruence.
Qed.

Lemma slice_last_n {A} (n : Z) (xs : list A) :
  (1 <= n)%Z -> slice (- n) xs = drop (length xs - Z.to_nat n) xs.
Proof.
  intros Hn. unfold slice, sliceStart.
  destruct (Z.ltb_spec (- n) 0); [|lia]. f_equal. lia.
Qed.

Lemma slice_last_50 {A} (xs : list A) : slice (-50) xs = drop (length xs - 50) xs.
Proof. exact (slice_last_n 50 xs ltac:(lia)). Qed.

Lemma slice_zero {A} (xs : list A) : slice (- 0) xs = xs.
Proof. unfold slice, sliceStart. simpl. destruct xs; reflexivity. Qed.

Lemma last_drop_lt {A} (k : nat) (xs : list A) :
  (k < length xs)%nat -> last (drop k xs) = last xs.
Proof.
  revert k. induction xs as [|x xs IH]; intros k Hk; simpl in Hk; [lia|].
  destruct k as [|k]; [reflexivity|]. simpl.
  rewrite IH by lia. destruct xs; [simpl in Hk; lia | reflexivity].
Qed.

End ObjectFacts.

Module MemoryFacts.
Import JsString Js JsObject ConversationMemory CacheFacts ObjectFacts MemoryScenarios.

Lemma conversationKey_inj a b : conversationKey a = conversationKey b -> a = b.
Proof. unfold conversationKey. simpl. intros H. now injection H. Qed.

Lemma contextKey_not_conversationKey a b : contextKey a <> conversationKey b.
Proof. unfold contextKey, conversationKey. simpl. discriminate. Qed.

Lemma capped_length messages : (length (capped messages) <= 50)%nat.
Proof.
  unfold capped. destruct (Nat.ltb_spec 50 (length messages)); [|lia].
  rewrite slice_last_50. rewrite length_drop. lia.
Qed.

Lemma capped_last messages message :
  last (capped (messages ++ [message])) = Some message.
Proof.
  unfold capped. destruct (Nat.ltb_spec 50 (length (messages ++ [message]))).
  - rewrite slice_last_50. rewrite last_drop_lt by lia. apply last_snoc.
  - apply last_snoc.
Qed.

(** What a successful [addMessage] leaves in the cache. *)
Lemma addMessage_normal now timestamp phoneNumber role content metadata data data' :
  addMessage now timestamp phoneNumber role content metadata data = (Normal tt, data') ->
  exists messages,
    orElse (stored now phoneNumber data) (JArr []) = JArr messages /\
    data' !! conversationKey phoneNumber =
      Some {| Cache.expires := (now + 7200 * 1000)%Z;
              Cache.value :=
                JArr (capped (messages ++
                                [newMessage timestamp role content metadata])) |}.
Proof.
  unfold addMessage, stored.
  destruct (Cache.get now (conversationKey phoneNumber) data) as [v data1]. simpl.
  destruct (orElse v (JArr [])) as [| | | | |messages|] eqn:Ev; try discriminate.
  destruct (Cache.set _ _ _ _ _) as [data3|e] eqn:Es; [|discriminate].
  intros H. injection H as <-. exists messages. split; [reflexivity|].
  apply cache_set_normal in Es. rewrite Es, lookup_insert_eq. reflexivity.
Qed.

(** After [addMessage] has returned, a read within the two hours of the
    entry returns a history that ends with the new message and holds at
    most [limit] and at most 50 messages; the read leaves the cache as it
    is. *)
Theorem history_ends_with_new_message
  now later timestamp phoneNumber role content metadata limit data data' :
  addMessage now timestamp phoneNumber role content metadata data = (Normal tt, data') ->
  (now <= later <= now + 7200000)%Z ->
  (1 <= limit)%Z ->
  exists messages,
    getConversationHistory later phoneNumber limit data' = (Normal (JArr messages), data') /\
    last messages = Some (newMessage timestamp role content metadata) /\
    (Z.of_nat (length messages) <= Z.min limit 50)%Z.
Proof.
  intros Ha Ht Hl. destruct (addMessage_normal _ _ _ _ _ _ _ _ Ha) as (old & _ & Hk).
  unfold getConversationHistory.
  erewrite cache_get_live by (try exact Hk; simpl; lia). simpl.
  eexists. split; [reflexivity|].
  pose proof (capped_length (old ++ [newMessage timestamp role content metadata])) as Hc.
  pose proof (capped_last old (newMessage timestamp role content metadata)) as Hlast.
  set (xs := capped _) in *.
  assert (Hne : (0 < length xs)%nat) by (destruct xs; [discriminate | simpl; lia]).
  rewrite slice_last_n by exact Hl. split.
  - rewrite last_drop_lt by lia. exact Hlast.
  - rewrite length_drop. lia.
Qed.

Lemma history_ends_with_new_message_witness :
  exists messages,
    getConversationHistory 1700000060000 "+13125550100" 10
      (snd (addMessage 1700000000000 "2023-11-14T22:13:20.000Z" "+13125550100" "user"
              (JStr "cap rates in Dallas") [] ∅)) =
      (Normal (JArr messages),
       snd (addMessage 1700000000000 "2023-11-14T22:13:20.000Z" "+13125550100" "user"
              (JStr "cap rates in Dallas") [] ∅)) /\
    last messages =
      Some (newMessage "2023-11-14T22:13:20.000Z" "user" (JStr "cap rates in Dallas") []) /\
    (Z.of_nat (length messages) <= Z.min 10 50)%Z.
Proof.
  apply (history_ends_with_new_message 1700000000000 1700000060000
           "2023-11-14T22:13:20.000Z" "+13125550100" "user" (JStr "cap rates in Dallas") []
           10 ∅); [vm_compute; reflexivity | lia | lia].
Defined.

(** Reading does not renew the entry: whatever was read in between, two
    hours after the last [addMessage] the history is empty again. (The
    clock reads milliseconds since the epoch.) *)
Theorem reads_do_not_extend_the_lifetime
  now read later timestamp phoneNumber role content metadata limit limit' data data' :
  addMessage now timestamp phoneNumber role content metadata data = (Normal tt, data') ->
  (0 <= now)%Z ->
  (now <= read <= now + 7200000)%Z ->
  (now + 7200000 < later)%Z ->
  fst (getConversationHistory later phoneNumber limit'
         (snd (getConversationHistory read phoneNumber limit data'))) = Normal (JArr []).
Proof.
  intros Ha H0 Hr Hl. destruct (addMessage_normal _ _ _ _ _ _ _ _ Ha) as (old & _ & Hk).
  unfold getConversationHistory at 2.
  erewrite cache_get_live by (try exact Hk; simpl; lia). simpl.
  unfold getConversationHistory.
  erewrite cache_get_expired by (try exact Hk; simpl; lia). simpl.
  unfold slice. now rewrite drop_nil.
Qed.

Lemma reads_do_not_extend_the_lifetime_witness :
  fst (getConversationHistory 1700007200001 "+13125550100" 10
         (snd (getConversationHistory 1700007000000 "+13125550100" 10
                 (snd (addMessage 1700000000000 "2023-11-14T22:13:20.000Z" "+13125550100"
                         "user" (JStr "cap rates in Dallas") [] ∅))))) = Normal (JArr []).
Proof.
  apply (reads_do_not_extend_the_lifetime 1700000000000 1700007000000 1700007200001
           "2023-11-14T22:13:20.000Z" "+13125550100" "user" (JStr "cap rates in Dallas") []
           10 10 ∅); [vm_compute; reflexivity | lia | lia | lia].
Defined.

(** [slice(-limit)]: a limit of zero does not give an empty history but
    the whole of it; a positive limit gives the last [limit] messages, a
    negative one drops the first [-limit]. *)
Theorem history_limit now phoneNumber limit data messages :
  stored now phoneNumber data = JArr messages ->
  fst (getConversationHistory now phoneNumber limit data) =
    Normal (JArr (if (limit =? 0)%Z then messages
                  else if (0 <? limit)%Z
                       then drop (length messages - Z.to_nat limit) messages
                       else drop (Z.to_nat (- limit)) messages)).
Proof.
  unfold stored, getConversationHistory.
  destruct (Cache.get now (conversationKey phoneNumber) data) as [v data1]. simpl.
  intros ->. simpl. do 2 f_equal.
  destruct (Z.eqb_spec limit 0) as [->|Hne]; [apply slice_zero|].
  destruct (Z.ltb_spec 0 limit) as [Hpos|Hneg]; [apply slice_last_n; lia|].
  unfold slice, sliceStart. destruct (Z.ltb_spec (- limit) 0); [lia|].
  destruct (Z.min_spec (- limit) (Z.of_nat (length messages))) as [[_ ->]|[Hge ->]];
    [reflexivity|].
  rewrite Nat2Z.id, drop_all. symmetry. apply drop_ge. lia.
Qed.

Lemma history_limit_witness :
  fst (getConversationHistory 1700000060000 "+13125550100" 0
         (snd (addMessage 1700000000000 "2023-11-14T22:13:20.000Z" "+13125550100" "user"
                 (JStr "cap rates in Dallas") [] ∅))) =
    Normal (JArr [newMessage "2023-11-14T22:13:20.000Z" "user"
                    (JStr "cap rates in Dallas") []]).
Proof.
  apply (history_limit 1700000060000 "+13125550100" 0 _
           [newMessage "2023-11-14T22:13:20.000Z" "user" (JStr "cap rates in Dallas") []]).
  vm_compute. reflexivity.
Defined.

(** With a full cache [addMessage] on a running conversation raises
    ECACHEFULL, and yet the message is in the stored history afterwards:
    it was pushed onto the array the cache holds, and the cut to 50
    messages, which comes with the [cache.set] that failed, is not
    applied. *)
Theorem full_cache_still_grows_the_history
  now timestamp phoneNumber role content metadata data messages :
  stored now phoneNumber data = JArr messages ->
  (Cache.maxKeys <= Z.of_nat (size data))%Z ->
  exists data',
    addMessage now timestamp phoneNumber role content metadata data =
      (Throw "ECACHEFULL", data') /\
    stored now phoneNumber data' =
      JArr (messages ++ [newMessage timestamp role content metadata]).
Proof.
  unfold stored. intros Hs Hfull.
  destruct (cache_get_cases now (conversationKey phoneNumber) data)
    as [(e & Hk & Hg)|Hg]; rewrite Hg in Hs; simpl in Hs; [|discriminate].
  unfold addMessage. rewrite Hg, Hs. simpl.
  rewrite cache_set_full.
  2:{ rewrite cache_alter_size. exact Hfull. }
  eexists. split; [reflexivity|].
  unfold Cache.get in *. rewrite lookup_alter_eq. rewrite Hk in *. simpl.
  destruct (negb (Cache.expires e =? 0)%Z && (Cache.expires e <? now)%Z);
    [rewrite Hs in Hg; discriminate | reflexivity].
Qed.

#[local] Instance natToString_inj : Inj (=) (=) natToString.
Proof.
  intros a b H. unfold natToString in H.
  apply (f_equal NilEmpty.uint_of_string) in H. rewrite !NilEmpty.usu in H.
  injection H as H. now apply DecimalNat.Unsigned.to_uint_inj.
Qed.

Lemma digits_not_s d : forall rest, NilEmpty.string_of_uint d <> String "s" rest.
Proof. destruct d; simpl; discriminate. Qed.

Lemma numbered_keys (e : Cache.entry) (l : list nat) :
  (List.map (fun i => (natToString i, e)) l).*1 = natToString <$> l.
Proof. induction l as [|i l IH]; [reflexivity|]. cbn. f_equal. exact IH. Qed.

Lemma stored_insert_live now phoneNumber e (data : store) :
  (Cache.expires e = 0 \/ now <= Cache.expires e)%Z ->
  stored now phoneNumber (<[conversationKey phoneNumber := e]> data) = Cache.value e.
Proof.
  intros H. unfold stored.
  now rewrite (cache_get_live _ _ _ _ (lookup_insert_eq data _ _) H).
Qed.

(** [fullCache] holds 10000 keys, the running conversation among them. *)
Lemma fullCache_size : size fullCache = Z.to_nat 10000.
Proof.
  unfold fullCache. rewrite map_size_insert_None.
  - rewrite map_size_list_to_map.
    + rewrite length_map, length_seq. reflexivity.
    + rewrite numbered_keys. apply (NoDup_fmap_2 _), NoDup_seq.
  - apply not_elem_of_list_to_map_1. rewrite numbered_keys.
    intros (i & Hi & _)%list_elem_of_fmap.
    symmetry in Hi. revert Hi. apply digits_not_s.
Qed.

Lemma full_cache_still_grows_the_history_witness :
  exists data',
    addMessage 1700000060000 "2023-11-14T22:14:20.000Z" "+13125550100" "user"
      (JStr "and in Austin?") [] fullCache = (Throw "ECACHEFULL", data') /\
    stored 1700000060000 "+13125550100" data' =
      JArr ([firstTurn] ++ [newMessage "2023-11-14T22:14:20.000Z" "user"
                              (JStr "and in Austin?") []]).
Proof.
  pose proof (full_cache_still_grows_the_history 1700000060000 "2023-11-14T22:14:20.000Z"
                "+13125550100" "user" (JStr "and in Austin?") [] fullCache [firstTurn])
    as Hfull.
  apply Hfull.
  - unfold fullCache. apply stored_insert_live. simpl. lia.
  - rewrite fullCache_size. vm_compute. discriminate.
Defined.

(** [clearConversation] removes the history and the user context of the
    number and nothing else. *)
Theorem clearConversation_clears now phoneNumber limit data :
  getConversationHistory now phoneNumber limit (clearConversation phoneNumber data) =
    (Normal (JArr []), clearConversation phoneNumber data) /\
  getUserContext now phoneNumber (clearConversation phoneNumber data) =
    (JNull, clearConversation phoneNumber data) /\
  forall k, k <> conversationKey phoneNumber -> k <> contextKey phoneNumber ->
            clearConversation phoneNumber data !! k = data !! k.
Proof.
  unfold clearConversation, Cache.del. split; [|split].
  - unfold getConversationHistory.
    rewrite cache_get_absent; [simpl; unfold slice; now rewrite drop_nil|].
    rewrite lookup_delete_ne by apply contextKey_not_conversationKey.
    apply lookup_delete_eq.
  - unfold getUserContext. rewrite cache_get_absent; [reflexivity|]. apply lookup_delete_eq.
  - intros k H1 H2. now rewrite !lookup_delete_ne by congruence.
Qed.

(** [addMessage] touches one entry of the cache, whatever its outcome:
    the history of another number and every user context read as before. *)
Theorem addMessage_is_local
  now later timestamp phoneNumber role content metadata data other anyone :
  other <> phoneNumber ->
  stored later other (snd (addMessage now timestamp phoneNumber role content metadata data))
    = stored later other data /\
  fst (getUserContext later anyone
         (snd (addMessage now timestamp phoneNumber role content metadata data)))
    = fst (getUserContext later anyone data).
Proof.
  intros Hne.
  assert (Hframe : forall k, k <> conversationKey phoneNumber ->
            snd (addMessage now timestamp phoneNumber role content metadata data) !! k
            = data !! k).
  { intros k Hk. unfold addMessage.
    pose proof (cache_get_other now (conversationKey phoneNumber) data k Hk) as Hg.
    destruct (Cache.get now (conversationKey phoneNumber) data) as [v data1].
    simpl in Hg. destruct (orElse v (JArr [])); simpl; try exact Hg.
    assert (Halter : (if truthy v
                      then alter (fun e => {| Cache.expires := Cache.expires e;
                                              Cache.value := JArr (items ++
                                                [newMessage timestamp role content metadata]) |})
                             (conversationKey phoneNumber) data1
                      else data1) !! k = data !! k).
    { destruct (truthy v); [rewrite lookup_alter_ne by congruence|]; exact Hg. }
    destruct (Cache.set _ _ _ _ _) as [data3|e] eqn:Es; simpl; [|exact Halter].
    apply cache_set_normal in Es. rewrite Es, lookup_insert_ne by congruence.
    exact Halter. }
  assert (Hread : forall k, k <> conversationKey phoneNumber ->
            fst (Cache.get later k
                   (snd (addMessage now timestamp phoneNumber role content metadata data)))
            = fst (Cache.get later k data)).
  { intros k Hk. unfold Cache.get. rewrite Hframe by exact Hk.
    destruct (data !! k) as [e|]; [|reflexivity]. destruct (_ && _); reflexivity. }
  split.
  - unfold stored. apply Hread. intros E. apply conversationKey_inj in E. contradiction.
  - unfold getUserContext.
    pose proof (Hread (contextKey anyone) (contextKey_not_conversationKey _ _)) as H.
    destruct (Cache.get later (contextKey anyone) (snd _)) as [v1 d1].
    destruct (Cache.get later (contextKey anyone) data) as [v2 d2].
    simpl in *. now rewrite H.
Qed.

Lemma addMessage_is_local_witness :
  stored 1700000060000 "+13125550111"
    (snd (addMessage 1700000000000 "2023-11-14T22:13:20.000Z" "+13125550100" "user"
            (JStr "cap rates in Dallas") [] ∅)) = stored 1700000060000 "+13125550111" ∅ /\
  fst (getUserContext 1700000060000 "+13125550100"
         (snd (addMessage 1700000000000 "2023-11-14T22:13:20.000Z" "+13125550100" "user"
                 (JStr "cap rates in Dallas") [] ∅)))
    = fst (getUserContext 1700000060000 "+13125550100" ∅).
Proof.
  apply (addMessage_is_local 1700000000000 1700000060000 "2023-11-14T22:13:20.000Z"
           "+13125550100" "user" (JStr "cap rates in Dallas") [] ∅ "+13125550111"
           "+13125550100").
  discriminate.
Defined.

(** A user context is read back as it was stored for two hours, and as
    [null] afterwards; a falsy context reads as [null] at once. *)
Theorem user_context_round_trip now later phoneNumber context data data' :
  setUserContext now phoneNumber context data = Normal data' ->
  (0 <= now <= later)%Z ->
  getUserContext later phoneNumber data' =
    if (later <=? now + 7200000)%Z
    then (orElse context JNull, data')
    else (JNull, delete (contextKey phoneNumber) data').
Proof.
  intros Hs Hl. apply cache_set_normal in Hs. simpl in Hs.
  assert (Hk : data' !! contextKey phoneNumber =
               Some {| Cache.expires := (now + 7200 * 1000)%Z; Cache.value := context |})
    by (rewrite Hs; apply lookup_insert_eq).
  unfold getUserContext. destruct (Z.leb_spec later (now + 7200000)).
  - erewrite cache_get_live by (try exact Hk; simpl; lia). reflexivity.
  - erewrite cache_get_expired by (try exact Hk; simpl; lia). reflexivity.
Qed.

Lemma user_context_round_trip_witness :
  getUserContext 1700000060000 "+13125550100"
    (<[contextKey "+13125550100" :=
         {| Cache.expires := 1700007200000; Cache.value := knownUser |}]> ∅) =
    (knownUser,
     <[contextKey "+13125550100" :=
         {| Cache.expires := 1700007200000; Cache.value := knownUser |}]> ∅).
Proof.
  apply (user_context_round_trip 1700000000000 1700000060000 "+13125550100" knownUser ∅);
    [vm_compute; reflexivity | lia].
Defined.

(** A pending task is stored as pending, whatever status and creation
    time it arrived with; its other fields are kept, and it is read back
    for two hours. *)
Theorem pending_task_is_stored_as_pending now later timestamp phoneNumber task data data' :
  setPendingTask now timestamp phoneNumber task data = Normal data' ->
  (now <= later <= now + 7200000)%Z ->
  exists fields,
    getPendingTask later phoneNumber data' = (JObj fields, data') /\
    lookupField "status" fields = JStr "pending" /\
    lookupField "createdAt" fields = JStr timestamp /\
    forall k, k <> "status" -> k <> "createdAt" ->
              lookupField k fields = lookupField k (ownFields task).
Proof.
  intros Hs Ht. apply cache_set_normal in Hs. simpl in Hs.
  unfold getPendingTask. erewrite cache_get_live.
  2:{ rewrite Hs. apply lookup_insert_eq. }
  2:{ simpl. lia. }
  simpl. eexists. split; [reflexivity|]. unfold assign. simpl. split; [|split].
  - apply lookupField_setField_eq.
  - rewrite lookupField_setField_ne by discriminate. apply lookupField_setField_eq.
  - intros k H1 H2. now rewrite !lookupField_setField_ne by congruence.
Qed.

Lemma pending_task_is_stored_as_pending_witness :
  exists fields,
    getPendingTask 1700000060000 "+13125550100"
      (<[pendingKey "+13125550100" :=
           {| Cache.expires := 1700007200000;
              Cache.value := JObj [("kind", JStr "proforma"); ("status", JStr "pending");
                                   ("createdAt", JStr "2023-11-14T22:13:20.000Z")] |}]> ∅) =
      (JObj fields,
       <[pendingKey "+13125550100" :=
           {| Cache.expires := 1700007200000;
              Cache.value := JObj [("kind", JStr "proforma"); ("status", JStr "pending");
                                   ("createdAt", JStr "2023-11-14T22:13:20.000Z")] |}]> ∅) /\
    lookupField "status" fields = JStr "pending" /\
    lookupField "createdAt" fields = JStr "2023-11-14T22:13:20.000Z" /\
    forall k, k <> "status" -> k <> "createdAt" ->
              lookupField k fields = lookupField k (ownFields finishedTask).
Proof.
  apply (pending_task_is_stored_as_pending 1700000000000 1700000060000
           "2023-11-14T22:13:20.000Z" "+13125550100" finishedTask ∅);
    [vm_compute; reflexivity | lia].
Defined.

(** [updatePendingTask] never creates a task: with none pending it
    returns [null] and stores nothing. On a pending task the updates win
    over the stored fields, [updatedAt] is set, every other field is kept,
    and the two hours start again. *)
Theorem updatePendingTask_merges now later timestamp phoneNumber updates data :
  (now <= later <= now + 7200000)%Z ->
  (Z.of_nat (size data) < Cache.maxKeys)%Z ->
  (truthy (fst (getPendingTask now phoneNumber data)) = false /\
   updatePendingTask now timestamp phoneNumber updates data =
     (Normal JNull, snd (getPendingTask now phoneNumber data))) \/
  (exists fields data',
     updatePendingTask now timestamp phoneNumber updates data = (Normal (JObj fields), data') /\
     getPendingTask later phoneNumber data' = (JObj fields, data') /\
     lookupField "updatedAt" fields = JStr timestamp /\
     forall k, k <> "updatedAt" ->
       lookupField k fields =
         if hasField k (ownFields updates) then lookupField k (rev (ownFields updates))
         else lookupField k (ownFields (fst (getPendingTask now phoneNumber data)))).
Proof.
  intros Ht Hroom. unfold updatePendingTask.
  destruct (getPendingTask now phoneNumber data) as [existing data1] eqn:Eg.
  simpl. destruct (truthy existing) eqn:Etr; [right | left; auto].
  assert (Hsize : (Z.of_nat (size data1) < Cache.maxKeys)%Z).
  { unfold getPendingTask in Eg.
    destruct (cache_get_cases now (pendingKey phoneNumber) data) as [(e & _ & Hg)|Hg];
      rewrite Hg in Eg; injection Eg as _ <-; [exact Hroom|].
    destruct (data !! pendingKey phoneNumber) eqn:E.
    - erewrite map_size_delete_Some by eauto. lia.
    - rewrite delete_id by exact E. exact Hroom. }
  unfold Cache.set. destruct (Z.leb_spec Cache.maxKeys (Z.of_nat (size data1))); [lia|].
  eexists _, _. split; [reflexivity|]. split; [|split].
  - unfold getPendingTask. erewrite cache_get_live.
    2:{ apply lookup_insert_eq. }
    2:{ simpl. lia. }
    reflexivity.
  - apply lookupField_setField_eq.
  - intros k Hk. rewrite lookupField_setField_ne by exact Hk.
    apply lookupField_assign.
Qed.

Lemma updatePendingTask_merges_witness :
  (truthy (fst (getPendingTask 1700000000000 "+13125550100" ∅)) = false /\
   updatePendingTask 1700000000000 "2023-11-14T22:13:20.000Z" "+13125550100"
     finishedTask ∅ =
     (Normal JNull, snd (getPendingTask 1700000000000 "+13125550100" ∅))) \/
  (exists fields data',
     updatePendingTask 1700000000000 "2023-11-14T22:13:20.000Z" "+13125550100"
       finishedTask ∅ = (Normal (JObj fields), data') /\
     getPendingTask 1700000060000 "+13125550100" data' = (JObj fields, data') /\
     lookupField "updatedAt" fields = JStr "2023-11-14T22:13:20.000Z" /\
     forall k, k <> "updatedAt" ->
       lookupField k fields =
         if hasField k (ownFields finishedTask)
         then lookupField k (rev (ownFields finishedTask))
         else lookupField k
                (ownFields (fst (getPendingTask 1700000000000 "+13125550100" ∅)))).
Proof.
  apply (updatePendingTask_merges 1700000000000 1700000060000 "2023-11-14T22:13:20.000Z"
           "+13125550100" finishedTask ∅); [lia | vm_compute; reflexivity].
Defined.

End MemoryFacts.

(** ** The webhook: opt-out and hand-over *)

Module OptOutFacts.
Import JsString Js SmsRoutes CacheFacts Scenarios OptOutScenarios.

Lemma idempotencyKey_not_optOutKey from body sid now fromNumber :
  optOutKey fromNumber <> idempotencyKey from body sid now.
Proof. unfold idempotencyKey, optOutKey. simpl. discriminate. Qed.

Lemma dispatch_effects_nil_when_opted_out now fromNumber toNumber body c e :
  c !! optOutKey fromNumber = Some e ->
  truthy (Cache.value e) = true ->
  (Cache.expires e = 0 \/ now <= Cache.expires e)%Z ->
  effects (dispatch now fromNumber toNumber body c) = [].
Proof.
  intros Hk Hv Hlive. unfold dispatch.
  destruct (_ || _); [destruct (Cache.set _ _ _ _ _); reflexivity|].
  destruct (_ || _); [reflexivity|].
  destruct (String.eqb _ "help"); [reflexivity|].
  rewrite (cache_get_live _ _ _ _ Hk Hlive), Hv. reflexivity.
Qed.

(** An accepted STOP leaves the opt-out entry of the sender, good for a
    year. *)
Lemma stop_is_recorded production now req c :
  reply (smsWebhook production now req c) = TwimlMessage stopText ->
  cache (smsWebhook production now req c) !! optOutKey (withPlus (From req)) =
    Some {| Cache.expires := (now + 86400 * 365 * 1000)%Z; Cache.value := JBool true |}.
Proof.
  unfold smsWebhook.
  destruct (production && negb (signatureValid req)); [discriminate|].
  destruct (negb (isTruthy (From req)) || negb (isTruthy (Body req))); [discriminate|].
  destruct (Cache.get now _ c) as [seen c1].
  destruct (truthy seen); [discriminate|].
  destruct (Cache.set now _ (JBool true) 600 c1) as [c2|err]; [|discriminate].
  unfold dispatch.
  destruct (_ || _).
  { destruct (Cache.set now _ (JBool true) (86400 * 365) c2) as [c3|err] eqn:Es;
      [|discriminate].
    intros _. apply cache_set_normal in Es. simpl. rewrite Es, lookup_insert_eq.
    reflexivity. }
  destruct (_ || _); [intros H; simpl in H; injection H as H; vm_compute in H; discriminate|].
  destruct (String.eqb _ "help");
    [intros H; simpl in H; injection H as H; vm_compute in H; discriminate|].
  destruct (Cache.get now _ c2) as [optedOut c3]. destruct (truthy optedOut); discriminate.
Qed.



(** An accepted START removes the opt-out entry: the next message of the
    sender that passes the checks on the request and is new to the guard
    is handed over, whatever STOPs came before. *)
Theorem start_restores_processing production t1 t2 req1 req2 c0 :
  reply (smsWebhook production t1 req1 c0) = TwimlMessage startText ->
  withPlus (From req2) = withPlus (From req1) ->
  (production = true -> signatureValid req2 = true) ->
  isTruthy (From req2) = true -> isTruthy (Body req2) = true ->
  isKeyword (default "" (Body req2)) = false ->
  cache (smsWebhook production t1 req1 c0) !!
    idempotencyKey (default "" (From req2)) (default "" (Body req2)) (MessageSid req2) t2
    = None ->
  (Z.of_nat (size (cache (smsWebhook production t1 req1 c0))) < Cache.maxKeys)%Z ->
  effects (smsWebhook production t2 req2 (cache (smsWebhook production t1 req1 c0))) =
    [ProcessMessage (withPlus (From req2)) (withPlus (To req2)) (default "" (Body req2))].
Proof.
  intros Hstart Hsame Hsig Hfrom Hbody Hkw Hnew Hroom.
  assert (Hgone : cache (smsWebhook production t1 req1 c0) !!
                    optOutKey (withPlus (From req1)) = None).
  { clear -Hstart. revert Hstart. unfold smsWebhook.
    destruct (production && negb (signatureValid req1)); [discriminate|].
    destruct (negb (isTruthy (From req1)) || negb (isTruthy (Body req1))); [discriminate|].
    destruct (Cache.get t1 _ c0) as [seen c1].
    destruct (truthy seen); [discriminate|].
    destruct (Cache.set t1 _ (JBool true) 600 c1) as [c2|err]; [|discriminate].
    unfold dispatch.
    destruct (_ || _).
    { destruct (Cache.set t1 _ (JBool true) (86400 * 365) c2);
        [intros H; simpl in H; injection H as H; vm_compute in H; discriminate
        |discriminate]. }
    destruct (_ || _); [intros _; simpl; unfold Cache.del; apply lookup_delete_eq|].
    destruct (String.eqb _ "help");
      [intros H; simpl in H; injection H as H; vm_compute in H; discriminate|].
    destruct (Cache.get t1 _ c2) as [optedOut c3]. destruct (truthy optedOut); discriminate. }
  set (c := cache (smsWebhook production t1 req1 c0)) in *.
  unfold smsWebhook.
  assert (Hs : production && negb (signatureValid req2) = false).
  { destruct production; [rewrite Hsig by reflexivity|]; reflexivity. }
  rewrite Hs, Hfrom, Hbody. simpl.
  rewrite (cache_get_absent _ _ _ Hnew). simpl.
  unfold Cache.set at 1.
  destruct (Z.leb_spec Cache.maxKeys (Z.of_nat (size c))); [lia|].
  unfold dispatch. unfold isKeyword in Hkw.
  apply orb_false_elim in Hkw as [Hkw Hhelp].
  apply orb_false_elim in Hkw as [Hkw Hsub].
  apply orb_false_elim in Hkw as [Hkw Hst].
  rewrite Hkw. rewrite Hst, Hsub, Hhelp. simpl.
  rewrite cache_get_absent; [reflexivity|].
  rewrite lookup_insert_ne by (intros E; symmetry in E; revert E;
                                apply idempotencyKey_not_optOutKey).
  rewrite Hsame. exact Hgone.
Qed.

(** STOP, START a minute later, the question of [delivery] another
    minute later. *)
Lemma start_restores_processing_witness :
  effects (smsWebhook true 1700000120000 delivery
             (cache (smsWebhook true 1700000060000 startDelivery
                       (cache (smsWebhook true 1700000000000 stopDelivery ∅))))) =
    [ProcessMessage "+13125550100" "+13125550199" "cap rates in Dallas"].
Proof.
  apply (start_restores_processing true 1700000060000 1700000120000 startDelivery delivery
           (cache (smsWebhook true 1700000000000 stopDelivery ∅)));
    first [intros _; reflexivity | vm_compute; reflexivity].
Defined.

(** What a hand-over takes. A message reaches the processing pipeline
    only from a request whose signature was valid (in production), with a
    sender and a body, whose body is none of the keywords and whose sender
    has no live opt-out entry; the reply is then the empty acknowledgement
    and what is handed over is the normalized sender, the normalized
    recipient and the body as it came. *)
Theorem handover_requires production now req c :
  effects (smsWebhook production now req c) <> [] ->
  (production = true -> signatureValid req = true) /\
  isTruthy (From req) = true /\ isTruthy (Body req) = true /\
  isKeyword (default "" (Body req)) = false /\
  reply (smsWebhook production now req c) = EmptyTwiml /\
  effects (smsWebhook production now req c) =
    [ProcessMessage (withPlus (From req)) (withPlus (To req)) (default "" (Body req))] /\
  truthy (fst (Cache.get now (optOutKey (withPlus (From req)))
                 (cache (smsWebhook production now req c)))) = false.
Proof.
  unfold smsWebhook.
  destruct (production && negb (signatureValid req)) eqn:Hs; [simpl; congruence|].
  destruct (negb (isTruthy (From req)) || negb (isTruthy (Body req))) eqn:Hf;
    [simpl; congruence|].
  apply orb_false_elim in Hf as [Hfrom Hbody].
  apply negb_false_iff in Hfrom, Hbody.
  destruct (Cache.get now _ c) as [seen c1].
  destruct (truthy seen); [simpl; congruence|].
  destruct (Cache.set now _ (JBool true) 600 c1) as [c2|err]; [|simpl; congruence].
  unfold dispatch, isKeyword.
  destruct (String.eqb _ "stop" || String.eqb _ "unsubscribe") eqn:K1;
    [destruct (Cache.set _ _ _ _ _); simpl; congruence|].
  destruct (String.eqb _ "start" || String.eqb _ "subscribe") eqn:K2; [simpl; congruence|].
  destruct (String.eqb _ "help") eqn:K3; [simpl; congruence|].
  destruct (Cache.get now (optOutKey _) c2) as [optedOut c3] eqn:Eg.
  destruct (truthy optedOut) eqn:Ho; [simpl; congruence|].
  intros _. simpl. repeat split; auto.
  - intros ->. simpl in Hs. now apply negb_false_iff in Hs.
  - apply orb_false_elim in K2 as [-> ->]. reflexivity.
  - unfold Cache.get in *.
    destruct (c2 !! optOutKey (withPlus (From req))) as [e|] eqn:E.
    + destruct (negb (Cache.expires e =? 0)%Z && (Cache.expires e <? now)%Z) eqn:Ex;
        injection Eg as <- <-.
      * now rewrite lookup_delete_eq.
      * rewrite E, Ex. exact Ho.
    + injection Eg as <- <-. now rewrite E.
Qed.

Lemma handover_requires_witness :
  reply (smsWebhook true 1700000000000 delivery ∅) = EmptyTwiml /\
  effects (smsWebhook true 1700000000000 delivery ∅) =
    [ProcessMessage "+13125550100" "+13125550199" "cap rates in Dallas"].
Proof.
  destruct (handover_requires true 1700000000000 delivery ∅) as (_ & _ & _ & _ & Hr & He & _).
  - vm_compute. discriminate.
  - split; [exact Hr | exact He].
Defined.

End OptOutFacts.

(** ** The reasoning requests of a run *)

Module LoopInduction.
Import JsString Js Reasoning.

(** A property of the loop variables that the bookkeeping steps keep
    holds when the generic loop is left, whichever way. *)
Section Base.
Variable regexMatch : BaseAgent.pattern -> string -> option (list string).
Variable tools : list string.
Variable openai : nat -> request -> response.
Variable toolExecutor : nat -> string -> jsval -> completion jsval.
Variable userMessage : string.
Variable J : BaseAgent.loopState -> Prop.

Hypothesis J_log : forall st e,
  isReason e = false -> (forall name, succeeds name e = false) ->
  (forall name, e = EvFallbackFailed name ->
                BaseAgent.extractFallbackParameters regexMatch userMessage name = []) ->
  (forall name args err, e = EvExecute name args (Throw err) ->
                         exists n, toolExecutor n name args = Throw err) ->
  J st -> J (BaseAgent.logEvent e st).
Hypothesis J_failed : forall st name count, J st -> J (BaseAgent.markFailed name count st).
Hypothesis J_next : forall st, J st -> J (BaseAgent.nextIteration st).
Hypothesis J_success : forall st name args toolResult,
  name ∉ BaseAgent.successfulTools st ->
  J st -> J (BaseAgent.afterSuccess tools openai name args toolResult st).

Lemma base_forCalls_keeps calls : forall st,
  J st ->
  match BaseAgent.forCalls regexMatch tools openai toolExecutor userMessage calls st with
  | ForBreak st' | ForEnd st' | ForThrow st' _ | ForReturn st' _ => J st'
  end.
Proof.
  induction calls as [|fc rest IH]; intros st HJ; cbn [BaseAgent.forCalls]; [exact HJ|].
  case_bool_decide as Hin.
  { apply IH, J_log; auto; discriminate. }
  destruct (2 <=? default 0 (BaseAgent.failedAttempts st !! fc_name fc))%nat.
  { apply IH, J_log; auto; discriminate. }
  destruct (fc_arguments fc) as [args|].
  2:{ apply IH, J_failed, J_log; auto; discriminate. }
  destruct (objectKeysLength args) as [keys|e]; [|exact HJ].
  destruct (BaseAgent.resolveArguments regexMatch userMessage (fc_name fc) args keys)
    as [args'|] eqn:Er.
  2:{ apply IH, J_failed, J_log; auto; [|discriminate].
      intros name Hn. injection Hn as <-. unfold BaseAgent.resolveArguments in Er.
      destruct (keys =? 0)%nat; [|discriminate].
      destruct (BaseAgent.extractFallbackParameters _ _ _); [reflexivity | discriminate]. }
  destruct (toolExecutor _ (fc_name fc) args') as [toolResult|e] eqn:Ex.
  - apply J_success; auto.
  - apply IH, J_failed, J_log; auto; [discriminate|].
    intros name a err H. injection H as <- <- <-. eauto.
Qed.

Lemma base_whileLoop_keeps : forall fuel st exit,
  J st ->
  BaseAgent.whileLoop regexMatch tools openai toolExecutor userMessage fuel st = Some exit ->
  J (exitState exit).
Proof.
  induction fuel as [|fuel IH]; intros st exit HJ H; simpl in H; [discriminate|].
  destruct (BaseAgent.iterations st <? maxIterations)%nat.
  2:{ injection H as <-. exact HJ. }
  destruct (length _ =? 0)%nat.
  { injection H as <-. apply J_next, HJ. }
  pose proof (base_forCalls_keeps
                (functionCallsOf (BaseAgent.currentResponse (BaseAgent.nextIteration st)))
                _ (J_next _ HJ)) as Hfor.
  destruct (BaseAgent.forCalls _ _ _ _ _ _ _) as [st2|st2|st2 r|st2 e].
  - eapply IH; eauto.
  - injection H as <-. exact Hfor.
  - injection H as <-. exact Hfor.
  - injection H as <-. exact Hfor.
Qed.

Lemma base_process_keeps fuel r :
  J (BaseAgent.initialState tools openai) ->
  BaseAgent.process regexMatch tools openai toolExecutor userMessage fuel = Some r ->
  J (run_state r).
Proof.
  intros H0 H. unfold BaseAgent.process in H.
  destruct (BaseAgent.whileLoop _ _ _ _ _ _ _) as [exit|] eqn:E; [|discriminate].
  pose proof (base_whileLoop_keeps _ _ _ H0 E) as HJ.
  destruct exit; injection H as <-; exact HJ.
Qed.

End Base.

(** The same for [handleToolCalls] of the specialists. *)
Section Handler.
Variable pol : Specialist.policy.
Variable tools : list string.
Variable openai : nat -> request -> response.
Variable toolExecutor : nat -> string -> jsval -> completion jsval.
Variable J : Specialist.handlerState -> Prop.

Hypothesis J_log : forall st e,
  isReason e = false -> (forall name, succeeds name e = false) ->
  (forall name args err, e = EvExecute name args (Throw err) ->
                         exists n, toolExecutor n name args = Throw err) ->
  J st -> J (Specialist.logEvent e st).
Hypothesis J_next : forall st, J st -> J (Specialist.nextIteration st).
Hypothesis J_success : forall st name args toolResult,
  name ∉ Specialist.calledTools st ->
  J st -> J (Specialist.afterSuccess pol tools openai name args toolResult st).

Lemma handler_forCalls_keeps calls : forall st,
  J st ->
  match Specialist.forCalls pol tools openai toolExecutor calls st with
  | ForBreak st' | ForEnd st' | ForThrow st' _ | ForReturn st' _ => J st'
  end.
Proof.
  induction calls as [|fc rest IH]; intros st HJ; cbn [Specialist.forCalls]; [exact HJ|].
  case_bool_decide as Hin.
  { apply IH, J_log; auto; discriminate. }
  destruct (fc_arguments fc) as [args|]; [|exact HJ].
  destruct (toolExecutor _ (fc_name fc) args) as [toolResult|e] eqn:Ex.
  - apply J_success; auto.
  - apply J_log; auto.
    intros name a err H. injection H as <- <- <-. eauto.
Qed.

Lemma handler_whileLoop_keeps : forall fuel st exit,
  J st ->
  Specialist.whileLoop pol tools openai toolExecutor fuel st = Some exit ->
  J (exitState exit).
Proof.
  induction fuel as [|fuel IH]; intros st exit HJ H; simpl in H; [discriminate|].
  destruct (Specialist.iterations st <? maxIterations)%nat.
  2:{ injection H as <-. exact HJ. }
  destruct (length _ =? 0)%nat.
  { injection H as <-. apply J_next, HJ. }
  pose proof (handler_forCalls_keeps
                (functionCallsOf (Specialist.currentResponse (Specialist.nextIteration st)))
                _ (J_next _ HJ)) as Hfor.
  destruct (Specialist.forCalls _ _ _ _ _ _) as [st2|st2|st2 r|st2 e].
  - eapply IH; eauto.
  - destruct (Specialist.breaksWhenIdle pol); [injection H as <-; exact Hfor|].
    eapply IH; eauto.
  - injection H as <-. exact Hfor.
  - injection H as <-. exact Hfor.
Qed.

Lemma handler_process_keeps fuel r :
  J (Specialist.initialState tools openai) ->
  Specialist.process pol tools openai toolExecutor fuel = Some r ->
  J (run_state r).
Proof.
  intros H0 H. unfold Specialist.process in H.
  destruct (Specialist.whileLoop _ _ _ _ _ _) as [exit|] eqn:E; [|discriminate].
  pose proof (handler_whileLoop_keeps _ _ _ H0 E) as HJ.
  destruct exit; injection H as <-; exact HJ.
Qed.

End Handler.

End LoopInduction.

Module RequestFacts.
Import JsString Js Reasoning Requests TraceFacts.

Lemma offers_cons e tr :
  offers (e :: tr) = ((if offersTools e then 1 else 0) + offers tr)%nat.
Proof. unfold offers. simpl. destruct (offersTools e); reflexivity. Qed.

Lemma offersTools_isReason e : isReason e = false -> offersTools e = false.
Proof. destruct e; simpl; congruence. Qed.

Lemma resultsOf_skip e tr :
  (forall name, succeeds name e = false) -> resultsOf (e :: tr) = resultsOf tr.
Proof.
  intros H. destruct e as [| | | | |n a [res|err]]; try reflexivity.
  specialize (H n). simpl in H. now rewrite String.eqb_refl in H.
Qed.

Lemma carriesContext_skip e tr :
  isReason e = false -> carriesContext (e :: tr) <-> carriesContext tr.
Proof. destruct e; simpl; intros H; try discriminate; reflexivity. Qed.

Lemma length_resultsOf_cons e tr :
  isReason e = true -> length (resultsOf (e :: tr)) = length (resultsOf tr).
Proof. destruct e; simpl; intros H; try discriminate; reflexivity. Qed.

Lemma requestInv_initial primary req :
  req_toolResults req = [] -> requestInv primary ∅ [] [EvReason req].
Proof.
  intros Hreq. constructor; simpl; auto.
  - intros name H. unfold successes in H. simpl in H. lia.
  - unfold offers. simpl. destruct (req_tools req); simpl; lia.
  - intros _. unfold offers. simpl. destruct (req_tools req); simpl; lia.
  - unfold successes. simpl. now rewrite andb_false_r.
Qed.

Lemma requestInv_log primary done results trace e :
  isReason e = false -> (forall name, succeeds name e = false) ->
  requestInv primary done results trace -> requestInv primary done results (e :: trace).
Proof.
  intros Hr Hs [H1 H2 H3 H4 H5 H6 H7].
  pose proof (offersTools_isReason e Hr) as Ho.
  constructor.
  - intros name. rewrite successes_cons, Hs. apply H1.
  - now rewrite offers_cons, Ho.
  - intros Hd. rewrite offers_cons, Ho. now apply H3.
  - simpl. now rewrite Ho, H4.
  - now rewrite resultsOf_skip.
  - now apply carriesContext_skip.
  - rewrite reasonCalls_cons, Hr, resultsOf_skip by exact Hs. exact H7.
Qed.

(** The step after a tool returned, with the request built from the new
    set of names and the new results; [disable] is [shouldDisableTools]. *)
Lemma requestInv_success primary done results trace name args toolResult tools disable :
  name ∉ done ->
  (bool_decide (primary ∈ {[name]} ∪ done) = true -> disable = true) ->
  ((2 <= size ({[name]} ∪ done))%nat -> disable = true) ->
  requestInv primary done results trace ->
  requestInv primary ({[name]} ∪ done) (results ++ [(name, toolResult)])
    (EvReason {| req_toolResults := results ++ [(name, toolResult)];
                 req_finalInstruction := disable;
                 req_tools := if disable then None
                              else if (0 <? length tools)%nat then Some tools else None |}
     :: EvExecute name args (Normal toolResult) :: trace).
Proof.
  intros Hnot Hprimary Hsize [H1 H2 H3 H4 H5 H6 H7].
  set (req := {| req_toolResults := _ |}).
  assert (Hoff : disable = true -> offersTools (EvReason req) = false)
    by (intros ->; reflexivity).
  assert (Hsz : size ({[name]} ∪ done) = S (size done)).
  { rewrite size_union by set_solver. now rewrite size_singleton. }
  constructor.
  - intros n. rewrite !successes_cons. simpl.
    destruct (String.eqb_spec name n) as [->|Hne]; [set_solver|].
    intros H. apply elem_of_union_r, H1. lia.
  - rewrite !offers_cons. change (offersTools (EvExecute name args (Normal toolResult)))
      with false. cbv iota.
    destruct (decide (size done = 0)%nat) as [H0|H0].
    + apply size_empty_inv in H0. apply leibniz_equiv in H0. specialize (H3 H0).
      destruct (offersTools (EvReason req)); simpl; lia.
    + rewrite Hoff by (apply Hsize; lia). simpl. lia.
  - intros Hd. exfalso. assert (name ∈ ({[name]} ∪ done : gset string)) by set_solver.
    rewrite Hd in H. set_solver.
  - cbn [offeredAfterSuccess]. rewrite H4.
    change (offersTools (EvExecute name args (Normal toolResult))) with false.
    rewrite andb_false_l, !orb_false_r.
    destruct (bool_decide (primary ∈ {[name]} ∪ done)) eqn:Ep.
    { rewrite Hoff by (apply Hprimary; reflexivity). reflexivity. }
    apply bool_decide_eq_false in Ep.
    rewrite successes_cons. simpl.
    destruct (String.eqb_spec name primary) as [->|Hne]; [set_solver|].
    destruct (successes primary trace) eqn:Es; [simpl; apply andb_false_r|].
    exfalso. apply Ep, elem_of_union_r, H1. lia.
  - simpl. now rewrite H5.
  - simpl. split; [now rewrite H5 | exact H6].
  - rewrite reasonCalls_cons. simpl. rewrite reasonCalls_cons. simpl.
    rewrite length_app. simpl. lia.
Qed.

Section Runs.
Variable regexMatch : BaseAgent.pattern -> string -> option (list string).
Variable pol : Specialist.policy.
Variable tools : list string.
Variable openai : nat -> request -> response.
Variable toolExecutor : nat -> string -> jsval -> completion jsval.
Variable userMessage : string.

Lemma base_requestInv fuel r :
  BaseAgent.process regexMatch tools openai toolExecutor userMessage fuel = Some r ->
  requestInv "smart_data_query_sms" (BaseAgent.successfulTools (run_state r))
    (BaseAgent.allToolResults (run_state r)) (BaseAgent.trace (run_state r)).
Proof.
  apply (LoopInduction.base_process_keeps regexMatch tools openai toolExecutor userMessage
           (fun st => requestInv "smart_data_query_sms" (BaseAgent.successfulTools st)
                        (BaseAgent.allToolResults st) (BaseAgent.trace st))).
  - intros st e Hr Hs _ _. apply requestInv_log; assumption.
  - intros st name count H. exact H.
  - intros st H. exact H.
  - intros st name args toolResult Hnot H. unfold BaseAgent.afterSuccess. simpl.
    unfold BaseAgent.offeredTools.
    apply requestInv_success; auto.
    + intros ->. reflexivity.
    + intros Hsz.
      destruct (size ({[name]} ∪ BaseAgent.successfulTools st)) as [|[|n]]; [lia|lia|].
      now rewrite orb_true_r.
  - apply requestInv_initial. reflexivity.
Qed.

Lemma handler_requestInv fuel r :
  Specialist.process pol tools openai toolExecutor fuel = Some r ->
  requestInv (Specialist.primaryTool pol) (Specialist.calledTools (run_state r))
    (Specialist.allToolResults (run_state r)) (Specialist.trace (run_state r)).
Proof.
  apply (LoopInduction.handler_process_keeps pol tools openai toolExecutor
           (fun st => requestInv (Specialist.primaryTool pol) (Specialist.calledTools st)
                        (Specialist.allToolResults st) (Specialist.trace st))).
  - intros st e Hr Hs _. apply requestInv_log; assumption.
  - intros st H. exact H.
  - intros st name args toolResult Hnot H. unfold Specialist.afterSuccess. simpl.
    unfold Specialist.offeredTools.
    apply requestInv_success; auto.
    + intros ->. reflexivity.
    + intros Hsz.
      destruct (size ({[name]} ∪ Specialist.calledTools st)) as [|[|n]]; [lia|lia|].
      now rewrite orb_true_r.
  - apply requestInv_initial. reflexivity.
Qed.

End Runs.

(** In a run of any of the three loops the tool catalog goes out with at
    most two reasoning requests, the first one and the one after the
    first tool returned; and no request made after the primary data tool
    of the loop returned ([smart_data_query_sms] for the generic and the
    business loop, [smart_property_search_sms] for the real-estate loop)
    offers tools. *)
Theorem tool_catalog_is_withdrawn :
  (forall regexMatch tools openai toolExecutor userMessage k,
      exists r,
        BaseAgent.process regexMatch tools openai toolExecutor userMessage
          (S maxIterations + k) = Some r /\
        (offers (BaseAgent.trace (run_state r)) <= 2)%nat /\
        offeredAfterSuccess "smart_data_query_sms" (BaseAgent.trace (run_state r)) = false) /\
  (forall pol tools openai toolExecutor k,
      exists r,
        Specialist.process pol tools openai toolExecutor (S maxIterations + k) = Some r /\
        (offers (Specialist.trace (run_state r)) <= 2)%nat /\
        offeredAfterSuccess (Specialist.primaryTool pol) (Specialist.trace (run_state r))
          = false).
Proof.
  split.
  - intros regexMatch tools openai toolExecutor userMessage k.
    destruct (BaseAgentFacts.process_run regexMatch tools openai toolExecutor userMessage k)
      as (r & Hr & _).
    exists r. split; [exact Hr|].
    destruct (base_requestInv _ _ _ _ _ _ _ Hr). auto.
  - intros pol tools openai toolExecutor k.
    destruct (SpecialistFacts.handler_process_run pol tools openai toolExecutor k)
      as (r & Hr & _).
    exists r. split; [exact Hr|].
    destruct (handler_requestInv _ _ _ _ _ _ Hr). auto.
Qed.

(** The running context. In a run of any of the three loops every
    reasoning request carries the results of all the executions that had
    returned before it, oldest first; the results held at the end are those
    of the whole run; and there is one request at the start and one after
    every execution that returned, no more. *)
Theorem requests_carry_the_results :
  (forall regexMatch tools openai toolExecutor userMessage k,
      exists r,
        BaseAgent.process regexMatch tools openai toolExecutor userMessage
          (S maxIterations + k) = Some r /\
        carriesContext (BaseAgent.trace (run_state r)) /\
        BaseAgent.allToolResults (run_state r) = resultsOf (BaseAgent.trace (run_state r)) /\
        reasonCalls (BaseAgent.trace (run_state r)) =
          S (length (BaseAgent.allToolResults (run_state r)))) /\
  (forall pol tools openai toolExecutor k,
      exists r,
        Specialist.process pol tools openai toolExecutor (S maxIterations + k) = Some r /\
        carriesContext (Specialist.trace (run_state r)) /\
        Specialist.allToolResults (run_state r) =
          resultsOf (Specialist.trace (run_state r)) /\
        reasonCalls (Specialist.trace (run_state r)) =
          S (length (Specialist.allToolResults (run_state r)))).
Proof.
  split.
  - intros regexMatch tools openai toolExecutor userMessage k.
    destruct (BaseAgentFacts.process_run regexMatch tools openai toolExecutor userMessage k)
      as (r & Hr & _).
    exists r. split; [exact Hr|].
    destruct (base_requestInv _ _ _ _ _ _ _ Hr) as [_ _ _ _ H5 H6 H7].
    rewrite H5 at 2. auto.
  - intros pol tools openai toolExecutor k.
    destruct (SpecialistFacts.handler_process_run pol tools openai toolExecutor k)
      as (r & Hr & _).
    exists r. split; [exact Hr|].
    destruct (handler_requestInv _ _ _ _ _ _ Hr) as [_ _ _ _ H5 H6 H7].
    rewrite H5 at 2. auto.
Qed.

End RequestFacts.

(** ** Fallback parameters *)

Module FallbackFacts.
Import JsString Js Reasoning BaseAgent Fallback Scenarios.

(** For each tool the [switch] names, [extractFallbackParameters] returns
    an object with exactly one parameter, [query] or [address], whatever
    the message and whatever the patterns match. *)
Lemma named_tool_has_fallback regexMatch userMessage toolName :
  In toolName namedTools ->
  exists key text,
    extractFallbackParameters regexMatch userMessage toolName = [(key, JStr text)] /\
    (key = "query" \/ key = "address").
Proof.
  intros Hin. unfold namedTools in Hin. simpl in Hin.
  destruct Hin as [<-|[<-|[<-|[<-|[<-|[]]]]]]; unfold extractFallbackParameters; simpl.
  - unfold webSearchFallback. destruct (String.eqb _ ""); eauto.
  - unfold businessFallback. eauto.
  - unfold propertyFallback. destruct (firstAddress _ _ _); [eauto|].
    destruct (firstGroup _ _ _ _); [eauto|]. destruct (0 <? _)%nat; eauto.
  - unfold propertyFallback. destruct (firstAddress _ _ _); [eauto|].
    destruct (firstGroup _ _ _ _); [eauto|]. destruct (0 <? _)%nat; eauto.
  - unfold propertyFallback. destruct (firstAddress _ _ _); [eauto|].
    destruct (firstGroup _ _ _ _); [eauto|]. destruct (0 <? _)%nat; eauto.
Qed.

Lemma other_tool_fallback regexMatch userMessage toolName :
  ~ In toolName namedTools ->
  extractFallbackParameters regexMatch userMessage toolName =
    genericFallback userMessage.
Proof.
  intros Hnot. unfold extractFallbackParameters, namedTools in *. simpl in Hnot.
  destruct (String.eqb_spec toolName "web_search_sms"); [subst; tauto|].
  destruct (String.eqb_spec toolName "smart_data_query_sms"); [subst; tauto|].
  destruct (String.eqb_spec toolName "smart_property_search_sms"); [subst; tauto|].
  destruct (String.eqb_spec toolName "attom_property_search_sms"); [subst; tauto|].
  destruct (String.eqb_spec toolName "rentcast_property_search_sms"); [subst; tauto|].
  reflexivity.
Qed.

(** An invocation with empty arguments is only ever counted as a failure
    for a tool outside the five the fallback extraction knows by name, and
    only when the user's message has no word of more than three letters
    outside the stop list: for the named tools the extraction always
    finds a parameter and the tool is executed with it. *)
Theorem empty_arguments_fail_only_for_unnamed_tools :
  forall regexMatch tools openai toolExecutor userMessage k,
  exists r,
    BaseAgent.process regexMatch tools openai toolExecutor userMessage
      (S maxIterations + k) = Some r /\
    forall name,
      In (EvFallbackFailed name) (BaseAgent.trace (run_state r)) ->
      ~ In name namedTools /\ genericFallback userMessage = [].
Proof.
  intros regexMatch tools openai toolExecutor userMessage k.
  destruct (BaseAgentFacts.process_run regexMatch tools openai toolExecutor userMessage k)
    as (r & Hr & _).
  exists r. split; [exact Hr|].
  revert Hr.
  apply (LoopInduction.base_process_keeps regexMatch tools openai toolExecutor userMessage
           (fun st => forall name, In (EvFallbackFailed name) (BaseAgent.trace st) ->
                        ~ In name namedTools /\ genericFallback userMessage = [])).
  - intros st e _ _ Hfb _ HJ name [->|Hin]; [|now apply HJ].
    specialize (Hfb name eq_refl).
    assert (Hnot : ~ In name namedTools).
    { intros Hin. destruct (named_tool_has_fallback regexMatch userMessage name Hin)
        as (key & text & Hk & _). congruence. }
    split; [exact Hnot|]. now rewrite <- (other_tool_fallback regexMatch _ _ Hnot).
  - intros st name count HJ. exact HJ.
  - intros st HJ. exact HJ.
  - intros st name args toolResult _ HJ n [Hn|[Hn|Hin]]; [discriminate|discriminate|].
    now apply HJ.
  - intros name [Hn|[]]. discriminate.
Qed.

(** A message of one short word, and a tool the extraction does not
    know. *)
Lemma empty_arguments_fail_only_for_unnamed_tools_witness :
  exists r,
    BaseAgent.process noMatch [] emptyArgsModel okExecutor "hi" 11 = Some r /\
    In (EvFallbackFailed "lookup_sms") (BaseAgent.trace (run_state r)) /\
    ~ In "lookup_sms" namedTools /\ genericFallback "hi" = [].
Proof.
  destruct (empty_arguments_fail_only_for_unnamed_tools noMatch [] emptyArgsModel
              okExecutor "hi" 0) as (r & Hr & H).
  exists r. split; [exact Hr|].
  assert (Hin : In (EvFallbackFailed "lookup_sms") (BaseAgent.trace (run_state r))).
  { vm_compute in Hr. injection Hr as <-. simpl. auto. }
  split; [exact Hin | exact (H _ Hin)].
Defined.

End FallbackFacts.

(** ** The final text of the business specialist *)

Module BusinessFinalization.
Import JsString Js Reasoning Specialist Scenarios BusinessScenarios.

Lemma append_nonempty a b : a <> "" -> a +:+ b <> "".
Proof. destruct a; [congruence | simpl; discriminate]. Qed.

Lemma outcomeSummary_cases v :
  (exists text, outcomeSummary v = Normal (JStr text) /\ text <> "") \/
  (outcomeSummary v = Throw "TypeError" /\
   truthy (get v "tables") = true /\
   tableNames (get v "tables") = Throw "TypeError").
Proof.
  unfold outcomeSummary.
  destruct (truthy (get v "tables") && gtNum (get (get v "tables") "length") 0) eqn:E.
  - apply andb_true_iff in E as [Ht _].
    destruct (tableNames (get v "tables")) as [names|e] eqn:En.
    + left. eexists. split; [reflexivity|]. simpl. discriminate.
    + right. assert (e = "TypeError") as ->.
      { unfold tableNames in En. destruct (get v "tables"); try congruence.
        destruct (existsb isNullish items); congruence. }
      auto.
  - left. eexists. split; [reflexivity|]. simpl. discriminate.
Qed.



End BusinessFinalization.

(** ** The processing pipeline *)

Module ProcessorFacts.
Import JsString Js JsObject Reasoning Routing Sms SmsSend ConversationMemory Processor.
Import SmsFacts ChunkerFacts SmsSendFacts CacheFacts ObjectFacts MemoryFacts.
Import Scenarios PipelineScenarios.

Lemma outboundBodies_app a b :
  outboundBodies (a ++ b) = outboundBodies a ++ outboundBodies b.
Proof. unfold outboundBodies, createdBodies. now rewrite !omap_app. Qed.

Lemma outboundBodies_sms events :
  outboundBodies (List.map Outbound events) = createdBodies events.
Proof.
  unfold outboundBodies. f_equal.
  induction events as [|e events IH]; [reflexivity|]. cbn. f_equal. exact IH.
Qed.

Lemma onMemory_inv {A} (f : store -> completion A * store) s :
  onMemory f s = Some (fst (f (memory s)), {| memory := snd (f (memory s)); log := log s |}).
Proof. unfold onMemory. destruct (f (memory s)); reflexivity. Qed.

Section Runs.
Variable lookupUserByPhone : string -> completion jsval.
Variable classifier : list jsval -> jsval -> completion response.
Variable specialists : agent -> list jsval -> jsval -> completion jsval.
Variable twilioClient : option (nat -> nat -> string -> completion unit).
Variable now : nat -> Z.
Variable iso : nat -> string.

Local Abbreviation send := (Processor.send twilioClient).
Local Abbreviation identify := (Processor.identify lookupUserByPhone now iso).
Local Abbreviation attempt :=
  (Processor.attempt lookupUserByPhone classifier specialists twilioClient now iso).
Local Abbreviation process :=
  (Processor.process lookupUserByPhone classifier specialists twilioClient now iso).

(** [sendSMS] leaves the memory alone and adds what it did to the log. *)
Lemma send_inv call to message fromNumber s :
  exists r events,
    send call to message fromNumber s =
      Some (r, {| memory := memory s; log := log s ++ List.map Outbound events |}) /\
    sendSMS (option_map (fun create => create call) twilioClient) to message fromNumber
      = Some (r, events).
Proof.
  unfold Processor.send.
  destruct (sendSMS_returns
              (option_map (fun create => create call) twilioClient) to message fromNumber)
    as (r & events & ->).
  eauto.
Qed.

(** The identification step never raises, logs nothing, and touches the
    user-context entry of the sender only. *)
Lemma identify_inv fromNumber s :
  exists userContext data,
    identify fromNumber s = Some (Normal userContext, {| memory := data; log := log s |}) /\
    forall k, k <> contextKey fromNumber -> data !! k = memory s !! k.
Proof.
  unfold Processor.identify, bind. rewrite onMemory_inv.
  pose proof (cache_get_other (now 1) (contextKey fromNumber) (memory s)) as Hframe.
  unfold getUserContext.
  destruct (Cache.get (now 1) (contextKey fromNumber) (memory s)) as [v data1].
  simpl in *.
  destruct (truthy (orElse v JNull)); [unfold ret; eauto|].
  destruct (lookupUserByPhone fromNumber) as [user|e]; [|unfold ret; eauto].
  destruct (truthy user); [|unfold ret; eauto].
  simpl. unfold setUserContext.
  destruct (Cache.set _ _ _ _ _) as [data2|e] eqn:Es; [|eauto].
  apply cache_set_normal in Es. eexists _, _. split; [reflexivity|].
  intros k Hk. rewrite Es, lookup_insert_ne by congruence. now apply Hframe.
Qed.

(** What the specialist is asked: the last five turns of the history
    read after the incoming message was stored, and the incoming message
    once more. *)
Lemma attempt_asked fromNumber toNumber messageBody fromPhoneNumber s0 r s1 :
  attempt fromNumber toNumber messageBody fromPhoneNumber s0 = Some (r, s1) ->
  log s0 = [] ->
  forall selected messages userContext,
    In (Asked selected messages userContext) (log s1) ->
    exists data1 data2 history turns,
      addMessage (now 0) (iso 0) fromNumber "user" (JStr messageBody) [] (memory s0)
        = (Normal tt, data1) /\
      (forall k, k <> contextKey fromNumber -> data2 !! k = data1 !! k) /\
      fst (getConversationHistory (now 3) fromNumber 10 data2) = Normal (JArr history) /\
      projectAll (slice (-5) history) = Normal turns /\
      messages = turns ++ [userTurn messageBody].
Proof.
  intros Hrun Hlog selected messages userContext Hin.
  unfold Processor.attempt, bind in Hrun.
  rewrite onMemory_inv in Hrun.
  destruct (addMessage (now 0) (iso 0) fromNumber "user" (JStr messageBody) [] (memory s0))
    as [[[]|e] data1] eqn:Hadd; simpl in Hrun.
  2:{ injection Hrun as <- <-. simpl in Hin. rewrite Hlog in Hin. contradiction. }
  destruct (identify_inv fromNumber
              {| memory := data1; log := log s0 |}) as (ctx & data2 & Hid & Hframe).
  rewrite Hid in Hrun. simpl in Hframe. rewrite onMemory_inv in Hrun. simpl in Hrun.
  destruct (getConversationHistory (now 3) fromNumber 10 data2) as [[hist|e] data3] eqn:Hh;
    simpl in Hrun.
  2:{ injection Hrun as <- <-. simpl in Hin. rewrite Hlog in Hin. contradiction. }
  destruct (send_inv 0 fromNumber (JStr (generateInterimMessage messageBody))
              fromPhoneNumber {| memory := data3; log := log s0 |})
    as (r0 & ev0 & Hs0 & _).
  rewrite Hs0 in Hrun. simpl in Hrun. rewrite Hlog in Hrun. simpl in Hrun.
  assert (Hno : forall evs, ~ In (Asked selected messages userContext) (List.map Outbound evs)).
  { intros evs (x & Hx & _)%in_map_iff. discriminate. }
  destruct r0 as [[]|e].
  2:{ injection Hrun as <- <-. simpl in Hin. now apply Hno in Hin. }
  unfold emit, lift in Hrun. simpl in Hrun.
  destruct (match classifier [userTurn messageBody] ctx with
            | Normal r => routerContent r
            | Throw e => Throw e
            end) as [content|e].
  2:{ injection Hrun as <- <-. simpl in Hin. apply in_app_iff in Hin as [Hin|[Hin|[]]];
      [now apply Hno in Hin | discriminate]. }
  destruct (recentTurns hist) as [turns|e] eqn:Ht.
  2:{ injection Hrun as <- <-. simpl in Hin. apply in_app_iff in Hin as [Hin|[Hin|[]]];
      [now apply Hno in Hin | discriminate]. }
  assert (Hmsgs : forall tail,
            (forall x, In x tail -> exists o, x = Outbound o) ->
            In (Asked selected messages userContext)
              (((List.map Outbound ev0 ++ [Routed [userTurn messageBody] ctx]) ++
                [Asked (selectedAgent content) (turns ++ [userTurn messageBody]) ctx]) ++ tail) ->
            messages = turns ++ [userTurn messageBody]).
  { intros tail Htail H.
    apply in_app_iff in H as [H|H].
    - apply in_app_iff in H as [H|[H|[]]].
      + apply in_app_iff in H as [H|[H|[]]]; [now apply Hno in H | discriminate].
      + now injection H.
    - apply Htail in H as (o & H). discriminate. }
  assert (Hgoal : messages = turns ++ [userTurn messageBody] ->
            exists data1' data2' history turns',
              (Normal tt, data1) = (Normal tt, data1') /\
              (forall k, k <> contextKey fromNumber -> data2' !! k = data1' !! k) /\
              fst (getConversationHistory (now 3) fromNumber 10 data2') = Normal (JArr history) /\
              projectAll (slice (-5) history) = Normal turns' /\
              messages = turns' ++ [userTurn messageBody]).
  { intros ->. unfold recentTurns in Ht. destruct hist; try discriminate.
    exists data1, data2, items, turns. rewrite Hh. auto. }
  apply Hgoal.
  destruct (specialists (selectedAgent content) (turns ++ [userTurn messageBody]) ctx)
    as [finalResponse|e].
  2:{ injection Hrun as <- <-. simpl in Hin. apply (Hmsgs []); [intros x []|].
      now rewrite app_nil_r. }
  rewrite onMemory_inv in Hrun. simpl in Hrun.
  destruct (addMessage (now 4) _ _ _ _ _ _) as [[[]|e] data4]; simpl in Hrun.
  2:{ injection Hrun as <- <-. simpl in Hin. apply (Hmsgs []); [intros x []|].
      now rewrite app_nil_r. }
  match type of Hrun with
  | Processor.send _ _ _ ?m _ ?s = _ =>
    destruct (send_inv 1 fromNumber m fromPhoneNumber s) as (r1 & ev1 & Hs1 & _)
  end.
  rewrite Hs1 in Hrun. injection Hrun as <- <-. simpl in Hin.
  apply (Hmsgs (List.map Outbound ev1)); [|exact Hin].
  intros x (o & <- & _)%in_map_iff. eauto.
Qed.

Lemma projectAll_last messages : forall turns msg,
  projectAll messages = Normal turns -> last messages = Some msg ->
  exists p, projectMessage msg = Normal p /\ last turns = Some p.
Proof.
  induction messages as [|m rest IH]; intros turns msg Hp Hl; [discriminate|].
  simpl in Hp. destruct (projectMessage m) as [p|e] eqn:Em; [|discriminate].
  destruct (projectAll rest) as [ps|e] eqn:Er; [|discriminate].
  injection Hp as <-. destruct rest as [|m' rest'].
  - simpl in Hl. injection Hl as <-. simpl in Er. injection Er as <-. eauto.
  - destruct (IH ps msg eq_refl) as (q & Hq & Hlast); [exact Hl|].
    exists q. split; [exact Hq|]. destruct ps; [discriminate | exact Hlast].
Qed.

Lemma slice_last_5 {A} (xs : list A) : slice (-5) xs = drop (length xs - 5) xs.
Proof. exact (slice_last_n 5 xs ltac:(lia)). Qed.

Lemma slice_last_10 {A} (xs : list A) : slice (- 10) xs = drop (length xs - 10) xs.
Proof. exact (slice_last_n 10 xs ltac:(lia)). Qed.

Lemma last_nonempty {A} (xs : list A) x : last xs = Some x -> (0 < length xs)%nat.
Proof. destruct xs; [discriminate | simpl; lia]. Qed.

Lemma attempt_asked_twice
  fromNumber toNumber messageBody fromPhoneNumber data r s1 selected messages userContext :
  attempt fromNumber toNumber messageBody fromPhoneNumber {| memory := data; log := [] |}
    = Some (r, s1) ->
  (now 0 <= now 3 <= now 0 + 7200000)%Z ->
  In (Asked selected messages userContext) (log s1) ->
  exists earlier,
    messages = earlier ++ [userTurn messageBody; userTurn messageBody].
Proof.
  intros Ha Hclock Hin.
  destruct (attempt_asked _ _ _ _ _ _ _ Ha eq_refl _ _ _ Hin)
    as (data1 & data2 & history & turns & Hadd & Hframe & Hh & Hp & ->).
  simpl in Hadd.
  assert (exists earlier, turns = earlier ++ [userTurn messageBody]) as (earlier & ->).
  2:{ exists earlier. now rewrite <- app_assoc. }
  destruct (addMessage_normal _ _ _ _ _ _ _ _ Hadd) as (old & _ & Hk).
  rewrite <- Hframe in Hk by (intros E; symmetry in E; revert E;
                                 apply contextKey_not_conversationKey).
  unfold getConversationHistory in Hh.
  erewrite cache_get_live in Hh by (try exact Hk; simpl; lia).
  simpl in Hh. injection Hh as <-.
  pose proof (capped_last old (newMessage (iso 0) "user" (JStr messageBody) [])) as Hlast.
  set (xs := capped _) in *.
  pose proof (last_nonempty _ _ Hlast) as Hne.
  assert (Hl10 : last (slice (- 10) xs) =
                 Some (newMessage (iso 0) "user" (JStr messageBody) [])).
  { rewrite slice_last_10, last_drop_lt by lia. exact Hlast. }
  pose proof (last_nonempty _ _ Hl10) as Hne10.
  assert (Hl5 : last (slice (-5) (slice (- 10) xs)) =
                Some (newMessage (iso 0) "user" (JStr messageBody) [])).
  { rewrite slice_last_5, last_drop_lt by lia. exact Hl10. }
  destruct (projectAll_last _ _ _ Hp Hl5) as (p & Hproj & Hlt).
  simpl in Hproj. injection Hproj as <-.
  destruct (last_Some turns (userTurn messageBody)) as [(earlier & ->) _]; [exact Hlt|].
  eauto.
Qed.

(** The specialist reads the incoming message twice. The message is
    stored before the history is read, so the last of the recent turns
    handed to the specialist is already the incoming message, and the
    pipeline appends it once more. (The history is read within two hours
    of the store.) *)
Theorem specialist_sees_the_message_twice
  fromNumber toNumber messageBody fromPhoneNumber data r s' selected messages userContext :
  process fromNumber toNumber messageBody fromPhoneNumber {| memory := data; log := [] |}
    = Some (r, s') ->
  (now 0 <= now 3 <= now 0 + 7200000)%Z ->
  In (Asked selected messages userContext) (log s') ->
  exists earlier,
    messages = earlier ++ [userTurn messageBody; userTurn messageBody].
Proof.
  intros Hrun Hclock Hin. unfold Processor.process, tryCatch in Hrun.
  destruct (attempt fromNumber toNumber messageBody fromPhoneNumber
              {| memory := data; log := [] |}) as [[[[]|e] s1]|] eqn:Ha; [| |discriminate].
  - injection Hrun as <- <-. eapply attempt_asked_twice; eauto.
  - destruct (send_inv 2 fromNumber (JStr errorText) fromPhoneNumber s1)
      as (r2 & ev2 & Hs2 & _).
    rewrite Hs2 in Hrun. injection Hrun as <- <-. simpl in Hin.
    apply in_app_iff in Hin as [Hin|(x & Hx & _)%in_map_iff]; [|discriminate].
    eapply attempt_asked_twice; eauto.
Qed.

End Runs.

Lemma interim_is_short messageBody :
  strim (generateInterimMessage messageBody) <> "" /\
  (length (list_ascii_of_string (generateInterimMessage messageBody)) <= defaultMaxLength)%nat.
Proof.
  unfold generateInterimMessage.
  repeat match goal with |- context [if ?b then _ else _] => destruct b end;
    vm_compute; (split; [discriminate | lia]).
Qed.

Section Working.
Variable lookupUserByPhone : string -> completion jsval.
Variable classifier : list jsval -> jsval -> completion response.
Variable specialists : agent -> list jsval -> jsval -> completion jsval.
Variable create : nat -> nat -> string -> completion unit.
Variable now : nat -> Z.
Variable iso : nat -> string.
Hypothesis working : forall call i body, create call i body = Normal tt.

Local Abbreviation send := (Processor.send (Some create)).
Local Abbreviation attempt :=
  (Processor.attempt lookupUserByPhone classifier specialists (Some create) now iso).
Local Abbreviation process :=
  (Processor.process lookupUserByPhone classifier specialists (Some create) now iso).

(** A short text goes out as one message. *)
Lemma send_short call to text fromNumber s :
  strim text <> "" ->
  (length (list_ascii_of_string text) <= defaultMaxLength)%nat ->
  send call to (JStr text) fromNumber s =
    Some (Normal tt, {| memory := memory s;
                        log := log s ++ [Outbound (Created text fromNumber to)] |}).
Proof.
  intros Hne Hlen. unfold Processor.send, sendSMS. simpl option_map. cbv iota.
  unfold effectiveMessage.
  assert (Ht : truthy (JStr text) = true).
  { simpl. destruct (String.eqb_spec text ""); [subst; now contradiction Hne | reflexivity]. }
  rewrite Ht. destruct (String.eqb_spec (strim text) ""); [contradiction|].
  unfold chunkMessage. destruct (Nat.leb_spec (length (list_ascii_of_string text)) defaultMaxLength);
    [|lia].
  simpl. rewrite string_of_list_ascii_of_string, working. reflexivity.
Qed.

Lemma sendChunks_working to fromNumber call chunks : forall i,
  exists events,
    sendChunks (create call) to fromNumber i chunks = (Normal tt, events) /\
    createdBodies events = chunks.
Proof.
  induction chunks as [|body rest IH]; intros i; simpl; [eauto|].
  rewrite working. destruct (IH (S i)) as (events & -> & Hb).
  eexists. split; [reflexivity|].
  destruct rest; simpl; unfold createdBodies in *; simpl; now rewrite Hb.
Qed.

(** The reply of the specialist goes out chunk by chunk, or [sendSMS]
    raises before anything is sent. *)
Lemma send_reply call to message fromNumber s :
  (exists e,
     send call to message fromNumber s =
       Some (Throw e, {| memory := memory s; log := log s ++ [] |})) \/
  (exists text chunks events,
     effectiveMessage message = Normal text /\
     chunkMessage (list_ascii_of_string text) defaultMaxLength = Some chunks /\
     createdBodies events = List.map string_of_list_ascii chunks /\
     send call to message fromNumber s =
       Some (Normal tt, {| memory := memory s; log := log s ++ List.map Outbound events |})).
Proof.
  unfold Processor.send, sendSMS. simpl option_map. cbv iota.
  destruct (effectiveMessage message) as [text|e] eqn:Em; [right | left; eauto].
  destruct (chunkMessage_returns (list_ascii_of_string text)) as (chunks & Hc).
  rewrite Hc.
  destruct (sendChunks_working to fromNumber call (List.map string_of_list_ascii chunks) 0)
    as (events & -> & Hb).
  exists text, chunks, events. auto.
Qed.

Lemma send_error fromNumber fromPhoneNumber s :
  send 2 fromNumber (JStr errorText) fromPhoneNumber s =
    Some (Normal tt, {| memory := memory s;
                        log := log s ++ [Outbound (Created errorText fromPhoneNumber fromNumber)] |}).
Proof. apply send_short; vm_compute; [discriminate | lia]. Qed.

(** Every message that reaches the pipeline is answered. With a provider
    that accepts what it is given, [process] returns, whatever the lookup,
    the classifier and the specialists do and whatever the cache holds,
    and what went out is one of three things: the error text alone (the
    incoming message could not be stored or the history not read); the
    interim message and the error text (routing, the specialist, storing
    the reply or sending it raised); or the interim message and the chunks
    of the reply of the specialist that was asked, the reply being stored
    as the newest turn of the conversation. *)
Theorem every_message_is_answered fromNumber toNumber messageBody fromPhoneNumber data :
  exists s',
    process fromNumber toNumber messageBody fromPhoneNumber {| memory := data; log := [] |}
      = Some (Normal tt, s') /\
    (outboundBodies (log s') = [errorText] \/
     outboundBodies (log s') = [generateInterimMessage messageBody; errorText] \/
     exists selected messages userContext reply text chunks turns,
       In (Asked selected messages userContext) (log s') /\
       specialists selected messages userContext = Normal reply /\
       effectiveMessage reply = Normal text /\
       chunkMessage (list_ascii_of_string text) defaultMaxLength = Some chunks /\
       outboundBodies (log s') =
         generateInterimMessage messageBody :: List.map string_of_list_ascii chunks /\
       stored (now 4) fromNumber (memory s') = JArr turns /\
       exists metadata,
         last turns = Some (newMessage (iso 4) "assistant" reply metadata)).
Proof.
  pose proof (interim_is_short messageBody) as [Hi1 Hi2].
  unfold Processor.process, tryCatch, Processor.attempt, bind.
  rewrite onMemory_inv. simpl.
  destruct (addMessage (now 0) (iso 0) fromNumber "user" (JStr messageBody) [] data)
    as [[[]|e] data1]; simpl.
  2:{ rewrite send_error. eexists. split; [reflexivity|]. left. reflexivity. }
  destruct (identify_inv lookupUserByPhone now iso fromNumber
              {| memory := data1; log := [] |}) as (ctx & data2 & Hid & _).
  rewrite Hid. rewrite onMemory_inv. simpl.
  destruct (getConversationHistory (now 3) fromNumber 10 data2) as [[hist|e] data3]; simpl.
  2:{ rewrite send_error. eexists. split; [reflexivity|]. left. reflexivity. }
  rewrite send_short by assumption. unfold emit, lift. simpl.
  destruct (match classifier [userTurn messageBody] ctx with
            | Normal r => routerContent r
            | Throw e => Throw e
            end) as [content|e].
  2:{ rewrite send_error. eexists. split; [reflexivity|]. right. left. reflexivity. }
  destruct (recentTurns hist) as [turns|e].
  2:{ rewrite send_error. eexists. split; [reflexivity|]. right. left. reflexivity. }
  destruct (specialists (selectedAgent content) (turns ++ [userTurn messageBody]) ctx)
    as [reply|e] eqn:Hsp.
  2:{ rewrite send_error. eexists. split; [reflexivity|]. right. left. reflexivity. }
  rewrite onMemory_inv. simpl.
  destruct (addMessage (now 4) (iso 4) fromNumber "assistant" reply _ data3)
    as [[[]|e] data4] eqn:Hadd; simpl.
  2:{ rewrite send_error. eexists. split; [reflexivity|]. right. left. reflexivity. }
  match goal with
  | |- context [Processor.send _ 1 _ _ _ ?s] =>
    destruct (send_reply 1 fromNumber reply fromPhoneNumber s)
      as [(e & ->)|(text & chunks & events & Hem & Hc & Hb & ->)]
  end.
  { rewrite send_error. eexists. split; [reflexivity|]. right. left. reflexivity. }
  eexists. split; [reflexivity|]. right. right.
  destruct (addMessage_normal _ _ _ _ _ _ _ _ Hadd) as (old & _ & Hk).
  eexists _, _, _, reply, text, chunks, _. simpl.
  split; [|split; [exact Hsp|split; [exact Hem|split; [exact Hc|split; [|split]]]]].
  - simpl. right. right. left. reflexivity.
  - change (outboundBodies
              ([Outbound (Created (generateInterimMessage messageBody) fromPhoneNumber
                            fromNumber);
                Routed [userTurn messageBody] ctx;
                Asked (selectedAgent content) (turns ++ [userTurn messageBody]) ctx] ++
               List.map Outbound events) =
            generateInterimMessage messageBody :: List.map string_of_list_ascii chunks).
    rewrite outboundBodies_app, outboundBodies_sms, Hb. reflexivity.
  - unfold stored. erewrite cache_get_live by (try exact Hk; simpl; lia). reflexivity.
  - eexists. apply capped_last.
Qed.

End Working.

(** A question about one's own revenue, an unknown sender, an empty
    cache: the business specialist is asked with the question twice. *)
Lemma specialist_sees_the_message_twice_witness :
  exists earlier,
    [userTurn "my revenue"; userTurn "my revenue"] =
      earlier ++ [userTurn "my revenue"; userTurn "my revenue"].
Proof.
  eapply (specialist_sees_the_message_twice unknownUser businessClassifier briefSpecialists
            (Some workingClient) stillClock stillIso "+13125550100" "+13125550199"
            "my revenue" "+13125550199" ∅ _ _ BusinessA _ JNull).
  - vm_compute. reflexivity.
  - vm_compute. split; discriminate.
  - simpl. right. right. left. reflexivity.
Defined.

Lemma every_message_is_answered_witness :
  exists s',
    Processor.process unknownUser businessClassifier brokenSpecialists (Some workingClient)
      stillClock stillIso "+13125550100" "+13125550199" "my revenue" "+13125550199"
      {| memory := ∅; log := [] |} = Some (Normal tt, s') /\
    outboundBodies (log s') = [workspaceInterim; errorText].
Proof.
  destruct (every_message_is_answered unknownUser businessClassifier brokenSpecialists
              workingClient stillClock stillIso (fun _ _ _ => eq_refl)
              "+13125550100" "+13125550199" "my revenue" "+13125550199" ∅)
    as (s' & Hrun & _).
  exists s'. split; [exact Hrun|].
  vm_compute in Hrun. injection Hrun as <-. vm_compute. reflexivity.
Defined.

End ProcessorFacts.

(** ** The tool executor *)

Module ExecutorFacts.
Import JsString Js Reasoning Executor Scenarios ExecutorScenarios.

Lemma orError_returns text body : exists result, orError text body = Normal result.
Proof. destruct body; simpl; eauto. Qed.

Lemma execute_returns c toolName parameters userContext :
  exists result, execute c toolName parameters userContext = Normal result.
Proof.
  unfold execute.
  repeat match goal with
         | |- context [if String.eqb toolName ?s then _ else _] =>
           destruct (String.eqb toolName s)
         end;
    unfold handleUserLookup, handleSmartDataQuery, handleGetUserOutcomes,
      handleGetDataTables, handleGetTableData, handleGetChatHistory,
      handleAttomPropertyDetail, handleAttomAssessment, handleAttomAVM,
      handleAttomSalesHistory, handleAttomMarketTrends, handleSmartPropertySearch,
      handleRentcastPropertyDetails, handleRentcastRentEstimate, handleWebSearch;
    try destruct (truthy userContext);
    eauto using orError_returns.
Qed.

Section Loops.
Variable clientsAt : nat -> clients.
Variable userContext : jsval.

Local Abbreviation toolExecutor := (Executor.toolExecutor clientsAt userContext).

Lemma toolExecutor_never_throws n toolName args err :
  toolExecutor n toolName args <> Throw err.
Proof.
  unfold Executor.toolExecutor.
  destruct (execute_returns (clientsAt n) toolName args userContext) as (result & ->).
  discriminate.
Qed.

Lemma base_no_throw regexMatch tools openai userMessage fuel r :
  BaseAgent.process regexMatch tools openai toolExecutor userMessage fuel = Some r ->
  existsb threw (BaseAgent.trace (run_state r)) = false.
Proof.
  apply (LoopInduction.base_process_keeps regexMatch tools openai toolExecutor userMessage
           (fun st => existsb threw (BaseAgent.trace st) = false)).
  - intros st e _ _ _ Hex HJ. simpl. rewrite HJ, orb_false_r.
    destruct e as [| | | | |name args [result|err]]; try reflexivity.
    destruct (Hex name args err eq_refl) as (n & Hn).
    now apply toolExecutor_never_throws in Hn.
  - intros st name count HJ. exact HJ.
  - intros st HJ. exact HJ.
  - intros st name args toolResult _ HJ. simpl. exact HJ.
  - reflexivity.
Qed.

Lemma handler_no_throw pol tools openai fuel r :
  Specialist.process pol tools openai toolExecutor fuel = Some r ->
  existsb threw (Specialist.trace (run_state r)) = false.
Proof.
  apply (LoopInduction.handler_process_keeps pol tools openai toolExecutor
           (fun st => existsb threw (Specialist.trace st) = false)).
  - intros st e _ _ Hex HJ. simpl. rewrite HJ, orb_false_r.
    destruct e as [| | | | |name args [result|err]]; try reflexivity.
    destruct (Hex name args err eq_refl) as (n & Hn).
    now apply toolExecutor_never_throws in Hn.
  - intros st HJ. exact HJ.
  - intros st name args toolResult _ HJ. simpl. exact HJ.
  - reflexivity.
Qed.

End Loops.


(** Without a user context the five workspace tools answer with an error
    object and reach no client: the answer is the same whatever the
    clients are. The same holds for a web search without a query, which
    asks for input. *)
Theorem guarded_tools_reach_no_client c c' toolName parameters userContext :
  (In toolName workspaceTools -> truthy userContext = false ->
   execute c toolName parameters userContext = execute c' toolName parameters userContext /\
   exists text, execute c toolName parameters userContext = Normal (errorOnly text)) /\
  (isNullish parameters = false -> truthy (get parameters "query") = false ->
   execute c "web_search_sms" parameters userContext = Normal needsQuery).
Proof.
  split.
  - intros Hin Hctx. unfold workspaceTools in Hin. simpl in Hin.
    destruct Hin as [<-|[<-|[<-|[<-|[<-|[]]]]]]; unfold execute; simpl;
      unfold handleSmartDataQuery, handleGetUserOutcomes, handleGetDataTables,
        handleGetTableData, handleGetChatHistory; rewrite Hctx; eauto.
  - intros Hp Hq. unfold execute. simpl. unfold handleWebSearch, prop.
    rewrite Hp. simpl. now rewrite Hq.
Qed.

Lemma guarded_tools_reach_no_client_witness :
  execute clientsUp "get_table_data_sms" (JObj [("tableId", JStr "t1")]) JNull =
    execute clientsDown "get_table_data_sms" (JObj [("tableId", JStr "t1")]) JNull /\
  execute clientsUp "web_search_sms" (JObj []) JNull = Normal needsQuery.
Proof.
  destruct (guarded_tools_reach_no_client clientsUp clientsDown "get_table_data_sms"
              (JObj [("tableId", JStr "t1")]) JNull) as [H1 _].
  destruct (guarded_tools_reach_no_client clientsUp clientsDown "get_table_data_sms"
              (JObj []) JNull) as [_ H2].
  split.
  - apply H1; [simpl; auto 6 | reflexivity].
  - apply H2; reflexivity.
Defined.

(** What the user is told when a tool failed and the model adds no
    text. A handler whose client raised returns an object with nothing
    but [error]; the loops take it for a result, and the final-text steps
    present it as data that was found: the generic specialist with its
    'be more specific' sentence, the business specialist with its
    sentence about retrieved data, the real-estate specialist with the
    serialized object. Only an unknown tool, whose object has a
    [message], is reported as not available. *)
Theorem tool_errors_are_presented_as_data (r : response) (text toolName : string) :
  extractText r = "" ->
  BaseAgent.finalize r (errorOnly text) = JStr BaseAgent.beMoreSpecific /\
  Specialist.businessFinalize r (errorOnly text) = Normal (JStr Specialist.businessGeneric) /\
  Specialist.realEstateFinalize r (errorOnly text) =
    JStr (Specialist.realEstateDetails +:+ stringify (errorOnly text)) /\
  BaseAgent.finalize r (unknownTool toolName) =
    JStr "The requested tool is not available.".
Proof.
  intros Ht. unfold BaseAgent.finalize, Specialist.businessFinalize,
    Specialist.realEstateFinalize. rewrite Ht. repeat split.
Qed.

Lemma tool_errors_are_presented_as_data_witness :
  execute clientsDown "attom_avm_sms" (JObj [("address", JStr "123 Main St")]) JNull =
    Normal (errorOnly "Failed to get property valuation") /\
  BaseAgent.finalize noTextResponse (errorOnly "Failed to get property valuation") =
    JStr BaseAgent.beMoreSpecific.
Proof.
  split; [reflexivity|].
  apply (tool_errors_are_presented_as_data noTextResponse "Failed to get property valuation"
           "attom_avm_sms").
  reflexivity.
Defined.

End ExecutorFacts.

(** ** The router's reply *)

Module RouterFacts.
Import JsString Js Reasoning Routing ChunkerFacts RoutingFacts.

Lemma strim_idempotent s : strim (strim s) = strim s.
Proof. unfold strim. now rewrite list_ascii_of_string_of_list_ascii, trim_idempotent. Qed.

Lemma scanContent_trimmed parts t :
  scanContent parts = Normal (Some t) -> strim t = t.
Proof.
  induction parts as [|[p|] parts IH]; simpl; try discriminate.
  destruct (_ && _); [|exact IH].
  intros H. injection H as <-. apply strim_idempotent.
Qed.

Lemma scanOutput_trimmed items t : scanOutput items = Normal t -> strim t = t.
Proof.
  induction items as [|item items IH]; simpl.
  - intros H. injection H as <-. reflexivity.
  - destruct item as [name args|role [content|]|type]; auto.
    destruct (String.eqb role "assistant"); auto.
    destruct (scanContent content) as [[x|]|e] eqn:E; auto; [|discriminate].
    destruct (String.eqb x ""); auto.
    intros H. injection H as <-. eapply scanContent_trimmed, E.
Qed.

(** What the router hands to the processor. The reply is never empty and
    carries no white space at either end, so the [trim] of the processor
    changes nothing; the only exception the extraction raises is the
    TypeError of a [null] content part. A response whose [output_text] is
    not blank is answered with that text, trimmed, whatever the output
    array holds. *)
Theorem router_reply_is_trimmed (r : response) :
  (routerContent r = Throw "TypeError" \/
   exists t, routerContent r = Normal t /\ t <> "" /\ specialistOf t = t) /\
  (strim (default "" (output_text r)) <> "" ->
   routerContent r = Normal (strim (default "" (output_text r)))).
Proof.
  split.
  - destruct (routerContent r) as [t|e] eqn:E.
    + right. exists t. split; [reflexivity|]. split; [eapply routerContent_nonempty, E|].
      unfold specialistOf. revert E. unfold routerContent.
      destruct (String.eqb_spec (strim (default "" (output_text r))) "") as [Hb|Hb].
      * destruct (output r) as [items|].
        -- destruct (scanOutput items) as [x|e] eqn:Es; [|discriminate].
           intros H. injection H as <-. destruct (String.eqb x ""); [reflexivity|].
           eapply scanOutput_trimmed, Es.
        -- rewrite Hb. simpl. intros H. injection H as <-. reflexivity.
      * destruct (String.eqb_spec (strim (default "" (output_text r))) ""); [contradiction|].
        intros H. injection H as <-. apply strim_idempotent.
    + left. revert E. unfold routerContent.
      destruct (String.eqb (strim (default "" (output_text r))) ""); [|discriminate].
      destruct (output r) as [items|]; [|discriminate].
      destruct (scanOutput_total items) as [(x & ->)| ->]; [discriminate|].
      intros H. injection H as <-. reflexivity.
  - intros Hne. unfold routerContent.
    destruct (String.eqb_spec (strim (default "" (output_text r))) ""); [contradiction|].
    destruct (String.eqb_spec (strim (default "" (output_text r))) ""); [contradiction|].
    reflexivity.
Qed.

Lemma router_reply_is_trimmed_witness :
  routerContent {| output_text := Some "  REAL_ESTATE_AGENT "; output := None |} =
    Normal "REAL_ESTATE_AGENT".
Proof.
  apply (router_reply_is_trimmed {| output_text := Some "  REAL_ESTATE_AGENT "; output := None |}).
  vm_compute. discriminate.
Defined.

End RouterFacts.

(** ** The interim message *)

Module InterimFacts.
Import JsString Js Routing Processor.

Lemma lowerChar_upperChar ch : lowerChar (upperChar ch) = lowerChar ch.
Proof. destruct ch as [[] [] [] [] [] [] [] []]; reflexivity. Qed.

Lemma lowerChar_idempotent ch : lowerChar (lowerChar ch) = lowerChar ch.
Proof. destruct ch as [[] [] [] [] [] [] [] []]; reflexivity. Qed.

Lemma toLowerCase_toUpperCase s : toLowerCase (toUpperCase s) = toLowerCase s.
Proof. induction s as [|ch s IH]; simpl; [reflexivity|]. now rewrite lowerChar_upperChar, IH. Qed.

Lemma toLowerCase_idempotent s : toLowerCase (toLowerCase s) = toLowerCase s.
Proof. induction s as [|ch s IH]; simpl; [reflexivity|]. now rewrite lowerChar_idempotent, IH. Qed.

(** The interim message is one of five fixed texts and does not depend on
    the case in which the message was written; a message that mentions
    'my' or 'workspace' gets the workspace text whatever else it
    mentions. *)
Theorem interim_message_ignores_case (messageBody : string) :
  generateInterimMessage (toUpperCase messageBody) = generateInterimMessage messageBody /\
  generateInterimMessage (toLowerCase messageBody) = generateInterimMessage messageBody /\
  In (generateInterimMessage messageBody)
    [workspaceInterim; propertyInterim; marketInterim; dataInterim; defaultInterim] /\
  (includes (toLowerCase messageBody) "my" = true ->
   generateInterimMessage messageBody = workspaceInterim).
Proof.
  unfold generateInterimMessage.
  rewrite toLowerCase_toUpperCase, toLowerCase_idempotent.
  split; [reflexivity|]. split; [reflexivity|]. split.
  - repeat match goal with |- context [if ?b then _ else _] => destruct b end;
      simpl; auto 6.
  - intros ->. reflexivity.
Qed.

Lemma interim_message_ignores_case_witness :
  generateInterimMessage "Is the ECONOMY a property market?" = workspaceInterim.
Proof.
  apply (interim_message_ignores_case "Is the ECONOMY a property market?").
  vm_compute. reflexivity.
Defined.

End InterimFacts.

(** ** Masking telephone numbers *)

Module MaskingFacts.
Import JsString Js PiiMasking.

Lemma masked_length digits :
  (7 <= length digits)%nat ->
  length (masked digits) = (7 + Nat.min (length digits - 7) 4)%nat.
Proof.
  intros H. unfold masked.
  rewrite !length_app, length_take, repeat_length, length_drop. lia.
Qed.

Lemma length_string_of_list_ascii l :
  String.length (string_of_list_ascii l) = length l.
Proof. induction l as [|ch l IH]; simpl; [reflexivity | now rewrite IH]. Qed.

(** What a masked number gives away. The result never has more than 14
    code units. Of a number with at least seven digits it shows the first
    four and the last three characters and nothing else: two numbers of
    the same length that agree there have the same mask. A number of
    exactly seven characters is therefore shown whole, and of a longer one
    at most four asterisks stand for everything in between. *)
Theorem mask_shows_seven_characters (a b : string) :
  (String.length (maskPhoneNumber (JStr a)) <= 14)%nat /\
  (a <> "" -> b <> "" ->
   length (cleaned a) = length (cleaned b) ->
   take 4 (cleaned a) = take 4 (cleaned b) ->
   drop (length (cleaned a) - 3) (cleaned a) = drop (length (cleaned b) - 3) (cleaned b) ->
   maskPhoneNumber (JStr a) = maskPhoneNumber (JStr b)) /\
  (length (cleaned a) = 7%nat ->
   maskPhoneNumber (JStr a) = string_of_list_ascii (cleaned a)).
Proof.
  split; [|split].
  - unfold maskPhoneNumber. destruct (String.eqb a ""); [simpl; lia|].
    destruct (Nat.ltb_spec (length (cleaned a)) 7); [simpl; lia|].
    rewrite length_string_of_list_ascii, masked_length by lia. lia.
  - intros Ha Hb Hlen Hhead Htail. unfold maskPhoneNumber.
    destruct (String.eqb_spec a ""); [contradiction|].
    destruct (String.eqb_spec b ""); [contradiction|].
    rewrite <- Hlen. destruct (length (cleaned a) <? 7)%nat; [reflexivity|].
    unfold masked. rewrite Hhead, Htail, Hlen. reflexivity.
  - intros H7. unfold maskPhoneNumber.
    destruct (String.eqb_spec a "") as [->|_]; [discriminate|].
    rewrite H7. simpl (7 <? 7)%nat. cbv iota. f_equal. unfold masked. rewrite H7.
    simpl. rewrite <- (take_drop 4 (cleaned a)) at 3. reflexivity.
Qed.

Lemma mask_shows_seven_characters_witness :
  maskPhoneNumber (JStr "+13125550100") = maskPhoneNumber (JStr "+13129990100") /\
  maskPhoneNumber (JStr "555-0100") = "5550100".
Proof.
  destruct (mask_shows_seven_characters "+13125550100" "+13129990100") as (_ & H & _).
  destruct (mask_shows_seven_characters "555-0100" "") as (_ & _ & H7).
  split.
  - apply H; [discriminate | discriminate | reflexivity | reflexivity | reflexivity].
  - rewrite H7; reflexivity.
Defined.

End MaskingFacts.

(** ** The ATTOM client *)

Module AttomFacts.
Import JsString Js JsObject AttomClient AttomScenarios InterimFacts.

(** The four names the conversion spells out are what [toLowerCase]
    gives anyway. *)
Lemma attomKey_lower key : attomKey key = toLowerCase key.
Proof.
  unfold attomKey.
  repeat match goal with
         | |- context [String.eqb key ?s] => destruct (String.eqb_spec key s) as [->|?]
         end; reflexivity.
Qed.

Lemma setField_Forall (P : string * jsval -> Prop) k v fields :
  P (k, v) -> Forall P fields -> Forall P (setField k v fields).
Proof.
  intros Hkv. induction 1 as [|[k' v'] r Hx Hr IH]; simpl; [repeat constructor; exact Hkv|].
  destruct (String.eqb k' k); constructor; auto.
Qed.

Lemma convert_Forall entries :
  Forall (fun kv => isGiven (snd kv) = true /\ toLowerCase (fst kv) = fst kv)
    (convert entries).
Proof.
  unfold convert.
  assert (H : forall acc,
            Forall (fun kv => isGiven (snd kv) = true /\ toLowerCase (fst kv) = fst kv) acc ->
            Forall (fun kv => isGiven (snd kv) = true /\ toLowerCase (fst kv) = fst kv)
              (fold_left (fun attomParams kv =>
                            if isGiven (snd kv)
                            then setField (attomKey (fst kv)) (snd kv) attomParams
                            else attomParams) entries acc)).
  { induction entries as [|[k v] entries IH]; intros acc Hacc; simpl; [exact Hacc|].
    apply IH. destruct (isGiven v) eqn:E; [|exact Hacc].
    apply setField_Forall; [|exact Hacc]. simpl. split; [exact E|].
    rewrite attomKey_lower. apply toLowerCase_idempotent. }
  apply H. constructor.
Qed.

Lemma error_is_truthy prefix text :
  prefix <> "" -> truthy (get (JObj [("error", JStr (prefix +:+ text))]) "error") = true.
Proof. intros H. destruct prefix; [contradiction | reflexivity]. Qed.

Lemma classify_cases response result :
  classify response = Normal result ->
  truthy (get result "error") = true \/
  (ok response = true /\ json response = Normal result /\
   get (get result "status") "code" = JNum 0).
Proof.
  unfold classify. destruct (ok response); [|intros H; injection H as <-; now left].
  destruct (json response) as [data|e]; [|discriminate].
  destruct (isNullish data); [discriminate|].
  destruct (truthy (get data "status")) eqn:Es.
  - destruct (get (get data "status") "code") as [| | |[|p|p]| | |] eqn:Ec;
      try (intros H; injection H as <-; now left).
    + intros H. injection H as <-. right. auto.
    + repeat (destruct p as [p|p|]; try (intros H; injection H as <-; now left)).
  - intros H. injection H as <-. now left.
Qed.

Lemma callAttomAPI_cases apiKey fetch endpoint params :
  exists result,
    callAttomAPI apiKey fetch endpoint params = Normal result /\
    (truthy (get result "error") = true \/ isData fetch endpoint params result).
Proof.
  unfold callAttomAPI. destruct (truthy apiKey); [|eexists; split; [reflexivity | now left]].
  unfold request. destruct (entriesOf params) as [entries|e] eqn:Ee.
  2:{ eexists. split; [reflexivity|]. left. now apply error_is_truthy. }
  destruct (fetch endpoint (convert entries)) as [response|e] eqn:Ef.
  2:{ eexists. split; [reflexivity|]. left. now apply error_is_truthy. }
  destruct (classify response) as [result|e] eqn:Ec.
  2:{ eexists. split; [reflexivity|]. left. now apply error_is_truthy. }
  exists result. split; [reflexivity|].
  destruct (classify_cases _ _ Ec) as [H|(H1 & H2 & H3)]; [now left | right].
  exists entries, response. auto.
Qed.



End AttomFacts.
